(** * Adaptive research workflow: state machine and A/B test engine

  A shallow embedding of [workflow/state_machine.py] and
  [testing/ab_testing.py].

  Python values are modelled as follows.
  - A context ([Dict[str, Any]]) is a finite map from key names to Python
    scalars; [ctx.get(k, d)] is the lookup with default [d].
  - Scalars are booleans, integers and floats.  Floats are idealised as
    exact rationals ([Q]); comparisons between the three scalar kinds are
    numeric, as in Python ([True == 1], [2 < 2.5]).
  - [datetime.now()] is an explicit argument [now] of every operation that
    stamps a record.
  - An object mutated in place is threaded through a state monad. *)

From Stdlib Require Import ZArith QArith Qabs Lqa.
From stdpp Require Import base option list strings gmap pretty.

Open Scope Z_scope.
Open Scope string_scope.
Open Scope list_scope.

(** ** Python scalars *)

Module Py.

Inductive value :=
| VBool (b : bool)
| VInt (z : Z)
| VFloat (q : Q).

(** Numeric reading of a scalar ([bool] is a subclass of [int]). *)
Definition num (v : value) : Q :=
  match v with
  | VBool b => if b then 1%Q else 0%Q
  | VInt z => inject_Z z
  | VFloat q => q
  end.

(** [bool(v)]: the truth value used by [if v:]. *)
Definition truthy (v : value) : bool :=
  negb (Qeq_bool (num v) 0).

Definition Qlt_bool (x y : Q) : bool := negb (Qle_bool y x).

Definition ltb (a b : value) : bool := Qlt_bool (num a) (num b).
Definition gtb (a b : value) : bool := Qlt_bool (num b) (num a).
Definition eqb (a b : value) : bool := Qeq_bool (num a) (num b).

(** [ctx.get(key, dflt)] *)
Definition get (ctx : gmap string value) (key : string) (dflt : value) : value :=
  default dflt (ctx !! key).

End Py.

Abbreviation Context := (gmap string Py.value).

(** ** The workflow state machine ([workflow/state_machine.py]) *)

Module Workflow.

Inductive WorkflowState :=
| PLANNING | SEARCHING | ANALYZING | VALIDATING
| REFINING | SYNTHESIZING | COMPLETED | FAILED.

#[global] Instance WorkflowState_eq_dec : EqDecision WorkflowState.
Proof. solve_decision. Defined.

(** The enum member's [.value]. *)
Definition value (s : WorkflowState) : string :=
  match s with
  | PLANNING => "planning"
  | SEARCHING => "searching"
  | ANALYZING => "analyzing"
  | VALIDATING => "validating"
  | REFINING => "refining"
  | SYNTHESIZING => "synthesizing"
  | COMPLETED => "completed"
  | FAILED => "failed"
  end.

Record StateTransition := mkTransition {
  from_state : WorkflowState;
  to_state : WorkflowState;
  condition : string;
  timestamp : Z;
  reason : string
}.

(** The fields of a [ResearchStateMachine] that [next_state], [backtrack]
    and [get_state_path] read or write.  ([transition_rules] is a table of
    named lambdas that no method consults.) *)
Record ResearchStateMachine := mkMachine {
  current_state : WorkflowState;
  state_history : list StateTransition;
  context : Context
}.

(** [ResearchStateMachine.__init__] *)
Definition init : ResearchStateMachine :=
  {| current_state := PLANNING; state_history := []; context := ∅ |}.

(** Methods mutate [self]: a state monad over the machine. *)
Definition M (A : Type) : Type := ResearchStateMachine -> A * ResearchStateMachine.

Definition ret {A} (a : A) : M A := fun m => (a, m).
Definition bind {A B} (c : M A) (k : A -> M B) : M B :=
  fun m => let '(a, m') := c m in k a m'.

Declare Scope machine_scope.
Delimit Scope machine_scope with machine.
Notation "x <- c ;; k" := (bind c (fun x => k))
  (at level 100, c at next level, right associativity) : machine_scope.
Notation "c ;;; k" := (bind c (fun _ => k))
  (at level 100, right associativity) : machine_scope.
Local Open Scope machine_scope.

Definition get_current : M WorkflowState := fun m => (current_state m, m).
Definition get_history : M (list StateTransition) := fun m => (state_history m, m).
Definition set_current (s : WorkflowState) : M unit :=
  fun m => (tt, {| current_state := s; state_history := state_history m;
                   context := context m |}).
Definition set_history (h : list StateTransition) : M unit :=
  fun m => (tt, {| current_state := current_state m; state_history := h;
                   context := context m |}).
Definition set_context (ctx : Context) : M unit :=
  fun m => (tt, {| current_state := current_state m;
                   state_history := state_history m; context := ctx |}).

(** [_transition_to]: record and execute a transition. *)
Definition _transition_to (now : Z) (new_state : WorkflowState) (why : string)
  : M WorkflowState :=
  cur <- get_current ;;
  let transition :=
    {| from_state := cur; to_state := new_state; condition := why;
       timestamp := now; reason := why |} in
  h <- get_history ;;
  set_history (h ++ [transition]) ;;;
  set_current new_state ;;;
  ret new_state.

Definition _should_validate (ctx : Context) : M bool :=
  if Py.eqb (Py.get ctx "results_found" (Py.VInt 0)) (Py.VInt 0) then ret false
  else
    cur <- get_current ;;
    if decide (cur = VALIDATING) then ret false
    else ret (Py.gtb (Py.get ctx "contradictions" (Py.VInt 0)) (Py.VInt 2)
              || Py.ltb (Py.get ctx "confidence" (Py.VFloat 1)) (Py.VFloat (1 # 2))).

Definition _is_stuck (ctx : Context) : M bool :=
  cur <- get_current ;;
  if decide (cur = REFINING) then ret false
  else ret (Py.gtb (Py.get ctx "iterations_without_progress" (Py.VInt 0)) (Py.VInt 2)).

Definition _can_complete (ctx : Context) : M bool :=
  cur <- get_current ;;
  ret (Py.gtb (Py.get ctx "confidence" (Py.VInt 0)) (Py.VFloat (8 # 10))
       && Py.gtb (Py.get ctx "coverage" (Py.VInt 0)) (Py.VFloat (75 # 100))
       && Py.eqb (Py.get ctx "contradictions" (Py.VInt 99)) (Py.VInt 0)
       && bool_decide (cur = SYNTHESIZING)).

Definition _next_from_planning (now : Z) (ctx : Context) : M WorkflowState :=
  _transition_to now SEARCHING "plan_complete".

Definition _next_from_searching (now : Z) (ctx : Context) : M WorkflowState :=
  if Py.eqb (Py.get ctx "results_found" (Py.VInt 0)) (Py.VInt 0)
  then _transition_to now REFINING "no_results"
  else _transition_to now ANALYZING "results_found".

Definition _next_from_analyzing (now : Z) (ctx : Context) : M WorkflowState :=
  let confidence := Py.get ctx "confidence" (Py.VFloat (1 # 2)) in
  if Py.ltb confidence (Py.VFloat (6 # 10))
  then _transition_to now SEARCHING "low_confidence"
  else if Py.gtb (Py.get ctx "contradictions" (Py.VInt 0)) (Py.VInt 2)
  then _transition_to now VALIDATING "contradictions_found"
  else if Py.gtb (Py.get ctx "coverage" (Py.VInt 0)) (Py.VFloat (7 # 10))
  then _transition_to now SYNTHESIZING "sufficient_coverage"
  else _transition_to now SEARCHING "coverage_incomplete".

Definition _next_from_validating (now : Z) (ctx : Context) : M WorkflowState :=
  if Py.truthy (Py.get ctx "validation_passed" (Py.VBool false))
  then _transition_to now SYNTHESIZING "validation_passed"
  else _transition_to now REFINING "validation_failed".

Definition _next_from_refining (now : Z) (ctx : Context) : M WorkflowState :=
  if Py.gtb (Py.get ctx "iterations_without_progress" (Py.VInt 0)) (Py.VInt 2)
  then _transition_to now SYNTHESIZING "forcing_synthesis_stuck_in_loop"
  else if Py.gtb (Py.get ctx "coverage" (Py.VInt 0)) (Py.VFloat (7 # 10))
          && Py.gtb (Py.get ctx "results_found" (Py.VInt 0)) (Py.VInt 0)
  then _transition_to now SYNTHESIZING "sufficient_results_for_synthesis"
  else _transition_to now SEARCHING "strategy_refined".

Definition _next_from_synthesizing (now : Z) (ctx : Context) : M WorkflowState :=
  let quality := Py.get ctx "synthesis_quality" (Py.VFloat (1 # 2)) in
  if Py.gtb quality (Py.VFloat (8 # 10))
  then _transition_to now COMPLETED "high_quality_synthesis"
  else _transition_to now ANALYZING "synthesis_needs_improvement".

(** The dispatch table built inside [next_state]; COMPLETED and FAILED
    have no entry. *)
Definition next_state_map (s : WorkflowState)
  : option (Z -> Context -> M WorkflowState) :=
  match s with
  | PLANNING => Some _next_from_planning
  | SEARCHING => Some _next_from_searching
  | ANALYZING => Some _next_from_analyzing
  | VALIDATING => Some _next_from_validating
  | REFINING => Some _next_from_refining
  | SYNTHESIZING => Some _next_from_synthesizing
  | COMPLETED | FAILED => None
  end.

Definition next_state (now : Z) (ctx : Context) : M WorkflowState :=
  set_context ctx ;;;
  current <- get_current ;;
  sv <- _should_validate ctx ;;
  if sv then _transition_to now VALIDATING "contradictions_detected" else
  st <- _is_stuck ctx ;;
  if st then _transition_to now REFINING "stuck_in_loop" else
  cc <- _can_complete ctx ;;
  if cc then _transition_to now COMPLETED "objectives_met" else
  match next_state_map current with
  | Some next_func => next_func now ctx
  | None => ret current
  end.

Definition get_state_path : M (list string) :=
  cur <- get_current ;;
  h <- get_history ;;
  ret ([value cur] ++ map (fun t => value (to_state t)) h).

Definition can_backtrack : M bool :=
  h <- get_history ;;
  ret (bool_decide (0 < length h)%nat).

(** [state_history.pop()], on a non-empty list. *)
Definition pop : M unit :=
  h <- get_history ;;
  set_history (removelast h).

(** [for _ in range(steps): body] *)
Fixpoint repeat_times (n : nat) (body : M unit) : M unit :=
  match n with
  | O => ret tt
  | S n' => body ;;; repeat_times n' body
  end.

Definition backtrack (steps : Z) : M WorkflowState :=
  cb <- can_backtrack ;;
  h <- get_history ;;
  if negb cb || (Z.of_nat (length h) <? steps)%Z then get_current
  else
    repeat_times (Z.to_nat steps) pop ;;;
    h' <- get_history ;;
    match last h' with
    | Some t => set_current (to_state t)
    | None => set_current PLANNING
    end ;;;
    get_current.

Definition is_terminal (s : WorkflowState) : bool :=
  match s with COMPLETED | FAILED => true | _ => false end.

(** The keys [next_state] and its helpers read from the context. *)
Definition required_keys : list string :=
  ["confidence"; "coverage"; "contradictions"; "iterations_without_progress";
   "results_found"; "validation_passed"; "synthesis_quality"].

(** The machines a caller can obtain: a fresh one, and whatever
    [next_state] and [backtrack] leave behind. *)
Inductive reachable : ResearchStateMachine -> Prop :=
| reach_init : reachable init
| reach_next now ctx m :
    reachable m -> reachable (next_state now ctx m).2
| reach_backtrack steps m :
    reachable m -> reachable (backtrack steps m).2.

(** The current state is the destination of the last recorded transition,
    or PLANNING when nothing is recorded. *)
Definition history_invariant (m : ResearchStateMachine) : Prop :=
  current_state m = from_option to_state PLANNING (last (state_history m)).

(** Feed a sequence of contexts to a machine, one [next_state] call each. *)
Definition drive (m : ResearchStateMachine) (ctxs : list Context)
  : ResearchStateMachine :=
  foldl (fun m ctx => (next_state 0 ctx m).2) m ctxs.

End Workflow.

(** ** The A/B test engine ([testing/ab_testing.py]) *)

Module ABTesting.

Inductive Variant := A | B | CONTROL.

(** [Variant(s)]: lookup of an enum member by value. *)
Definition Variant_of_value (s : string) : option Variant :=
  if decide (s = "A") then Some A
  else if decide (s = "B") then Some B
  else if decide (s = "control") then Some CONTROL
  else None.

(** A Python [dict] with string keys: an association list in insertion
    order whose keys are kept distinct by [dict_set]. *)
Abbreviation dict V := (list (string * V)).

Fixpoint dict_get {V} (k : string) (d : dict V) : option V :=
  match d with
  | [] => None
  | (k', v) :: d' => if decide (k' = k) then Some v else dict_get k d'
  end.

(** [d[k] = v]: overwrite in place, or append a new key. *)
Fixpoint dict_set {V} (k : string) (v : V) (d : dict V) : dict V :=
  match d with
  | [] => [(k, v)]
  | (k', v') :: d' =>
      if decide (k' = k) then (k', v) :: d' else (k', v') :: dict_set k v d'
  end.

Definition keys {V} (d : dict V) : list string := map fst d.

Record TestResult := mkResult {
  variant : Variant;
  metric_name : string;
  metric_value : Q;
  timestamp : Z;
  metadata : dict string
}.

Record ABTest := mkTest {
  name : string;
  metric : string;
  variants : dict string;
  results : list TestResult;
  variant_stats : dict (list Q)
}.

(** [ABTest.__init__]; the variant configurations are opaque to the engine
    and are kept as strings. *)
Definition new (name metric : string) (variants : dict string) : ABTest :=
  {| name := name; metric := metric; variants := variants; results := [];
     variant_stats := foldl (fun d v => dict_set v [] d) [] (keys variants) |}.

Inductive exn :=
| KeyError (key : string)
| ValueError (msg : string).

Inductive outcome (T : Type) :=
| Ok (a : T)
| Raise (e : exn).
Arguments Ok {T} a.
Arguments Raise {T} e.

(** Methods mutate [self] and may raise; what was mutated before the
    exception stays mutated. *)
Definition E (T : Type) : Type := ABTest -> outcome T * ABTest.

Definition ret {T} (a : T) : E T := fun t => (Ok a, t).
Definition raise {T} (e : exn) : E T := fun t => (Raise e, t).
Definition bind {T U} (c : E T) (k : T -> E U) : E U :=
  fun t => match c t with
           | (Ok a, t') => k a t'
           | (Raise e, t') => (Raise e, t')
           end.

Declare Scope abtest_scope.
Delimit Scope abtest_scope with abtest.
Notation "x <- c ;; k" := (bind c (fun x => k))
  (at level 100, c at next level, right associativity) : abtest_scope.
Notation "c ;;; k" := (bind c (fun _ => k))
  (at level 100, right associativity) : abtest_scope.
Local Open Scope abtest_scope.

Definition get_results : E (list TestResult) := fun t => (Ok (results t), t).
Definition get_stats : E (dict (list Q)) := fun t => (Ok (variant_stats t), t).
Definition get_metric : E string := fun t => (Ok (metric t), t).
Definition set_results (r : list TestResult) : E unit :=
  fun t => (Ok tt, {| name := name t; metric := metric t; variants := variants t;
                      results := r; variant_stats := variant_stats t |}).
Definition set_stats (s : dict (list Q)) : E unit :=
  fun t => (Ok tt, {| name := name t; metric := metric t; variants := variants t;
                      results := results t; variant_stats := s |}).

(** [d[k]] as an expression. *)
Definition subscript {V} (d : dict V) (k : string) : E V :=
  match dict_get k d with
  | Some v => ret v
  | None => raise (KeyError k)
  end.

Definition Variant_call (s : string) : E Variant :=
  match Variant_of_value s with
  | Some v => ret v
  | None => raise (ValueError s)
  end.

(** [ABTest.record_result]; [metadata] is [None] when omitted. *)
Definition record_result (now : Z) (variant : string) (metric_value : Q)
    (metadata : option (dict string)) : E unit :=
  v <- (if bool_decide (variant ∈ ["A"; "B"]) then Variant_call variant
        else ret CONTROL) ;;
  m <- get_metric ;;
  let result :=
    {| variant := v; metric_name := m; metric_value := metric_value;
       timestamp := now; metadata := default [] metadata |} in
  r <- get_results ;;
  set_results (r ++ [result]) ;;;
  s <- get_stats ;;
  values <- subscript s variant ;;
  set_stats (dict_set variant (values ++ [metric_value]) s).

Record VariantStat := mkStat {
  mean : Q;
  count : nat;
  std : Q
}.

(** What [get_winner] returns: [{"winner": None, "reason": ...}] or
    [{"winner": ..., "mean": ..., "confidence": ..., "all_stats": ...}]. *)
Inductive Report :=
| NoWinner (reason : string)
| Declared (winner : string) (mean : Q) (confidence : Q)
    (all_stats : dict VariantStat).

Definition winner (r : Report) : option string :=
  match r with
  | NoWinner _ => None
  | Declared w _ _ _ => Some w
  end.

(** [sum(values)] *)
Definition py_sum (values : list Q) : Q := foldl Qplus 0%Q values.

Definition len {T} (l : list T) : Q := inject_Z (Z.of_nat (length l)).

(** Two-argument [max(a, b)] and [min(a, b)]: the first argument wins ties. *)
Definition py_max2 (a b : Q) : Q := if Py.Qlt_bool a b then b else a.
Definition py_min2 (a b : Q) : Q := if Py.Qlt_bool b a then b else a.

(** [max(seq, key=...)]: the first element whose key is maximal. *)
Definition max_by {T} (key : T -> Q) (seq : list T) : option T :=
  match seq with
  | [] => None
  | x :: rest =>
      Some (foldl (fun best y => if Py.Qlt_bool (key best) (key y) then y else best)
                  x rest)
  end.

Section Engine.

(** [x ** 0.5] on floats; the square root has no exact rational model and is
    left abstract. *)
Variable pow_half : Q -> Q.

Definition _std (values : list Q) : Q :=
  if (length values <? 2)%nat then 0%Q
  else
    let mean := (py_sum values / len values)%Q in
    let variance :=
      (py_sum (map (fun x => (x - mean) ^ 2) values)
       / (len values - 1))%Q in
    pow_half variance.

(** The entry [get_winner] computes for a variant from its values. *)
Definition variant_stat (values : list Q) : VariantStat :=
  {| mean := (py_sum values / len values)%Q;
     count := length values;
     std := _std values |}.

(** One round of the statistics loop of [get_winner]: a variant without
    values is skipped. *)
Definition stat_step (stats : dict VariantStat) (item : string * list Q)
  : dict VariantStat :=
  let '(variant, values) := item in
  match values with
  | [] => stats
  | _ => dict_set variant (variant_stat values) stats
  end.

Definition compute_stats (variant_stats : dict (list Q)) : dict VariantStat :=
  foldl stat_step [] variant_stats.

Definition _calculate_confidence (winner : string) (stats : dict VariantStat)
  : outcome Q :=
  match dict_get winner stats with
  | None => Raise (KeyError winner)
  | Some ws =>
      let winner_mean := mean ws in
      let margins :=
        foldl (fun margins '(variant, variant_stats) =>
                 if decide (variant ≠ winner)
                 then margins ++
                        [((winner_mean - mean variant_stats)
                          / py_max2 winner_mean (1 # 100))%Q]
                 else margins) [] stats in
      match margins with
      | [] => Ok (1 # 2)%Q
      | _ =>
          let avg_margin := (py_sum margins / len margins)%Q in
          Ok (py_min2 (95 # 100) ((1 # 2) + avg_margin)%Q)
      end
  end.

Definition insufficient_reason (min_samples : Z) (have : nat) : string :=
  "Insufficient data (need " +:+ pretty min_samples +:+ " samples, have "
    +:+ pretty have +:+ ")".

(** [ABTest.get_winner]; it reads the test and mutates nothing. *)
Definition get_winner (min_samples : Z) (t : ABTest) : outcome Report :=
  if (Z.of_nat (length (results t)) <? min_samples)%Z
  then Ok (NoWinner (insufficient_reason min_samples (length (results t))))
  else
    let stats := compute_stats (variant_stats t) in
    match max_by (fun x => mean x.2) stats with
    | None => Raise (ValueError "max() arg is an empty sequence")
    | Some best_variant =>
        match _calculate_confidence best_variant.1 stats with
        | Raise e => Raise e
        | Ok c => Ok (Declared best_variant.1 (mean best_variant.2) c stats)
        end
    end.

End Engine.

(** The tests a caller can obtain: a fresh one, and whatever
    [record_result] leaves behind, whether it returned or raised. *)
Inductive reachable : ABTest -> Prop :=
| reach_new name metric variants : reachable (new name metric variants)
| reach_record now variant metric_value metadata t :
    reachable t ->
    reachable (record_result now variant metric_value metadata t).2.

(** The tests on which every [record_result] call so far has returned. *)
Inductive cleanly_recorded : ABTest -> Prop :=
| clean_new name metric variants : cleanly_recorded (new name metric variants)
| clean_record now variant metric_value metadata t :
    cleanly_recorded t ->
    (record_result now variant metric_value metadata t).1 = Ok tt ->
    cleanly_recorded (record_result now variant metric_value metadata t).2.

(** Record a batch of (variant, value) pairs, ignoring exceptions as a
    caller with a blanket [except] would. *)
Definition record_all (t : ABTest) (batch : list (string * Q)) : ABTest :=
  foldl (fun t '(variant, x) => (record_result 0 variant x None t).2) t batch.

(** The [Variant] tag stored with a result. *)
Definition tag_of (variant : string) : Variant :=
  if decide (variant = "A") then A
  else if decide (variant = "B") then B else CONTROL.

Definition result_of (now : Z) (variant : string) (x : Q)
    (metadata : option (dict string)) (t : ABTest) : TestResult :=
  {| variant := tag_of variant; metric_name := metric t; metric_value := x;
     timestamp := now; metadata := default [] metadata |}.

(** Every variant registered at construction has a value list, and only
    those have one. *)
Definition stats_cover_variants (t : ABTest) : Prop :=
  ∀ k, k ∈ keys (variant_stats t) <-> k ∈ keys (variants t).

(** The number of values held in the per-variant lists. *)
Definition total_values (d : dict (list Q)) : nat :=
  sum_list (map (fun e => length e.2) d).

(** The per-variant lists hold exactly one value per recorded result. *)
Definition stats_match_results (t : ABTest) : Prop :=
  length (results t) = total_values (variant_stats t).

(** *** The confidence heuristic in words *)

Definition average (l : list Q) : Q := (py_sum l / len l)%Q.

Definition relative_margin (winner_mean other_mean : Q) : Q :=
  ((winner_mean - other_mean) / py_max2 winner_mean (1 # 100))%Q.

Definition clamp (lo hi x : Q) : Q := py_max2 lo (py_min2 hi x).

(** The heuristic as the specification words it: the average relative
    margin, clamped to [0.5, 0.95]; 0.5 when there is no other variant. *)
Definition clamped_average_margin (winner_mean : Q) (others : list Q) : Q :=
  match others with
  | [] => (1 # 2)%Q
  | _ => clamp (1 # 2) (95 # 100) (average (map (relative_margin winner_mean) others))
  end.

(** The heuristic with the average margin added to a base of 0.5 and the
    sum capped at 0.95. *)
Definition capped_margin_over_half (winner_mean : Q) (others : list Q) : Q :=
  match others with
  | [] => (1 # 2)%Q
  | _ => py_min2 (95 # 100)
           ((1 # 2) + average (map (relative_margin winner_mean) others))%Q
  end.

(** The means of the variants in [stats] other than [winner]. *)
Definition other_means (winner : string) (stats : dict VariantStat) : list Q :=
  map (fun e => mean e.2) (filter (fun e => e.1 ≠ winner) stats).

(** *** The range of a float *)

(** The rationals of this model stand for Python floats, whose arithmetic
    is not total: the power [(x - mean) ** 2] in [_std] raises
    [OverflowError] when its result exceeds the largest double, about
    1.8 * 10^308 (two values 1e200 and -1e200 are enough).  Values of
    magnitude at most 10^150 stay clear of it: their mean has at most that
    magnitude, a deviation from the mean at most 2 * 10^150, and its square
    at most 4 * 10^300. *)
Definition MODERATE : Q := inject_Z (10 ^ 150).

(** Every value held in the per-variant lists has a moderate magnitude. *)
Definition moderate_values (t : ABTest) : bool :=
  forallb (fun e => forallb (fun x => Qle_bool (Qabs x) MODERATE) e.2)
          (variant_stats t).

End ABTesting.

(** ** The transition graph of the state machine *)

Module Transitions.
Import Workflow.

(** The states [next_state] can move to from each state: the targets of
    the priority rules that are not suppressed there, and of the state's own
    row of the dispatch table. *)
Definition successors (s : WorkflowState) : list WorkflowState :=
  match s with
  | PLANNING => [VALIDATING; REFINING; SEARCHING]
  | SEARCHING => [VALIDATING; REFINING; ANALYZING]
  | ANALYZING => [VALIDATING; REFINING; SEARCHING; SYNTHESIZING]
  | VALIDATING => [REFINING; SYNTHESIZING]
  | REFINING => [VALIDATING; SYNTHESIZING; SEARCHING]
  | SYNTHESIZING => [VALIDATING; REFINING; COMPLETED; ANALYZING]
  | COMPLETED | FAILED => [VALIDATING; REFINING]
  end.

(** A history that starts in [start], in which every transition leaves the
    state the previous one entered, follows an edge of the graph and carries
    its reason in both text fields. *)
Fixpoint chained (start : WorkflowState) (h : list StateTransition) : Prop :=
  match h with
  | [] => True
  | t :: h' =>
      from_state t = start
      ∧ to_state t ∈ successors (from_state t)
      ∧ condition t = reason t
      ∧ chained (to_state t) h'
  end.

(** A machine in state [s] that has recorded nothing. *)
Definition parked (s : WorkflowState) : ResearchStateMachine :=
  {| current_state := s; state_history := []; context := ∅ |}.

(** Contexts that between them exercise every edge of the graph. *)
Definition contradicting_ctx : Context :=
  <["results_found" := Py.VInt 1]> (<["contradictions" := Py.VInt 3]> ∅).

Definition stagnant_ctx : Context :=
  {["iterations_without_progress" := Py.VInt 3]}.

Definition confident_ctx : Context :=
  <["results_found" := Py.VInt 1]>
  (<["confidence" := Py.VFloat (9 # 10)]>
  (<["coverage" := Py.VFloat (8 # 10)]>
  (<["contradictions" := Py.VInt 0]> ∅))).

Definition validated_ctx : Context :=
  {["validation_passed" := Py.VBool true]}.

(** Stagnation reported together with met completion criteria. *)
Definition stalled_but_complete_ctx : Context :=
  <["iterations_without_progress" := Py.VInt 3]> confident_ctx.

Definition edge_contexts : list Context :=
  [∅; contradicting_ctx; stagnant_ctx; confident_ctx; validated_ctx].

End Transitions.

(** ** Views of a test used to state its properties *)

Module ABViews.
Import ABTesting.

(** The values a batch holds for one variant name, in batch order. *)
Definition values_for (k : string) (batch : list (string * Q)) : list Q :=
  map snd (filter (fun e => e.1 = k) batch).

(** The variants that hold at least one value, in dictionary order. *)
Definition with_data (vs : dict (list Q)) : list string :=
  keys (filter (fun e => e.2 ≠ []) vs).

(** The sum of the [count] fields of a statistics table. *)
Definition total_count (stats : dict VariantStat) : nat :=
  sum_list (map (fun e => count e.2) stats).

(** A batch in which A and B tie on their means, and B then falls behind. *)
Definition tie_batch : list (string * Q) :=
  [("B", (1 # 2)%Q); ("A", (1 # 2)%Q)].

End ABViews.

(** ** The registry of tests ([ABTestManager]) *)

Module Manager.
Import ABTesting.

(** Tests are objects: the manager's dictionary holds references, and a
    caller that keeps the reference returned by [create_test] reaches the
    same object that [get_test] returns.  [objects] is the store of the
    tests created so far, a reference is an index into it. *)
Record ABTestManager := mkManager {
  objects : list ABTest;
  active_tests : dict nat
}.

(** [ABTestManager.__init__] *)
Definition empty : ABTestManager := {| objects := []; active_tests := [] |}.

Definition create_test (name metric : string) (variants : dict string)
    (mg : ABTestManager) : nat * ABTestManager :=
  let test := length (objects mg) in
  (test,
   {| objects := objects mg ++ [new name metric variants];
      active_tests := dict_set name test (active_tests mg) |}).

(** [get_test]: [None] for a name that is not registered. *)
Definition get_test (name : string) (mg : ABTestManager) : option nat :=
  dict_get name (active_tests mg).

Definition list_tests (mg : ABTestManager) : list string :=
  keys (active_tests mg).

(** The object behind a reference. *)
Definition deref (test : nat) (mg : ABTestManager) : option ABTest :=
  objects mg !! test.

(** [test.record_result(variant, metric_value, metadata)] through a
    reference; the object is updated in place, also when the call raises. *)
Definition record_on (now : Z) (test : nat) (variant : string) (metric_value : Q)
    (metadata : option (dict string)) (mg : ABTestManager)
  : option (outcome unit) * ABTestManager :=
  match objects mg !! test with
  | Some t =>
      let '(r, t') := record_result now variant metric_value metadata t in
      (Some r, {| objects := <[test := t']> (objects mg);
                  active_tests := active_tests mg |})
  | None => (None, mg)
  end.

(** The managers a program can build. *)
Inductive reachable : ABTestManager -> Prop :=
| reach_empty : reachable empty
| reach_create name metric variants mg :
    reachable mg -> reachable (create_test name metric variants mg).2
| reach_record now test variant metric_value metadata mg :
    reachable mg ->
    reachable (record_on now test variant metric_value metadata mg).2.

(** Every registered name refers to a live test that carries that name,
    and no two names share a test. *)
Definition registry_sound (mg : ABTestManager) : Prop :=
  NoDup (list_tests mg)
  ∧ (∀ n a, get_test n mg = Some a ->
            ∃ t, deref a mg = Some t ∧ name t = n)
  ∧ (∀ n n' a, get_test n mg = Some a -> get_test n' mg = Some a -> n = n').

(** The two tests the advanced pipeline registers at start-up. *)
Definition pipeline_tests : ABTestManager :=
  (create_test "analysis_depth" "confidence" [("A", "deep"); ("B", "standard")]
     (create_test "planning_strategy" "plan_quality"
        [("A", "comprehensive"); ("B", "focused")] empty).2).2.

End Manager.

(** ** The adaptive pipeline ([pipeline_advanced.py]) *)

Module Validation.

(** [validation/fact_checker.py] *)
Inductive ValidationLevel := HIGH | MEDIUM | LOW | FAILED.

#[global] Instance ValidationLevel_eq_dec : EqDecision ValidationLevel.
Proof. solve_decision. Defined.

Record ValidationResult := mkValidation {
  claim : string;
  level : ValidationLevel;
  confidence : Q;
  explanation : string
}.

End Validation.

Module Pipeline.

(** [ResearchStep] of [research_agent.py]; the fields the pipeline's metrics
    never read ([phase], [results]) are left out. *)
Record ResearchStep := mkStep {
  step_number : Z;
  query : string;
  reasoning : string;
  confidence : Q
}.

(** The part of an [AdvancedResearchPipeline] that the context builder and
    the adaptive loop read or write.  A plan step is kept as its query; only
    the length of the plan is ever read here. *)
Record AdvancedResearchPipeline := mkPipeline {
  research_history : list ResearchStep;
  research_plan : list string;
  validation_results : list Validation.ValidationResult;
  final_report : string;
  iterations_without_progress : Z;
  previous_confidence : Q;
  state_machine : Workflow.ResearchStateMachine
}.

(** The state [__init__] leaves. *)
Definition fresh : AdvancedResearchPipeline :=
  {| research_history := []; research_plan := []; validation_results := [];
     final_report := ""; iterations_without_progress := 0;
     previous_confidence := 0; state_machine := Workflow.init |}.

Definition _calculate_confidence (p : AdvancedResearchPipeline) : Q :=
  match research_history p with
  | [] => 0%Q
  | _ =>
      let total_confidence := ABTesting.py_sum (map confidence (research_history p)) in
      (total_confidence / ABTesting.len (research_history p))%Q
  end.

Definition _calculate_coverage (p : AdvancedResearchPipeline) : Q :=
  match research_plan p with
  | [] => 0%Q
  | _ =>
      let completed := Z.of_nat (length (research_history p)) in
      let planned := Z.of_nat (length (research_plan p)) in
      ABTesting.py_min2 1 (inject_Z completed / inject_Z (Z.max planned 1))%Q
  end.

Definition is_failed (v : Validation.ValidationResult) : bool :=
  bool_decide (Validation.level v = Validation.FAILED).

Definition _count_contradictions (p : AdvancedResearchPipeline) : Z :=
  match validation_results p with
  | [] => 0
  | _ => Z.of_nat (length (filter (fun v => is_failed v = true) (validation_results p)))
  end.

(** [l[-3:]] *)
Definition last_three {T} (l : list T) : list T := drop (length l - 3) l.

Definition _validation_passed (p : AdvancedResearchPipeline) : bool :=
  match validation_results p with
  | [] => true
  | _ =>
      let recent_validations := last_three (validation_results p) in
      forallb (fun v => negb (is_failed v)) recent_validations
  end.

Definition _calculate_synthesis_quality (p : AdvancedResearchPipeline) : Q :=
  if decide (final_report p = "") then 0%Q
  else
    let length_score :=
      ABTesting.py_min2 1 (inject_Z (Z.of_nat (String.length (final_report p))) / 1000)%Q in
    let confidence_score := _calculate_confidence p in
    ((length_score + confidence_score) / 2)%Q.

Definition set_tracking (iwp : Z) (prev : Q) (p : AdvancedResearchPipeline)
  : AdvancedResearchPipeline :=
  {| research_history := research_history p; research_plan := research_plan p;
     validation_results := validation_results p; final_report := final_report p;
     iterations_without_progress := iwp; previous_confidence := prev;
     state_machine := state_machine p |}.

Definition set_machine (m : Workflow.ResearchStateMachine)
    (p : AdvancedResearchPipeline) : AdvancedResearchPipeline :=
  {| research_history := research_history p; research_plan := research_plan p;
     validation_results := validation_results p; final_report := final_report p;
     iterations_without_progress := iterations_without_progress p;
     previous_confidence := previous_confidence p;
     state_machine := m |}.

(** The dictionary literal of [_build_context]. *)
Definition context_of (confidence coverage : Q) (contradictions iwp results_found : Z)
    (validation_passed : bool) (synthesis_quality : Q) : Context :=
  <["confidence" := Py.VFloat confidence]>
  (<["coverage" := Py.VFloat coverage]>
  (<["contradictions" := Py.VInt contradictions]>
  (<["iterations_without_progress" := Py.VInt iwp]>
  (<["results_found" := Py.VInt results_found]>
  (<["validation_passed" := Py.VBool validation_passed]>
  (<["synthesis_quality" := Py.VFloat synthesis_quality]> ∅)))))).

(** [_build_context]: returns the context and updates the stagnation
    counter and the remembered confidence. *)
Definition _build_context (p : AdvancedResearchPipeline)
  : Context * AdvancedResearchPipeline :=
  match research_history p, research_plan p with
  | [], [] =>
      let iwp := (iterations_without_progress p + 1)%Z in
      (context_of 0 0 0 iwp 0 false 0,
       set_tracking iwp (previous_confidence p) p)
  | _, _ =>
      let confidence := _calculate_confidence p in
      let coverage := _calculate_coverage p in
      let contradictions := _count_contradictions p in
      let progress_made :=
        Py.Qlt_bool (5 # 100) (Qabs (confidence - previous_confidence p)) in
      let iwp := if negb progress_made
                 then (iterations_without_progress p + 1)%Z else 0%Z in
      let p' := set_tracking iwp confidence p in
      (context_of confidence coverage contradictions iwp
         (Z.of_nat (length (research_history p')))
         (_validation_passed p') (_calculate_synthesis_quality p'),
       p')
  end.

(** The pipeline after a [_build_context] call; iterating it is calling
    the builder again and again on unchanged research data. *)
Definition rebuilt (p : AdvancedResearchPipeline) : AdvancedResearchPipeline :=
  (_build_context p).2.

(** [Config.MAX_RESEARCH_ITERATIONS] *)
Definition MAX_RESEARCH_ITERATIONS : Z := 10.

(** [max_iterations or Config.MAX_RESEARCH_ITERATIONS] *)
Definition iteration_budget (max_iterations : option Z) : Z :=
  match max_iterations with
  | None => MAX_RESEARCH_ITERATIONS
  | Some n => if (n =? 0)%Z then MAX_RESEARCH_ITERATIONS else n
  end.

Section AdaptiveLoop.

(** The state-specific activities ([_adaptive_planning], ...) call the
    language model and the search tools; they are left abstract.  They
    change the research data only: the state machine, the stagnation counter
    and the remembered confidence are written by the loop alone. *)
Variable activity :
  Workflow.WorkflowState -> AdvancedResearchPipeline -> AdvancedResearchPipeline.

(** The wall clock at the [next_state] call of each iteration. *)
Variable clock : Z -> Z.

Definition run_activity (s : Workflow.WorkflowState) (p : AdvancedResearchPipeline)
  : AdvancedResearchPipeline :=
  let p' := activity s p in
  {| research_history := research_history p'; research_plan := research_plan p';
     validation_results := validation_results p'; final_report := final_report p';
     iterations_without_progress := iterations_without_progress p;
     previous_confidence := previous_confidence p;
     state_machine := state_machine p |}.

(** The pipeline as [_build_context] sees it in a round: after the
    activity of the current state. *)
Definition observed (p : AdvancedResearchPipeline) : AdvancedResearchPipeline :=
  run_activity (Workflow.current_state (state_machine p)) p.

(** The condition of the [while] loop of [execute]. *)
Definition keeps_going (max_iterations iteration : Z) (p : AdvancedResearchPipeline)
  : bool :=
  bool_decide (Workflow.current_state (state_machine p) ≠ Workflow.COMPLETED)
  && bool_decide (Workflow.current_state (state_machine p) ≠ Workflow.FAILED)
  && (iteration <? max_iterations)%Z.

(** One round of the loop body. *)
Definition iterate (iteration : Z) (p : AdvancedResearchPipeline)
  : Z * AdvancedResearchPipeline :=
  let iteration := (iteration + 1)%Z in
  let current_state := Workflow.current_state (state_machine p) in
  let p1 := run_activity current_state p in
  let '(context, p2) := _build_context p1 in
  let '(_, m) := Workflow.next_state (clock iteration) context (state_machine p2) in
  (iteration, set_machine m p2).

Fixpoint adaptive_loop (fuel : nat) (max_iterations iteration : Z)
    (p : AdvancedResearchPipeline) : Z * AdvancedResearchPipeline :=
  match fuel with
  | O => (iteration, p)
  | S fuel' =>
      if keeps_going max_iterations iteration p
      then let '(iteration', p') := iterate iteration p in
           adaptive_loop fuel' max_iterations iteration' p'
      else (iteration, p)
  end.

(** The adaptive loop of [execute]: at most [max_iterations] rounds are ever
    run, so that much fuel is enough. *)
Definition execute_loop (max_iterations : option Z) (p : AdvancedResearchPipeline)
  : Z * AdvancedResearchPipeline :=
  let max_iterations := iteration_budget max_iterations in
  adaptive_loop (Z.to_nat max_iterations) max_iterations 0 p.

End AdaptiveLoop.

(** A machine in COMPLETED sits on confident research with recent
    progress. *)
Definition completed_soundly (p : AdvancedResearchPipeline) : Prop :=
  Workflow.current_state (state_machine p) = Workflow.COMPLETED ->
  research_history p ≠ []
  ∧ (6 # 10 < _calculate_confidence p)%Q
  ∧ (iterations_without_progress p <= 2)%Z.

(** Sample research data. *)
Definition sure_step : ResearchStep :=
  {| step_number := 1; query := "q"; reasoning := "r"; confidence := 9 # 10 |}.

Definition failed_validation : Validation.ValidationResult :=
  {| Validation.claim := "c"; Validation.level := Validation.FAILED;
     Validation.confidence := 1 # 10; Validation.explanation := "e" |}.

(** One confident step out of a one-step plan, and a report. *)
Definition researched : AdvancedResearchPipeline :=
  {| research_history := [sure_step]; research_plan := ["q"];
     validation_results := []; final_report := "report";
     iterations_without_progress := 0; previous_confidence := 0;
     state_machine := Transitions.parked Workflow.SYNTHESIZING |}.

(** One step, and one validation that failed. *)
Definition disputed : AdvancedResearchPipeline :=
  {| research_history := [sure_step]; research_plan := ["q"];
     validation_results := [failed_validation]; final_report := "";
     iterations_without_progress := 0; previous_confidence := 0;
     state_machine := Workflow.init |}.

(** An activity that, whatever the state, ends with one confident step, a
    one-step plan and a report. *)
Definition lucky_activity (s : Workflow.WorkflowState)
    (p : AdvancedResearchPipeline) : AdvancedResearchPipeline :=
  {| research_history := [sure_step]; research_plan := ["q"];
     validation_results := []; final_report := "report";
     iterations_without_progress := iterations_without_progress p;
     previous_confidence := previous_confidence p;
     state_machine := state_machine p |}.

(** An activity whose single step changes its confidence from round to
    round, always above 0.8. *)
Definition improving_activity (s : Workflow.WorkflowState)
    (p : AdvancedResearchPipeline) : AdvancedResearchPipeline :=
  let c := match s with
           | Workflow.PLANNING | Workflow.ANALYZING => (85 # 100)%Q
           | _ => (95 # 100)%Q
           end in
  {| research_history :=
       [{| step_number := 1; query := "q"; reasoning := "r"; confidence := c |}];
     research_plan := ["q"];
     validation_results := []; final_report := "report";
     iterations_without_progress := iterations_without_progress p;
     previous_confidence := previous_confidence p;
     state_machine := state_machine p |}.

End Pipeline.

(** * Sample inputs *)

Module Samples.
Import Py Workflow.

(** A stagnating, SYNTHESIZING-ready context that also carries
    contradictions: the escalation still wins. *)
Definition escalating_ctx : Context :=
  <["results_found" := VInt 5]>
  (<["contradictions" := VInt 3]>
  (<["confidence" := VFloat (9 # 10)]>
  (<["coverage" := VFloat (8 # 10)]>
  (<["iterations_without_progress" := VInt 7]> ∅)))).

(** A context under which research goes well: results, high confidence,
    good coverage, no contradictions. *)
Definition healthy_ctx : Context :=
  <["results_found" := VInt 1]>
  (<["confidence" := VFloat (9 # 10)]>
  (<["coverage" := VFloat (8 # 10)]>
  (<["contradictions" := VInt 0]> ∅))).

(** Only the stagnation counter is set, above its threshold. *)
Definition stalled_ctx : Context :=
  {["iterations_without_progress" := VInt 3]}.

(** Stagnation together with contradictions among existing results. *)
Definition stalled_contradicting_ctx : Context :=
  <["iterations_without_progress" := VInt 3]>
  (<["results_found" := VInt 1]>
  (<["contradictions" := VInt 3]> ∅)).

(** PLANNING -> SEARCHING -> ANALYZING -> SYNTHESIZING -> COMPLETED. *)
Definition completed_machine : ResearchStateMachine :=
  drive init [∅; healthy_ctx; healthy_ctx; healthy_ctx].

(** PLANNING -> SEARCHING -> REFINING. *)
Definition refining_machine : ResearchStateMachine :=
  drive init [∅; ∅].

(** PLANNING -> SEARCHING. *)
Definition searching_machine : ResearchStateMachine :=
  drive init [∅].

End Samples.

Module ABSamples.
Import ABTesting.

(** A rational stand-in for [x ** 0.5]: five Newton steps from 1. *)
Definition newton_sqrt (x : Q) : Q :=
  Nat.iter 5 (fun r => Qred ((r + x / r) / 2)) 1%Q.

(** The "planning_strategy" test of the advanced pipeline. *)
Definition planning_test : ABTest :=
  new "planning_strategy" "plan_quality" [("A", "comprehensive"); ("B", "focused")].

(** One result per variant: A scored 1.0, B scored 0.75. *)
Definition two_results : ABTest :=
  record_all planning_test [("A", 1%Q); ("B", (3 # 4)%Q)].

(** A single result recorded under a name that was never registered. *)
Definition stray_result : ABTest :=
  record_all planning_test [("C", 1%Q)].

Definition batch_29 : list (string * Q) :=
  concat (replicate 14 [("A", (3 # 4)%Q); ("B", (1 # 2)%Q)]) ++ [("A", 1%Q)].

Definition results_29 : ABTest := record_all planning_test batch_29.

Definition results_30 : ABTest :=
  record_all planning_test (batch_29 ++ [("B", (1 # 4)%Q)]).

End ABSamples.

(** * Properties *)

Module PyFacts.
Import Py.

Lemma Qlt_bool_iff x y : Qlt_bool x y = true <-> (x < y)%Q.
Proof.
  unfold Qlt_bool. rewrite negb_true_iff.
  split.
  - intros H. apply Qnot_le_lt. intros Hle.
    apply Qle_bool_iff in Hle. congruence.
  - intros H. destruct (Qle_bool y x) eqn:E; [|reflexivity].
    apply Qle_bool_iff in E. exfalso. apply (Qlt_not_le _ _ H E).
Qed.

Lemma Qlt_bool_false x y : Qlt_bool x y = false <-> (y <= x)%Q.
Proof.
  unfold Qlt_bool. rewrite negb_false_iff. apply Qle_bool_iff.
Qed.

Lemma get_absent ctx key dflt : ctx !! key = None -> get ctx key dflt = dflt.
Proof. intros H. unfold get. rewrite H. reflexivity. Qed.

End PyFacts.

Module WorkflowSpec.
Import Py Workflow PyFacts Samples.

(** [_transition_to] appends one record and moves the machine. *)
Lemma transition_to_spec now s why m :
  _transition_to now s why m =
  (s, {| current_state := s;
         state_history := state_history m ++
           [{| from_state := current_state m; to_state := s; condition := why;
               timestamp := now; reason := why |}];
         context := context m |}).
Proof. reflexivity. Qed.

(** The three priority checks are read-only, and none of them looks at the
    stored context. *)
Lemma should_validate_pure ctx m :
  _should_validate ctx m = ((_should_validate ctx m).1, m).
Proof.
  unfold _should_validate.
  destruct (Py.eqb _ _); [reflexivity|].
  unfold Workflow.bind, get_current.
  destruct (decide _); reflexivity.
Qed.

Lemma should_validate_ctx ctx c m :
  (_should_validate ctx (set_context c m).2).1 = (_should_validate ctx m).1.
Proof.
  unfold _should_validate.
  destruct (Py.eqb _ _); [reflexivity|].
  unfold Workflow.bind, get_current, set_context; cbn.
  destruct (decide _); reflexivity.
Qed.

Lemma is_stuck_pure ctx m : _is_stuck ctx m = ((_is_stuck ctx m).1, m).
Proof.
  unfold _is_stuck, Workflow.bind, get_current.
  destruct (decide _); reflexivity.
Qed.

Lemma is_stuck_ctx ctx c m :
  (_is_stuck ctx (set_context c m).2).1 = (_is_stuck ctx m).1.
Proof.
  unfold _is_stuck, Workflow.bind, get_current, set_context; cbn.
  destruct (decide _); reflexivity.
Qed.

Lemma can_complete_pure ctx m : _can_complete ctx m = ((_can_complete ctx m).1, m).
Proof. reflexivity. Qed.

Lemma can_complete_ctx ctx c m :
  (_can_complete ctx (set_context c m).2).1 = (_can_complete ctx m).1.
Proof. reflexivity. Qed.

(** [next_state] as a decision list over the machine with the new context
    stored. *)
Lemma next_state_unfold now ctx m :
  next_state now ctx m =
  let m0 := (set_context ctx m).2 in
  if (_should_validate ctx m).1
  then _transition_to now VALIDATING "contradictions_detected" m0
  else if (_is_stuck ctx m).1
  then _transition_to now REFINING "stuck_in_loop" m0
  else if (_can_complete ctx m).1
  then _transition_to now COMPLETED "objectives_met" m0
  else match next_state_map (current_state m) with
       | Some next_func => next_func now ctx m0
       | None => (current_state m, m0)
       end.
Proof.
  unfold next_state.
  unfold Workflow.bind at 1. cbn [set_context].
  set (m0 := {| current_state := _ |}).
  change m0 with (set_context ctx m).2.
  unfold Workflow.bind at 1. cbn [get_current].
  unfold Workflow.bind at 1.
  rewrite should_validate_pure, should_validate_ctx.
  destruct (_should_validate ctx m).1; [reflexivity|].
  unfold Workflow.bind at 1.
  rewrite is_stuck_pure, is_stuck_ctx.
  destruct (_is_stuck ctx m).1; [reflexivity|].
  unfold Workflow.bind at 1.
  rewrite can_complete_pure, can_complete_ctx.
  destruct (_can_complete ctx m).1; [reflexivity|].
  change (current_state (set_context ctx m).2) with (current_state m).
  destruct (next_state_map (current_state m)); reflexivity.
Qed.

(** [_should_validate] in terms of the context values it reads. *)
Lemma should_validate_true ctx m :
  current_state m ≠ VALIDATING ->
  (0 < num (get ctx "results_found" (VInt 0)))%Q ->
  (2 < num (get ctx "contradictions" (VInt 0)))%Q
  ∨ (num (get ctx "confidence" (VFloat 1)) < 1 # 2)%Q ->
  (_should_validate ctx m).1 = true.
Proof.
  intros Hst Hres Hesc. unfold _should_validate.
  assert (Py.eqb (get ctx "results_found" (VInt 0)) (VInt 0) = false) as ->.
  { unfold Py.eqb. destruct (Qeq_bool _ _) eqn:E; [|reflexivity].
    apply Qeq_bool_iff in E. cbn [num] in E. rewrite E in Hres.
    exfalso. revert Hres. apply Qlt_irrefl. }
  unfold Workflow.bind, get_current.
  destruct (decide _) as [Heq|_]; [contradiction|].
  cbn [fst Workflow.ret]. apply orb_true_iff.
  destruct Hesc as [H|H]; [left|right]; apply Qlt_bool_iff; exact H.
Qed.

Lemma should_validate_value ctx m :
  (_should_validate ctx m).1 =
  negb (Py.eqb (get ctx "results_found" (VInt 0)) (VInt 0))
  && negb (bool_decide (current_state m = VALIDATING))
  && (Py.gtb (get ctx "contradictions" (VInt 0)) (VInt 2)
      || Py.ltb (get ctx "confidence" (VFloat 1)) (VFloat (1 # 2))).
Proof.
  unfold _should_validate.
  destruct (Py.eqb _ _); [reflexivity|].
  unfold Workflow.bind, get_current.
  destruct (decide _) as [H|H].
  - rewrite (bool_decide_eq_true_2 _ H). reflexivity.
  - rewrite (bool_decide_eq_false_2 _ H). reflexivity.
Qed.

Lemma should_validate_no_results ctx m :
  Py.eqb (get ctx "results_found" (VInt 0)) (VInt 0) = true ->
  (_should_validate ctx m).1 = false.
Proof. intros H. unfold _should_validate. rewrite H. reflexivity. Qed.

Lemma is_stuck_value ctx m :
  (_is_stuck ctx m).1 =
  if decide (current_state m = REFINING) then false
  else Py.gtb (get ctx "iterations_without_progress" (VInt 0)) (VInt 2).
Proof.
  unfold _is_stuck, Workflow.bind, get_current.
  destruct (decide _); reflexivity.
Qed.

Lemma can_complete_not_synthesizing ctx m :
  current_state m ≠ SYNTHESIZING -> (_can_complete ctx m).1 = false.
Proof.
  intros H. unfold _can_complete, Workflow.bind, get_current.
  cbn [fst Workflow.ret]. rewrite (bool_decide_eq_false_2 _ H).
  apply andb_false_r.
Qed.

(** ** C4: contradiction escalation *)

(** C4.  From any non-terminal state other than VALIDATING, a context with
    [results_found > 0] and ([contradictions > 2] or [confidence < 0.5])
    makes [next_state] return VALIDATING and record exactly one transition
    with reason "contradictions_detected".  Nothing is assumed about
    [iterations_without_progress], [coverage] or the other keys, so the rule
    wins over stagnation escalation, early completion and the state-local
    table. *)
Theorem contradiction_escalation now ctx m :
  is_terminal (current_state m) = false ->
  current_state m ≠ VALIDATING ->
  (0 < num (get ctx "results_found" (VInt 0)))%Q ->
  (2 < num (get ctx "contradictions" (VInt 0)))%Q
  ∨ (num (get ctx "confidence" (VFloat 1)) < 1 # 2)%Q ->
  next_state now ctx m =
  (VALIDATING,
   {| current_state := VALIDATING;
      state_history := state_history m ++
        [{| from_state := current_state m; to_state := VALIDATING;
            condition := "contradictions_detected"; timestamp := now;
            reason := "contradictions_detected" |}];
      context := ctx |}).
Proof.
  intros _ Hst Hres Hesc.
  rewrite next_state_unfold. cbv zeta.
  rewrite (should_validate_true ctx m Hst Hres Hesc).
  apply transition_to_spec.
Qed.

Lemma contradiction_escalation_witness :
  (next_state 42 escalating_ctx searching_machine).1 = VALIDATING.
Proof.
  rewrite (contradiction_escalation 42 escalating_ctx searching_machine).
  - reflexivity.
  - reflexivity.
  - discriminate.
  - vm_compute. reflexivity.
  - left. vm_compute. reflexivity.
Defined.

(** ** C1: terminal states *)

(** C1, as stated, fails: the machine that has reached COMPLETED leaves it
    for REFINING, recording a fifth transition, when the next context
    reports stagnation. *)
Lemma terminal_state_left_by_stagnation :
  reachable completed_machine
  ∧ current_state completed_machine = COMPLETED
  ∧ (next_state 0 stalled_ctx completed_machine).1 = REFINING
  ∧ current_state (next_state 0 stalled_ctx completed_machine).2 = REFINING
  ∧ length (state_history completed_machine) = 4%nat
  ∧ length (state_history (next_state 0 stalled_ctx completed_machine).2) = 5%nat.
Proof.
  split.
  - unfold completed_machine, drive. cbn [foldl].
    repeat apply reach_next. apply reach_init.
  - vm_compute. repeat split; reflexivity.
Qed.

(** C1, amended.  In COMPLETED or FAILED, when neither the contradiction
    check nor the stagnation check fires, [next_state] returns the current
    state, records nothing and leaves the state where it is: early
    completion and the state-local table have nothing for a terminal
    state. *)
Theorem terminal_state_kept now ctx m :
  is_terminal (current_state m) = true ->
  (_should_validate ctx m).1 = false ->
  (_is_stuck ctx m).1 = false ->
  next_state now ctx m =
  (current_state m,
   {| current_state := current_state m;
      state_history := state_history m;
      context := ctx |}).
Proof.
  intros Hterm Hsv Hst.
  rewrite next_state_unfold. cbv zeta. rewrite Hsv, Hst.
  rewrite can_complete_not_synthesizing
    by (intros E; rewrite E in Hterm; discriminate).
  cbn [set_context snd].
  destruct (current_state m); try discriminate Hterm; reflexivity.
Qed.

Lemma terminal_state_kept_witness :
  next_state 7 healthy_ctx completed_machine =
  (COMPLETED,
   {| current_state := COMPLETED;
      state_history := state_history completed_machine;
      context := healthy_ctx |}).
Proof.
  apply (terminal_state_kept 7 healthy_ctx completed_machine);
    vm_compute; reflexivity.
Defined.

(** ** C3: the REFINING exit valve *)

(** C3, as stated, fails: in REFINING with a stagnation counter of 3, a
    context that also has results and 3 contradictions sends the machine to
    VALIDATING, not SYNTHESIZING. *)
Lemma refining_valve_preempted :
  reachable refining_machine
  ∧ current_state refining_machine = REFINING
  ∧ (2 < num (get stalled_contradicting_ctx "iterations_without_progress" (VInt 0)))%Q
  ∧ (next_state 0 stalled_contradicting_ctx refining_machine).1 = VALIDATING.
Proof.
  split.
  - unfold refining_machine, drive. cbn [foldl].
    repeat apply reach_next. apply reach_init.
  - vm_compute. repeat split; reflexivity.
Qed.

(** C3, amended.  In REFINING with [iterations_without_progress > 2], and
    when the contradiction check does not fire, [next_state] returns
    SYNTHESIZING with reason "forcing_synthesis_stuck_in_loop", whatever
    the coverage and the other context values are. *)
Theorem refining_exit_valve now ctx m :
  current_state m = REFINING ->
  (2 < num (get ctx "iterations_without_progress" (VInt 0)))%Q ->
  (_should_validate ctx m).1 = false ->
  next_state now ctx m =
  (SYNTHESIZING,
   {| current_state := SYNTHESIZING;
      state_history := state_history m ++
        [{| from_state := REFINING; to_state := SYNTHESIZING;
            condition := "forcing_synthesis_stuck_in_loop"; timestamp := now;
            reason := "forcing_synthesis_stuck_in_loop" |}];
      context := ctx |}).
Proof.
  intros Hcur Hiwp Hsv.
  rewrite next_state_unfold. cbv zeta. rewrite Hsv.
  rewrite is_stuck_value, Hcur.
  destruct (decide (REFINING = REFINING)) as [_|Hne]; [|contradiction].
  rewrite can_complete_not_synthesizing by (rewrite Hcur; discriminate).
  cbn [next_state_map]. unfold _next_from_refining.
  assert (Py.gtb (get ctx "iterations_without_progress" (VInt 0)) (VInt 2) = true)
    as -> by (apply Qlt_bool_iff; exact Hiwp).
  rewrite transition_to_spec. cbn [set_context snd current_state state_history context].
  try rewrite Hcur. reflexivity.
Qed.

Lemma refining_exit_valve_witness :
  (next_state 3 stalled_ctx refining_machine).1 = SYNTHESIZING.
Proof.
  rewrite (refining_exit_valve 3 stalled_ctx refining_machine).
  - reflexivity.
  - reflexivity.
  - vm_compute. reflexivity.
  - vm_compute. reflexivity.
Defined.

(** ** C5: the first step *)

(** C5, as stated, fails: a fresh machine given a context whose stagnation
    counter is 3 goes from PLANNING to REFINING. *)
Lemma planning_left_for_refining :
  current_state init = PLANNING
  ∧ (next_state 0 stalled_ctx init).1 = REFINING.
Proof. vm_compute. split; reflexivity. Qed.

(** C5, amended.  A new machine is in PLANNING, and from PLANNING, when
    neither the contradiction check nor the stagnation check fires,
    [next_state] returns SEARCHING with reason "plan_complete". *)
Theorem planning_then_searching :
  current_state init = PLANNING
  ∧ ∀ now ctx m,
      current_state m = PLANNING ->
      (_should_validate ctx m).1 = false ->
      (_is_stuck ctx m).1 = false ->
      next_state now ctx m =
      (SEARCHING,
       {| current_state := SEARCHING;
          state_history := state_history m ++
            [{| from_state := PLANNING; to_state := SEARCHING;
                condition := "plan_complete"; timestamp := now;
                reason := "plan_complete" |}];
          context := ctx |}).
Proof.
  split; [reflexivity|].
  intros now ctx m Hcur Hsv Hst.
  rewrite next_state_unfold. cbv zeta. rewrite Hsv, Hst.
  rewrite can_complete_not_synthesizing by (rewrite Hcur; discriminate).
  rewrite Hcur. cbn [next_state_map]. unfold _next_from_planning.
  rewrite transition_to_spec. cbn [set_context snd current_state state_history context].
  try rewrite Hcur. reflexivity.
Qed.

Lemma planning_then_searching_witness :
  (next_state 1 healthy_ctx init).1 = SEARCHING.
Proof.
  rewrite (proj2 planning_then_searching 1 healthy_ctx init).
  - reflexivity.
  - reflexivity.
  - vm_compute. reflexivity.
  - vm_compute. reflexivity.
Defined.

(** ** C6: missing context keys *)

Lemma get_required_absent (ctx : Context) key dflt :
  (∀ k, k ∈ required_keys -> ctx !! k = None) ->
  key ∈ required_keys ->
  get ctx key dflt = dflt.
Proof. intros H Hin. apply get_absent, H, Hin. Qed.

(** C6.  When none of the required keys is present in the context (the
    empty mapping in particular), [next_state] from a non-terminal state
    never returns COMPLETED: it returns SEARCHING, ANALYZING or REFINING,
    and that is the new current state. *)
Theorem missing_keys_never_complete now (ctx : Context) m :
  is_terminal (current_state m) = false ->
  (∀ k, k ∈ required_keys -> ctx !! k = None) ->
  (next_state now ctx m).1 ≠ COMPLETED
  ∧ (next_state now ctx m).1 ∈ [SEARCHING; ANALYZING; REFINING]
  ∧ current_state (next_state now ctx m).2 = (next_state now ctx m).1.
Proof.
  intros Hterm Habs.
  rewrite next_state_unfold. cbv zeta.
  rewrite should_validate_no_results.
  2:{ rewrite (get_required_absent ctx _ _ Habs)
        by (unfold required_keys; set_solver). reflexivity. }
  rewrite is_stuck_value.
  rewrite (get_required_absent ctx "iterations_without_progress" _ Habs)
    by (unfold required_keys; set_solver).
  assert ((_can_complete ctx m).1 = false) as ->.
  { unfold _can_complete, Workflow.bind, get_current. cbn [fst Workflow.ret].
    rewrite (get_required_absent ctx "confidence" _ Habs)
      by (unfold required_keys; set_solver).
    reflexivity. }
  replace (if decide (current_state m = REFINING) then false
           else Py.gtb (VInt 0) (VInt 2)) with false
    by (destruct (decide _); reflexivity).
  destruct (current_state m) eqn:Hcur; try discriminate Hterm;
    cbn [next_state_map];
    unfold _next_from_planning, _next_from_searching, _next_from_analyzing,
      _next_from_validating, _next_from_refining, _next_from_synthesizing;
    rewrite ?(get_required_absent ctx "results_found" _ Habs),
      ?(get_required_absent ctx "confidence" _ Habs),
      ?(get_required_absent ctx "contradictions" _ Habs),
      ?(get_required_absent ctx "coverage" _ Habs),
      ?(get_required_absent ctx "validation_passed" _ Habs),
      ?(get_required_absent ctx "iterations_without_progress" _ Habs),
      ?(get_required_absent ctx "synthesis_quality" _ Habs)
      by (unfold required_keys; set_solver);
    cbn; (split; [discriminate | split; [set_solver | reflexivity]]).
Qed.

Lemma missing_keys_never_complete_witness :
  (next_state 0 ∅ refining_machine).1 ≠ COMPLETED
  ∧ (next_state 0 ∅ refining_machine).1 ∈ [SEARCHING; ANALYZING; REFINING]
  ∧ current_state (next_state 0 ∅ refining_machine).2
    = (next_state 0 ∅ refining_machine).1.
Proof.
  apply (missing_keys_never_complete 0 ∅ refining_machine).
  - reflexivity.
  - intros k _. apply lookup_empty.
Defined.

(** ** C2: the state path *)

(** [get_state_path] reads the machine and leaves it alone; the path it
    returns starts with the CURRENT state. *)
Lemma get_state_path_spec m :
  get_state_path m =
  (value (current_state m) :: map (fun t => value (to_state t)) (state_history m), m).
Proof. reflexivity. Qed.

(** C2 fails on the code: after the single transition PLANNING -> SEARCHING
    the reported path is "searching", "searching"; the claimed path, the
    initial state followed by the recorded destinations, is "planning",
    "searching". *)
Theorem state_path_starts_with_current_state :
  reachable searching_machine
  ∧ map to_state (state_history searching_machine) = [SEARCHING]
  ∧ (get_state_path searching_machine).1 = ["searching"; "searching"]
  ∧ (get_state_path searching_machine).1 ≠
      value PLANNING :: map (fun t => value (to_state t))
                            (state_history searching_machine).
Proof.
  split; [apply (reach_next 0 ∅ init), reach_init|].
  vm_compute. repeat split; try reflexivity. discriminate.
Qed.

(** ** C9: current state and history agree *)

(** Every entry of the dispatch table ends in one [_transition_to]. *)
Lemma next_func_transitions s f now ctx m :
  next_state_map s = Some f ->
  ∃ s' why, f now ctx m = _transition_to now s' why m.
Proof.
  destruct s; intros [= <-];
    unfold _next_from_planning, _next_from_searching, _next_from_analyzing,
      _next_from_validating, _next_from_refining, _next_from_synthesizing;
    cbv zeta;
    repeat match goal with
           | |- context [if ?b then _ else _] => destruct b
           end; eauto.
Qed.

(** [next_state] either records one transition into the state it returns,
    or returns the current state and records nothing. *)
Lemma next_state_step now ctx m :
  (∃ t, state_history (next_state now ctx m).2 = state_history m ++ [t]
        ∧ from_state t = current_state m
        ∧ to_state t = current_state (next_state now ctx m).2
        ∧ (next_state now ctx m).1 = current_state (next_state now ctx m).2)
  ∨ (state_history (next_state now ctx m).2 = state_history m
     ∧ current_state (next_state now ctx m).2 = current_state m
     ∧ (next_state now ctx m).1 = current_state m).
Proof.
  rewrite next_state_unfold. cbv zeta.
  assert (∀ s why,
    ∃ t, state_history (_transition_to now s why (set_context ctx m).2).2
         = state_history m ++ [t]
       ∧ from_state t = current_state m
       ∧ to_state t = current_state (_transition_to now s why (set_context ctx m).2).2
       ∧ (_transition_to now s why (set_context ctx m).2).1
         = current_state (_transition_to now s why (set_context ctx m).2).2) as Htr.
  { intros s why. rewrite transition_to_spec. eexists. cbn. eauto. }
  destruct (_should_validate ctx m).1; [left; apply Htr|].
  destruct (_is_stuck ctx m).1; [left; apply Htr|].
  destruct (_can_complete ctx m).1; [left; apply Htr|].
  destruct (next_state_map (current_state m)) as [f|] eqn:Hmap.
  - destruct (next_func_transitions _ f now ctx (set_context ctx m).2 Hmap)
      as (s' & why & ->).
    left; apply Htr.
  - right. cbn. auto.
Qed.

Lemma history_invariant_init : history_invariant init.
Proof. reflexivity. Qed.

Lemma history_invariant_next_state now ctx m :
  history_invariant m -> history_invariant (next_state now ctx m).2.
Proof.
  intros Hinv. unfold history_invariant.
  destruct (next_state_step now ctx m) as [(t & Hh & _ & Ht & _)|(Hh & Hc & _)].
  - rewrite Hh, last_snoc. cbn [from_option]. symmetry. exact Ht.
  - rewrite Hh, Hc. exact Hinv.
Qed.

(** What the popping loop of [backtrack] leaves. *)
Lemma repeat_pop_spec n m :
  repeat_times n pop m =
  (tt, {| current_state := current_state m;
          state_history := Nat.iter n (@removelast _) (state_history m);
          context := context m |}).
Proof.
  revert m. induction n as [|n IH]; intros m.
  - destruct m; reflexivity.
  - cbn [repeat_times]. unfold Workflow.bind at 1.
    unfold pop at 1, Workflow.bind at 1, get_history, set_history.
    rewrite IH. cbn [current_state state_history context].
    rewrite <- Nat.iter_succ_r. reflexivity.
Qed.

(** [backtrack] either refuses and changes nothing, or drops the last
    [steps] transitions and restores the state they lead from. *)
Lemma backtrack_spec steps m :
  backtrack steps m =
  if bool_decide (state_history m = [])
     || (Z.of_nat (length (state_history m)) <? steps)%Z
  then (current_state m, m)
  else
    let h := Nat.iter (Z.to_nat steps) (@removelast _) (state_history m) in
    let s := from_option to_state PLANNING (last h) in
    (s, {| current_state := s; state_history := h; context := context m |}).
Proof.
  unfold backtrack, Workflow.bind at 1, can_backtrack, Workflow.bind at 1,
    get_history at 1. cbn [Workflow.ret].
  unfold Workflow.bind at 1, get_history at 1.
  assert (negb (bool_decide (0 < length (state_history m))%nat)
          = bool_decide (state_history m = [])) as ->.
  { destruct (state_history m); reflexivity. }
  destruct (_ || _); [reflexivity|].
  unfold Workflow.bind at 1. rewrite repeat_pop_spec.
  unfold Workflow.bind at 1, get_history. cbn [state_history].
  cbv zeta. destruct (last _); reflexivity.
Qed.

Lemma history_invariant_backtrack steps m :
  history_invariant m -> history_invariant (backtrack steps m).2.
Proof.
  intros Hinv. rewrite backtrack_spec.
  destruct (_ || _); [exact Hinv|]. reflexivity.
Qed.

Lemma reachable_history_invariant m : reachable m -> history_invariant m.
Proof.
  induction 1 as [|now ctx m _ IH|steps m _ IH].
  - apply history_invariant_init.
  - apply history_invariant_next_state, IH.
  - apply history_invariant_backtrack, IH.
Qed.

(** C9.  In every machine reachable by [next_state] and [backtrack] calls
    the current state is the destination of the last recorded transition,
    or PLANNING when the history is empty.  From such a machine
    [next_state] either appends exactly one transition, whose destination
    is the new current state, or leaves state and history as they are; and
    after [backtrack] the current state is again the destination of the
    last remaining transition, or PLANNING. *)
Theorem current_state_tracks_history m :
  reachable m ->
  history_invariant m
  ∧ (∀ now ctx,
       (∃ t, state_history (next_state now ctx m).2 = state_history m ++ [t]
             ∧ to_state t = current_state (next_state now ctx m).2)
       ∨ (state_history (next_state now ctx m).2 = state_history m
          ∧ current_state (next_state now ctx m).2 = current_state m))
  ∧ (∀ steps,
       current_state (backtrack steps m).2
       = from_option to_state PLANNING (last (state_history (backtrack steps m).2))).
Proof.
  intros Hreach.
  pose proof (reachable_history_invariant m Hreach) as Hinv.
  split; [exact Hinv|]. split.
  - intros now ctx.
    destruct (next_state_step now ctx m) as [(t & Hh & _ & Ht & _)|(Hh & Hc & _)].
    + left. eauto.
    + right. auto.
  - intros steps. apply history_invariant_backtrack, Hinv.
Qed.

Lemma current_state_tracks_history_witness :
  history_invariant (backtrack 2 completed_machine).2
  ∧ current_state (backtrack 2 completed_machine).2 = ANALYZING.
Proof.
  split.
  - refine (proj1 (current_state_tracks_history
                     (backtrack 2 completed_machine).2 _)).
    apply reach_backtrack.
    unfold completed_machine, drive. cbn [foldl].
    repeat apply reach_next. apply reach_init.
  - vm_compute. reflexivity.
Defined.

End WorkflowSpec.

Module ABTestingSpec.
Import Py ABTesting PyFacts ABSamples.

(** ** Dictionaries *)

Lemma dict_get_None {V} k (d : dict V) : dict_get k d = None <-> k ∉ keys d.
Proof.
  induction d as [|[k' v] d IH]; cbn.
  - split; [intros _; apply not_elem_of_nil | reflexivity].
  - destruct (decide (k' = k)) as [->|Hne].
    + split; [discriminate|]. intros H. exfalso. apply H. left.
    + rewrite IH, not_elem_of_cons. split; [auto|]. intros [_ H]; exact H.
Qed.

Lemma dict_get_is_Some {V} k (d : dict V) : k ∈ keys d -> is_Some (dict_get k d).
Proof.
  intros Hin. destruct (dict_get k d) eqn:E; [eauto|].
  apply dict_get_None in E. contradiction.
Qed.

Lemma keys_dict_set_in {V} k v (d : dict V) :
  k ∈ keys d -> keys (dict_set k v d) = keys d.
Proof.
  induction d as [|[k' v'] d IH]; cbn.
  - intros H. apply elem_of_nil in H. contradiction.
  - intros H. destruct (decide (k' = k)) as [->|Hne]; [reflexivity|].
    cbn. f_equal. apply IH. apply elem_of_cons in H as [->|H]; [contradiction|exact H].
Qed.

Lemma keys_dict_set_notin {V} k v (d : dict V) :
  k ∉ keys d -> keys (dict_set k v d) = keys d ++ [k].
Proof.
  induction d as [|[k' v'] d IH]; cbn; [reflexivity|].
  intros H. apply not_elem_of_cons in H as [Hne Hnin].
  destruct (decide (k' = k)) as [->|_]; [contradiction|].
  cbn. f_equal. apply IH, Hnin.
Qed.

Lemma elem_of_keys_dict_set {V} k v (d : dict V) k0 :
  k0 ∈ keys (dict_set k v d) <-> k0 = k ∨ k0 ∈ keys d.
Proof.
  destruct (decide (k ∈ keys d)) as [Hin|Hnin].
  - rewrite keys_dict_set_in by exact Hin.
    split; [auto|]. intros [->|H]; assumption.
  - rewrite keys_dict_set_notin by exact Hnin.
    rewrite elem_of_app, list_elem_of_singleton. tauto.
Qed.

Lemma NoDup_keys_dict_set {V} k v (d : dict V) :
  NoDup (keys d) -> NoDup (keys (dict_set k v d)).
Proof.
  intros Hnd. destruct (decide (k ∈ keys d)) as [Hin|Hnin].
  - rewrite keys_dict_set_in by exact Hin. exact Hnd.
  - rewrite keys_dict_set_notin by exact Hnin.
    apply NoDup_app. split; [exact Hnd|]. split.
    + intros x Hx Hx'. apply list_elem_of_singleton in Hx'. subst. contradiction.
    + apply NoDup_singleton.
Qed.

Lemma dict_get_set_eq {V} k v (d : dict V) : dict_get k (dict_set k v d) = Some v.
Proof.
  induction d as [|[k' v'] d IH]; cbn.
  - destruct (decide (k = k)); [reflexivity|contradiction].
  - destruct (decide (k' = k)) as [->|Hne]; cbn.
    + destruct (decide (k = k)); [reflexivity|contradiction].
    + destruct (decide (k' = k)); [contradiction|exact IH].
Qed.

Lemma dict_get_set_ne {V} k k0 v (d : dict V) :
  k0 ≠ k -> dict_get k0 (dict_set k v d) = dict_get k0 d.
Proof.
  intros Hne. induction d as [|[k' v'] d IH]; cbn.
  - destruct (decide (k = k0)); [congruence|reflexivity].
  - destruct (decide (k' = k)) as [->|Hne']; cbn.
    + destruct (decide (k = k0)); [congruence|reflexivity].
    + destruct (decide (k' = k0)); [reflexivity|exact IH].
Qed.

Lemma dict_get_elem_of {V} k v (d : dict V) :
  NoDup (keys d) -> (k, v) ∈ d -> dict_get k d = Some v.
Proof.
  induction d as [|[k' v'] d IH]; cbn; intros Hnd Hin.
  - apply elem_of_nil in Hin. contradiction.
  - apply NoDup_cons in Hnd as [Hnin Hnd].
    apply elem_of_cons in Hin as [[= <- <-]|Hin].
    + destruct (decide (k = k)); [reflexivity|contradiction].
    + destruct (decide (k' = k)) as [->|_].
      * exfalso. apply Hnin. apply list_elem_of_fmap. exists (k, v). auto.
      * apply IH; assumption.
Qed.

(** ** [record_result] *)

(** [record_result] in one step: the result is appended first, the
    per-variant list is looked up afterwards. *)
Lemma record_result_spec now variant x metadata t :
  record_result now variant x metadata t =
  let r := results t ++ [result_of now variant x metadata t] in
  match dict_get variant (variant_stats t) with
  | None =>
      (Raise (KeyError variant),
       {| name := name t; metric := metric t; variants := variants t;
          results := r; variant_stats := variant_stats t |})
  | Some values =>
      (Ok tt,
       {| name := name t; metric := metric t; variants := variants t;
          results := r;
          variant_stats := dict_set variant (values ++ [x]) (variant_stats t) |})
  end.
Proof.
  unfold record_result, result_of, tag_of.
  unfold ABTesting.bind at 1.
  assert ((if bool_decide (variant ∈ ["A"; "B"]) then Variant_call variant
           else ABTesting.ret CONTROL) t
          = (Ok (if decide (variant = "A") then A
                 else if decide (variant = "B") then B else CONTROL), t)) as ->.
  { unfold Variant_call, Variant_of_value.
    destruct (decide (variant = "A")) as [->|HA]; [reflexivity|].
    destruct (decide (variant = "B")) as [->|HB]; [reflexivity|].
    rewrite bool_decide_eq_false_2; [reflexivity|].
    rewrite !elem_of_cons, elem_of_nil. tauto. }
  cbv zeta. unfold ABTesting.bind, get_metric, get_results, set_results,
    get_stats, subscript, set_stats. cbn [variant_stats results name metric variants].
  destruct (dict_get variant (variant_stats t)); reflexivity.
Qed.

Lemma keys_initial_stats (ks : list string) (d : dict (list Q)) k :
  k ∈ keys (foldl (fun d v => dict_set v [] d) d ks) <-> k ∈ keys d ∨ k ∈ ks.
Proof.
  revert d. induction ks as [|k0 ks IH]; intros d; cbn [foldl].
  - rewrite elem_of_nil. tauto.
  - rewrite IH, elem_of_keys_dict_set, elem_of_cons. tauto.
Qed.

Lemma stats_cover_variants_new name metric variants :
  stats_cover_variants (new name metric variants).
Proof.
  intros k. unfold new; cbn [variant_stats ABTesting.variants].
  rewrite keys_initial_stats. cbn. rewrite elem_of_nil. tauto.
Qed.

Lemma stats_cover_variants_record now variant x metadata t :
  stats_cover_variants t ->
  stats_cover_variants (record_result now variant x metadata t).2.
Proof.
  intros Hcov k. rewrite record_result_spec. cbv zeta.
  destruct (dict_get variant (variant_stats t)) as [values|] eqn:Hget;
    cbn [snd variant_stats variants]; [|apply Hcov].
  rewrite keys_dict_set_in; [apply Hcov|].
  destruct (decide (variant ∈ keys (variant_stats t))) as [Hin|Hnin]; [exact Hin|].
  apply dict_get_None in Hnin. congruence.
Qed.

Lemma reachable_stats_cover_variants t : reachable t -> stats_cover_variants t.
Proof.
  induction 1 as [name metric variants|now variant x metadata t _ IH].
  - apply stats_cover_variants_new.
  - apply stats_cover_variants_record, IH.
Qed.

Lemma initial_stats_NoDup (ks : list string) (d : dict (list Q)) :
  NoDup (keys d) -> NoDup (keys (foldl (fun d v => dict_set v [] d) d ks)).
Proof.
  revert d. induction ks as [|k ks IH]; intros d Hd; cbn [foldl]; [exact Hd|].
  apply IH, NoDup_keys_dict_set, Hd.
Qed.

Lemma reachable_stats_NoDup t : reachable t -> NoDup (keys (variant_stats t)).
Proof.
  induction 1 as [name metric variants|now variant x metadata t _ IH].
  - apply initial_stats_NoDup. constructor.
  - rewrite record_result_spec. cbv zeta.
    destruct (dict_get variant (variant_stats t)); cbn [snd variant_stats];
      [apply NoDup_keys_dict_set|]; exact IH.
Qed.

Lemma cleanly_recorded_reachable t : cleanly_recorded t -> reachable t.
Proof.
  induction 1 as [name metric variants|now variant x metadata t _ IH _].
  - apply reach_new.
  - apply reach_record, IH.
Qed.

(** ** C10: recording under an unregistered name *)

(** C10.  On a test obtained from the constructor by [record_result]
    calls: with a variant name that is not a key of [variants],
    [record_result] raises a key error after having appended the result, so
    [results] has grown by one and [variant_stats] is unchanged; with a
    registered name it returns, [results] has the new result appended, the
    variant's value list has the new value appended, and every other
    variant's list is as before. *)
Theorem record_result_not_atomic now variant x metadata t :
  reachable t ->
  let t' := (record_result now variant x metadata t).2 in
  (variant ∉ keys (variants t) ->
     (record_result now variant x metadata t).1 = Raise (KeyError variant)
     ∧ results t' = results t ++ [result_of now variant x metadata t]
     ∧ variant_stats t' = variant_stats t)
  ∧ (variant ∈ keys (variants t) ->
     (record_result now variant x metadata t).1 = Ok tt
     ∧ results t' = results t ++ [result_of now variant x metadata t]
     ∧ (∃ values, dict_get variant (variant_stats t) = Some values
                  ∧ dict_get variant (variant_stats t') = Some (values ++ [x]))
     ∧ (∀ k, k ≠ variant ->
             dict_get k (variant_stats t') = dict_get k (variant_stats t))
     ∧ keys (variant_stats t') = keys (variant_stats t)).
Proof.
  intros Hreach t'. subst t'.
  pose proof (reachable_stats_cover_variants t Hreach) as Hcov.
  rewrite record_result_spec. cbv zeta. split.
  - intros Hnin.
    assert (dict_get variant (variant_stats t) = None) as ->.
    { apply dict_get_None. rewrite (Hcov variant). exact Hnin. }
    cbn. auto.
  - intros Hin.
    apply Hcov in Hin.
    destruct (dict_get_is_Some _ _ Hin) as [values Hget]. rewrite Hget.
    cbn [fst snd results variant_stats].
    split; [reflexivity|]. split; [reflexivity|]. split.
    + exists values. split; [reflexivity|]. apply dict_get_set_eq.
    + split.
      * intros k Hne. apply dict_get_set_ne, Hne.
      * apply keys_dict_set_in, Hin.
Qed.

Lemma record_result_not_atomic_witness :
  (record_result 9 "C" 1 None planning_test).1 = Raise (KeyError "C")
  ∧ length (results (record_result 9 "C" 1 None planning_test).2) = 1%nat
  ∧ variant_stats (record_result 9 "C" 1 None planning_test).2
    = [("A", []); ("B", [])].
Proof.
  destruct (record_result_not_atomic 9 "C" 1%Q None planning_test
              (reach_new _ _ _)) as [Hun _].
  destruct Hun as (Hraise & Hres & Hstats).
  - change (keys (variants planning_test)) with ["A"; "B"].
    rewrite !elem_of_cons, elem_of_nil.
    intros [H|[H|[]]]; discriminate H.
  - split; [exact Hraise|]. split.
    + rewrite Hres. reflexivity.
    + rewrite Hstats. reflexivity.
Defined.

(** ** Bookkeeping of the two stores *)

Lemma total_values_dict_set k (v v' : list Q) (d : dict (list Q)) :
  dict_get k d = Some v ->
  (total_values (dict_set k v' d) + length v = total_values d + length v')%nat.
Proof.
  unfold total_values.
  induction d as [|[k0 v0] d IH]; cbn; [discriminate|].
  destruct (decide (k0 = k)) as [->|Hne]; cbn.
  - intros [= ->]. lia.
  - intros H. specialize (IH H). lia.
Qed.

Lemma initial_stats_empty (ks : list string) (d : dict (list Q)) :
  total_values d = 0%nat ->
  total_values (foldl (fun d v => dict_set v [] d) d ks) = 0%nat.
Proof.
  revert d. induction ks as [|k ks IH]; intros d Hd; cbn [foldl]; [exact Hd|].
  apply IH. destruct (dict_get k d) as [v|] eqn:Hget.
  - pose proof (total_values_dict_set k v [] d Hget) as H. cbn in H. lia.
  - clear IH. unfold total_values in *.
    induction d as [|[k0 v0] d IHd]; cbn in *; [reflexivity|].
    destruct (decide (k0 = k)); [discriminate|]. cbn.
    rewrite IHd by (assumption || lia). lia.
Qed.

Lemma cleanly_recorded_stats_match t :
  cleanly_recorded t -> stats_match_results t.
Proof.
  induction 1 as [name metric variants|now variant x metadata t _ IH Hok].
  - unfold stats_match_results, new; cbn [results variant_stats length].
    symmetry. apply initial_stats_empty. reflexivity.
  - revert Hok. rewrite record_result_spec. cbv zeta.
    destruct (dict_get variant (variant_stats t)) as [values|] eqn:Hget;
      [intros _|discriminate].
    unfold stats_match_results in *. cbn [snd results variant_stats].
    pose proof (total_values_dict_set variant values (values ++ [x]) _ Hget) as H.
    rewrite !length_app in *. cbn [length] in *. lia.
Qed.

Lemma total_values_pos (d : dict (list Q)) :
  (0 < total_values d)%nat -> ∃ k x values, (k, x :: values) ∈ d.
Proof.
  unfold total_values.
  induction d as [|[k [|x values]] d IH]; cbn; intros H.
  - lia.
  - destruct (IH H) as (k' & x' & values' & Hin).
    exists k', x', values'. right. exact Hin.
  - exists k, x, values. left.
Qed.

(** ** The statistics table *)

Section Stats.
Variable pow_half : Q -> Q.

Abbreviation stat_step := (ABTesting.stat_step pow_half).

Lemma compute_stats_fold vs :
  compute_stats pow_half vs = foldl stat_step [] vs.
Proof. reflexivity. Qed.

Lemma stat_step_NoDup stats e :
  NoDup (keys stats) -> NoDup (keys (stat_step stats e)).
Proof.
  destruct e as [k [|x values]]; cbn; [auto|]. apply NoDup_keys_dict_set.
Qed.

Lemma stat_step_nonempty stats e : stats ≠ [] -> stat_step stats e ≠ [].
Proof.
  destruct e as [k [|x values]]; cbn; [auto|].
  destruct stats as [|[k0 v0] stats]; [contradiction|].
  intros _. cbn. destruct (decide (k0 = k)); discriminate.
Qed.

Lemma fold_stats_NoDup vs stats :
  NoDup (keys stats) -> NoDup (keys (foldl stat_step stats vs)).
Proof.
  revert stats. induction vs as [|e vs IH]; intros stats H; cbn [foldl]; [exact H|].
  apply IH, stat_step_NoDup, H.
Qed.

Lemma fold_stats_nonempty vs stats :
  stats ≠ [] -> foldl stat_step stats vs ≠ [].
Proof.
  revert stats. induction vs as [|e vs IH]; intros stats H; cbn [foldl]; [exact H|].
  apply IH, stat_step_nonempty, H.
Qed.

Lemma fold_stats_has_data vs stats k x values :
  (k, x :: values) ∈ vs -> foldl stat_step stats vs ≠ [].
Proof.
  revert stats. induction vs as [|e vs IH]; intros stats Hin; cbn [foldl].
  - apply elem_of_nil in Hin. contradiction.
  - apply elem_of_cons in Hin as [<-|Hin].
    + apply fold_stats_nonempty. cbn.
      destruct stats as [|[k0 v0] stats]; cbn; [discriminate|].
      destruct (decide (k0 = k)); discriminate.
    + apply IH, Hin.
Qed.

Lemma compute_stats_NoDup vs : NoDup (keys (compute_stats pow_half vs)).
Proof. rewrite compute_stats_fold. apply fold_stats_NoDup. constructor. Qed.

(** With distinct variant names, the table holds exactly the variants
    that have a value, each with the statistics of its own values. *)
Lemma fold_stats_lookup vs stats k :
  NoDup (keys vs) ->
  dict_get k (foldl stat_step stats vs) =
  match dict_get k vs with
  | Some (x :: values) => Some (variant_stat pow_half (x :: values))
  | _ => dict_get k stats
  end.
Proof.
  revert stats. induction vs as [|[k0 v0] vs IH]; intros stats Hnd; cbn [foldl].
  - reflexivity.
  - cbn [keys map fst] in Hnd. apply NoDup_cons in Hnd as [Hnin Hnd].
    rewrite (IH _ Hnd). cbn [dict_get].
    destruct (decide (k0 = k)) as [->|Hne].
    + assert (dict_get k vs = None) as -> by (apply dict_get_None; exact Hnin).
      destruct v0 as [|x values]; cbn [ABTesting.stat_step]; [reflexivity|].
      apply dict_get_set_eq.
    + assert (dict_get k (stat_step stats (k0, v0)) = dict_get k stats) as ->.
      { destruct v0 as [|x values]; cbn [ABTesting.stat_step]; [reflexivity|].
        apply dict_get_set_ne. congruence. }
      reflexivity.
Qed.

Lemma compute_stats_lookup vs k :
  NoDup (keys vs) ->
  dict_get k (compute_stats pow_half vs) =
  match dict_get k vs with
  | Some (x :: values) => Some (variant_stat pow_half (x :: values))
  | _ => None
  end.
Proof.
  intros Hnd. rewrite compute_stats_fold, (fold_stats_lookup _ [] _ Hnd).
  destruct (dict_get k vs) as [[|x values]|]; reflexivity.
Qed.

End Stats.

(** ** Selecting the maximum *)

Lemma fold_max_spec {T} (key : T -> Q) (rest : list T) (x : T) :
  let b := foldl (fun best y => if Qlt_bool (key best) (key y) then y else best)
                 x rest in
  (b = x ∨ b ∈ rest)
  ∧ (key x <= key b)%Q
  ∧ ∀ y, y ∈ rest -> (key y <= key b)%Q.
Proof.
  revert x. induction rest as [|y rest IH]; intros x; cbn [foldl].
  - split; [left; reflexivity|]. split; [apply Qle_refl|].
    intros y Hy. apply elem_of_nil in Hy. contradiction.
  - destruct (Qlt_bool (key x) (key y)) eqn:Hlt.
    + destruct (IH y) as (Hmem & Hge & Hall).
      split; [|split].
      * right. destruct Hmem as [->|Hmem]; [left|right; exact Hmem].
      * apply Qlt_bool_iff in Hlt. apply Qlt_le_weak in Hlt.
        eapply Qle_trans; eassumption.
      * intros z Hz. apply elem_of_cons in Hz as [->|Hz]; [exact Hge|auto].
    + destruct (IH x) as (Hmem & Hge & Hall).
      split; [|split].
      * destruct Hmem as [->|Hmem]; [left; reflexivity|right; right; exact Hmem].
      * exact Hge.
      * intros z Hz. apply elem_of_cons in Hz as [->|Hz]; [|auto].
        apply Qlt_bool_false in Hlt. eapply Qle_trans; eassumption.
Qed.

Lemma max_by_spec {T} (key : T -> Q) (seq : list T) (b : T) :
  max_by key seq = Some b ->
  b ∈ seq ∧ ∀ y, y ∈ seq -> (key y <= key b)%Q.
Proof.
  destruct seq as [|x rest]; [discriminate|]. cbn [max_by]. intros [= <-].
  destruct (fold_max_spec key rest x) as (Hmem & Hge & Hall). split.
  - destruct Hmem as [->|Hmem]; [left|right; exact Hmem].
  - intros y Hy. apply elem_of_cons in Hy as [->|Hy]; auto.
Qed.

Lemma max_by_nonempty {T} (key : T -> Q) (seq : list T) :
  seq ≠ [] -> is_Some (max_by key seq).
Proof. destruct seq; [contradiction|]. cbn. eauto. Qed.

(** ** Rational arithmetic of the heuristic *)

Lemma py_sum_nonneg (l : list Q) (acc : Q) :
  (0 <= acc)%Q -> Forall (fun x => 0 <= x)%Q l -> (0 <= foldl Qplus acc l)%Q.
Proof.
  revert acc. induction l as [|x l IH]; intros acc Hacc Hl; cbn [foldl]; [exact Hacc|].
  apply Forall_cons in Hl as [Hx Hl]. apply IH; [|exact Hl].
  replace 0%Q with (0 + 0)%Q by reflexivity. apply Qplus_le_compat; assumption.
Qed.

Lemma len_pos {T} (x : T) (l : list T) : (0 < len (x :: l))%Q.
Proof.
  unfold len. replace 0%Q with (inject_Z 0) by reflexivity.
  rewrite <- Zlt_Qlt. cbn [length]. lia.
Qed.

Lemma Qdiv_nonneg (a b : Q) : (0 <= a)%Q -> (0 < b)%Q -> (0 <= a / b)%Q.
Proof.
  intros Ha Hb. apply Qle_shift_div_l; [exact Hb|].
  rewrite Qmult_0_l. exact Ha.
Qed.

Lemma py_max2_floor_pos (a : Q) : (0 < py_max2 a (1 # 100))%Q.
Proof.
  unfold py_max2. destruct (Qlt_bool a (1 # 100)) eqn:E; [reflexivity|].
  apply Qlt_bool_false in E. eapply Qlt_le_trans; [|exact E]. reflexivity.
Qed.

Lemma relative_margin_nonneg (wm o : Q) :
  (o <= wm)%Q -> (0 <= relative_margin wm o)%Q.
Proof.
  intros H. unfold relative_margin.
  apply Qdiv_nonneg; [|apply py_max2_floor_pos].
  unfold Qminus. rewrite <- (Qplus_opp_r o).
  apply Qplus_le_compat; [exact H|apply Qle_refl].
Qed.

Lemma average_nonneg (l : list Q) :
  l ≠ [] -> Forall (fun x => 0 <= x)%Q l -> (0 <= average l)%Q.
Proof.
  intros Hne Hl. unfold average. destruct l as [|x l]; [contradiction|].
  apply Qdiv_nonneg; [|apply len_pos].
  apply py_sum_nonneg; [apply Qle_refl|exact Hl].
Qed.

Lemma capped_in_range (x : Q) :
  (1 # 2 <= x)%Q ->
  (1 # 2 <= py_min2 (95 # 100) x)%Q ∧ (py_min2 (95 # 100) x <= 95 # 100)%Q.
Proof.
  intros H. unfold py_min2. destruct (Qlt_bool x (95 # 100)) eqn:E.
  - apply Qlt_bool_iff in E. split; [exact H|apply Qlt_le_weak, E].
  - split; [discriminate|apply Qle_refl].
Qed.

(** ** The margins loop *)

Lemma margins_loop (winner : string) (wm : Q) (stats : dict VariantStat)
    (acc : list Q) :
  foldl (fun margins '(variant, variant_stats) =>
           if decide (variant ≠ winner)
           then margins ++
                  [((wm - mean variant_stats) / py_max2 wm (1 # 100))%Q]
           else margins) acc stats
  = acc ++ map (relative_margin wm) (other_means winner stats).
Proof.
  unfold other_means.
  revert acc. induction stats as [|[k st] stats IH]; intros acc; cbn [foldl].
  - cbn. rewrite app_nil_r. reflexivity.
  - rewrite IH, filter_cons. cbn [fst].
    destruct (decide (k ≠ winner)); [|reflexivity].
    cbn [map snd]. rewrite <- app_assoc. reflexivity.
Qed.

Lemma calculate_confidence_spec winner ws stats :
  dict_get winner stats = Some ws ->
  _calculate_confidence winner stats
  = Ok (capped_margin_over_half (mean ws) (other_means winner stats)).
Proof.
  intros Hget. unfold _calculate_confidence. rewrite Hget. cbv zeta.
  rewrite margins_loop. cbn [app].
  unfold capped_margin_over_half, average.
  destruct (other_means winner stats); reflexivity.
Qed.

(** ** [get_winner] *)

Lemma dict_get_Some_elem {V} k v (d : dict V) :
  dict_get k d = Some v -> (k, v) ∈ d.
Proof.
  induction d as [|[k' v'] d IH]; cbn; [discriminate|].
  destruct (decide (k' = k)) as [->|_].
  - intros [= ->]. left.
  - intros H. right. apply IH, H.
Qed.

(** Past the sample guard, [get_winner] declares the first variant of
    maximal mean as soon as the statistics table is not empty. *)
Lemma get_winner_declares pow_half min_samples t :
  (min_samples <= Z.of_nat (length (results t)))%Z ->
  compute_stats pow_half (variant_stats t) ≠ [] ->
  ∃ w ws,
    max_by (fun x => mean x.2) (compute_stats pow_half (variant_stats t))
      = Some (w, ws)
    ∧ dict_get w (compute_stats pow_half (variant_stats t)) = Some ws
    ∧ get_winner pow_half min_samples t =
      Ok (Declared w (mean ws)
            (capped_margin_over_half (mean ws)
               (other_means w (compute_stats pow_half (variant_stats t))))
            (compute_stats pow_half (variant_stats t))).
Proof.
  intros Hmin Hne. unfold get_winner.
  assert ((Z.of_nat (length (results t)) <? min_samples)%Z = false) as ->
    by (apply Z.ltb_ge; exact Hmin).
  cbv zeta.
  destruct (max_by_nonempty (fun x => mean x.2) _ Hne) as [[w ws] Hmax].
  rewrite Hmax. cbn [fst snd].
  destruct (max_by_spec _ _ _ Hmax) as [Hin _].
  pose proof (dict_get_elem_of w ws _ (compute_stats_NoDup pow_half _) Hin) as Hget.
  rewrite (calculate_confidence_spec w ws _ Hget).
  exists w, ws. auto.
Qed.

Lemma get_winner_inv pow_half min_samples t w m c s :
  get_winner pow_half min_samples t = Ok (Declared w m c s) ->
  (min_samples <= Z.of_nat (length (results t)))%Z
  ∧ s = compute_stats pow_half (variant_stats t)
  ∧ ∃ ws, max_by (fun x => mean x.2) s = Some (w, ws)
          ∧ dict_get w s = Some ws
          ∧ m = mean ws
          ∧ c = capped_margin_over_half m (other_means w s).
Proof.
  intros Hget.
  destruct (Z.ltb_spec (Z.of_nat (length (results t))) min_samples) as [Hlt|Hge].
  - unfold get_winner in Hget.
    apply Z.ltb_lt in Hlt. rewrite Hlt in Hget. discriminate.
  - split; [exact Hge|].
    destruct (decide (compute_stats pow_half (variant_stats t) = [])) as [He|Hne].
    + unfold get_winner in Hget.
      apply Z.ltb_ge in Hge. rewrite Hge, He in Hget. discriminate.
    + destruct (get_winner_declares pow_half min_samples t Hge Hne)
        as (w' & ws & Hmax & Hd & Heq).
      rewrite Heq in Hget. injection Hget as <- <- <- <-.
      split; [reflexivity|]. exists ws. auto.
Qed.

(** ** C7: the insufficient-data guard *)

(** C7, as stated, fails: after one [record_result] call under the
    unregistered name "C" the test holds one result, and [get_winner(1)]
    neither reports a [None] winner nor declares one: it raises, because no
    variant has a value. *)
Lemma winner_missing_after_stray_result :
  reachable stray_result
  ∧ length (results stray_result) = 1%nat
  ∧ get_winner newton_sqrt 1 stray_result
    = Raise (ValueError "max() arg is an empty sequence").
Proof.
  split; [apply (reach_record 0 "C" 1%Q None _ (reach_new _ _ _))|].
  vm_compute. split; reflexivity.
Qed.

(** *** Values of moderate magnitude *)

Lemma forallb_Forall_iff {T} (f : T -> bool) (P : T -> Prop) (l : list T) :
  (∀ x, f x = true <-> P x) -> forallb f l = true <-> Forall P l.
Proof.
  intros Hf. induction l as [|x l IH]; cbn [forallb].
  - split; [constructor|reflexivity].
  - rewrite andb_true_iff, Forall_cons, Hf, IH. reflexivity.
Qed.

Lemma moderate_values_spec t :
  moderate_values t = true
  <-> Forall (fun e => Forall (fun x => Qabs x <= MODERATE)%Q e.2) (variant_stats t).
Proof.
  unfold moderate_values. apply forallb_Forall_iff. intros e.
  apply forallb_Forall_iff. intros x. apply Qle_bool_iff.
Qed.

Lemma py_sum_bounded (B : Q) (l : list Q) (acc : Q) (n : nat) :
  (Qabs acc <= inject_Z (Z.of_nat n) * B)%Q ->
  Forall (fun x => Qabs x <= B)%Q l ->
  (Qabs (foldl Qplus acc l) <= inject_Z (Z.of_nat (n + length l)) * B)%Q.
Proof.
  revert acc n. induction l as [|x l IH]; intros acc n Hacc Hl; cbn [foldl length].
  - rewrite Nat.add_0_r. exact Hacc.
  - apply Forall_cons in Hl as [Hx Hl].
    replace (n + S (length l))%nat with (S n + length l)%nat by lia.
    apply IH; [|exact Hl].
    eapply Qle_trans; [apply Qabs_triangle|].
    rewrite Nat2Z.inj_succ. unfold Z.succ. rewrite inject_Z_plus.
    change (inject_Z 1) with 1%Q. lra.
Qed.

(** The mean of values of magnitude at most [B] has magnitude at most [B]. *)
Lemma mean_bounded (B : Q) (values : list Q) :
  values ≠ [] ->
  Forall (fun x => Qabs x <= B)%Q values ->
  (Qabs (py_sum values / len values) <= B)%Q.
Proof.
  intros Hne Hall.
  assert (0 < len values)%Q as Hpos.
  { destruct values; [contradiction|]. apply len_pos. }
  pose proof (py_sum_bounded B values 0 0) as Hsum.
  cbn [Nat.add] in Hsum. fold (py_sum values) in Hsum. fold (len values) in Hsum.
  assert (Qabs 0 <= inject_Z (Z.of_nat 0) * B)%Q as H0.
  { change (Qabs 0) with 0%Q. change (inject_Z (Z.of_nat 0)) with 0%Q. lra. }
  specialize (Hsum H0 Hall).
  apply Qabs_Qle_condition in Hsum as [Hlo Hhi].
  apply Qabs_Qle_condition. split.
  - apply Qle_shift_div_l; [exact Hpos|]. lra.
  - apply Qle_shift_div_r; [exact Hpos|]. lra.
Qed.

(** The numbers [_std] squares: for values of magnitude at most [B] no
    squared deviation from the mean exceeds [4 * B ^ 2]. *)
Lemma squared_deviations_in_range (B : Q) (values : list Q) :
  values ≠ [] ->
  Forall (fun x => Qabs x <= B)%Q values ->
  Forall (fun x => (x - py_sum values / len values) ^ 2 <= 4 * B ^ 2)%Q values.
Proof.
  intros Hne Hall.
  pose proof (mean_bounded B values Hne Hall) as Hmean.
  apply Qabs_Qle_condition in Hmean as [Hlo Hhi].
  eapply Forall_impl; [exact Hall|]. intros x Hx. cbn beta in Hx |- *.
  apply Qabs_Qle_condition in Hx as [Hxlo Hxhi].
  set (d := (x - py_sum values / len values)%Q) in *.
  assert (-(2 * B) <= d)%Q as Hd1 by (subst d; lra).
  assert (d <= 2 * B)%Q as Hd2 by (subst d; lra).
  clearbody d.
  change (d ^ 2)%Q with (d * d)%Q. change (B ^ 2)%Q with (B * B)%Q.
  nra.
Qed.

(** On a test of moderate values every square taken by [_std] is at most
    4 * 10^300, below the largest double: the source's [** 2] does not
    overflow there. *)
Lemma moderate_squares_in_range t k values :
  moderate_values t = true ->
  (k, values) ∈ variant_stats t ->
  values ≠ [] ->
  Forall (fun x => (x - py_sum values / len values) ^ 2
                   <= inject_Z (4 * 10 ^ 300))%Q values.
Proof.
  intros Hmod Hin Hne.
  apply moderate_values_spec in Hmod. rewrite Forall_forall in Hmod.
  specialize (Hmod _ Hin). cbn [snd] in Hmod.
  eapply Forall_impl; [apply (squared_deviations_in_range MODERATE), Hmod; exact Hne|].
  intros x Hx. cbn beta in Hx |- *.
  eapply Qle_trans; [exact Hx|].
  unfold MODERATE. vm_compute. discriminate.
Qed.

(** C7, amended.  For every test and every [min_samples]: with fewer than
    [min_samples] recorded results [get_winner] returns a [None] winner
    with the message "Insufficient data (need N samples, have K)"; whenever
    it returns, the winner is [None] exactly when the results are fewer
    than [min_samples]; and on a test whose [record_result] calls have all
    returned and whose values all have magnitude at most 10^150, with at
    least [min_samples >= 1] results it declares a winner.  The bound on
    the values is the source's: the exact arithmetic of the model squares
    any number, the floats of the source raise [OverflowError] from
    [(x - mean) ** 2] in [_std] once the square leaves their range, which
    [moderate_squares_in_range] excludes here. *)
Theorem insufficient_data_guard pow_half min_samples t :
  ((Z.of_nat (length (results t)) < min_samples)%Z ->
     get_winner pow_half min_samples t
     = Ok (NoWinner (insufficient_reason min_samples (length (results t)))))
  ∧ (∀ r, get_winner pow_half min_samples t = Ok r ->
          (winner r = None <-> (Z.of_nat (length (results t)) < min_samples)%Z))
  ∧ (cleanly_recorded t ->
     moderate_values t = true ->
     (1 <= min_samples)%Z ->
     (min_samples <= Z.of_nat (length (results t)))%Z ->
     ∃ w m c s, get_winner pow_half min_samples t = Ok (Declared w m c s)).
Proof.
  split; [|split].
  - intros Hlt. unfold get_winner. apply Z.ltb_lt in Hlt. rewrite Hlt. reflexivity.
  - intros [msg|w m c s] Hget; cbn [winner].
    + split; [intros _|reflexivity].
      destruct (Z.ltb_spec (Z.of_nat (length (results t))) min_samples)
        as [Hlt|Hge]; [exact Hlt|].
      unfold get_winner in Hget. apply Z.ltb_ge in Hge. rewrite Hge in Hget.
      cbv zeta in Hget.
      destruct (max_by _ _); [|discriminate].
      destruct (_calculate_confidence _ _); discriminate.
    + destruct (get_winner_inv _ _ _ _ _ _ _ Hget) as [Hge _].
      split; [discriminate|]. lia.
  - intros Hclean _ Hone Hmin.
    pose proof (cleanly_recorded_stats_match t Hclean) as Hmatch.
    unfold stats_match_results in Hmatch.
    destruct (total_values_pos (variant_stats t)) as (k & x & values & Hin); [lia|].
    destruct (get_winner_declares pow_half min_samples t Hmin) as (w & ws & _ & _ & Heq).
    { rewrite compute_stats_fold. eapply fold_stats_has_data, Hin. }
    eauto.
Qed.

Ltac record_cleanly :=
  repeat (apply clean_record; [|vm_compute; reflexivity]); apply clean_new.

Lemma insufficient_data_guard_witness :
  get_winner newton_sqrt 30 results_29
    = Ok (NoWinner "Insufficient data (need 30 samples, have 29)")
  ∧ ∃ w m c s, get_winner newton_sqrt 30 results_30 = Ok (Declared w m c s).
Proof.
  split.
  - rewrite (proj1 (insufficient_data_guard newton_sqrt 30 results_29)).
    + vm_compute. reflexivity.
    + vm_compute. reflexivity.
  - apply (proj2 (proj2 (insufficient_data_guard newton_sqrt 30 results_30))).
    + unfold results_30, record_all, batch_29.
      cbn [replicate concat app foldl]. record_cleanly.
    + vm_compute. reflexivity.
    + lia.
    + vm_compute. discriminate.
Defined.

(** ** C8: the confidence of the winner *)

(** C8, as stated, fails: with A scoring 1.0 and B scoring 0.75 the only
    margin is 0.25; clamping it to [0.5, 0.95] gives 0.5, while the
    reported confidence is 0.75. *)
Lemma confidence_is_not_clamped_margin :
  ∃ c s,
    get_winner newton_sqrt 2 two_results = Ok (Declared "A" 1 c s)
    ∧ other_means "A" s = [(3 # 4)%Q]
    ∧ (c == 3 # 4)%Q
    ∧ (clamped_average_margin 1 (other_means "A" s) == 1 # 2)%Q
    ∧ ¬ (c == clamped_average_margin 1 (other_means "A" s))%Q.
Proof.
  eexists _, _. split; [vm_compute; reflexivity|].
  split; [reflexivity|]. split; [reflexivity|]. split; [reflexivity|].
  vm_compute. discriminate.
Qed.

(** C8, amended.  Whenever [get_winner] declares a winner on a test
    obtained from the constructor by [record_result] calls: the reported
    statistics have an entry exactly for the variants with at least one
    recorded value; the winner is one of them, its mean is the reported mean
    and no entry has a larger one; the reported confidence is 0.5 plus the
    average, over the other entries, of
    [(winner_mean - other_mean) / max(winner_mean, 0.01)], capped at 0.95,
    and 0.5 when there is no other entry; it lies in [0.5, 0.95]. *)
Theorem winner_confidence pow_half min_samples t w m c s :
  reachable t ->
  get_winner pow_half min_samples t = Ok (Declared w m c s) ->
  (∀ k, dict_get k s =
        match dict_get k (variant_stats t) with
        | Some (x :: values) => Some (variant_stat pow_half (x :: values))
        | _ => None
        end)
  ∧ (∃ ws, dict_get w s = Some ws ∧ mean ws = m)
  ∧ (∀ k ks, dict_get k s = Some ks -> (mean ks <= m)%Q)
  ∧ c = capped_margin_over_half m (other_means w s)
  ∧ (1 # 2 <= c)%Q ∧ (c <= 95 # 100)%Q.
Proof.
  intros Hreach Hget.
  destruct (get_winner_inv _ _ _ _ _ _ _ Hget)
    as (_ & Hs & ws & Hmax & Hd & Hm & Hc).
  destruct (max_by_spec _ _ _ Hmax) as [_ Hall]. cbn [snd] in Hall.
  assert (∀ k ks, dict_get k s = Some ks -> (mean ks <= m)%Q) as Hle.
  { intros k ks Hk. rewrite Hm. apply (Hall (k, ks)), dict_get_Some_elem, Hk. }
  split.
  { intros k. rewrite Hs.
    apply compute_stats_lookup, reachable_stats_NoDup, Hreach. }
  split; [exists ws; auto|]. split; [exact Hle|].
  split; [exact Hc|].
  rewrite Hc. unfold capped_margin_over_half.
  destruct (other_means w s) as [|o others] eqn:Hothers.
  - split; discriminate.
  - apply capped_in_range.
    rewrite <- (Qplus_0_r (1 # 2)) at 1.
    apply Qplus_le_compat; [apply Qle_refl|].
    apply average_nonneg; [discriminate|].
    apply Forall_forall. intros y Hy.
    apply list_elem_of_fmap in Hy as (o' & -> & Ho').
    apply relative_margin_nonneg.
    rewrite <- Hothers in Ho'. unfold other_means in Ho'.
    apply list_elem_of_fmap in Ho' as ([k ks] & -> & Hk).
    apply list_elem_of_filter in Hk as [_ Hk]. cbn [snd].
    rewrite Hm. apply (Hall (k, ks)), Hk.
Qed.

Lemma winner_confidence_witness :
  ∃ m c s,
    get_winner newton_sqrt 30 results_30 = Ok (Declared "A" m c s)
    ∧ (m == 23 # 30)%Q
    ∧ (1 # 2 <= c)%Q ∧ (c <= 95 # 100)%Q.
Proof.
  eexists _, _, _.
  assert (get_winner newton_sqrt 30 results_30
          = Ok (Declared "A" _ _ _)) as H by (vm_compute; reflexivity).
  split; [exact H|]. split; [reflexivity|].
  assert (reachable results_30) as Hreach.
  { apply cleanly_recorded_reachable.
    unfold results_30, record_all, batch_29.
    cbn [replicate concat app foldl]. record_cleanly. }
  destruct (winner_confidence newton_sqrt 30 results_30 _ _ _ _ Hreach H)
    as (_ & _ & _ & _ & Hrange).
  exact Hrange.
Defined.

End ABTestingSpec.

(** * Further properties of the state machine *)

Module TransitionsSpec.
Import Py Workflow PyFacts Transitions WorkflowSpec.

(** Whatever the context, [next_state] either records one transition along
    an edge of the graph, or sits in a terminal state and records nothing. *)
Lemma next_state_graph now ctx m :
  (∃ s why,
      s ∈ successors (current_state m)
      ∧ next_state now ctx m = _transition_to now s why (set_context ctx m).2)
  ∨ (is_terminal (current_state m) = true
     ∧ next_state now ctx m = (current_state m, (set_context ctx m).2)).
Proof.
  rewrite next_state_unfold. cbv zeta.
  destruct (_should_validate ctx m).1 eqn:Hsv.
  { left. exists VALIDATING, "contradictions_detected". split; [|reflexivity].
    rewrite should_validate_value in Hsv.
    apply andb_true_iff in Hsv as [Hsv _]. apply andb_true_iff in Hsv as [_ Hsv].
    apply negb_true_iff, bool_decide_eq_false in Hsv.
    destruct (current_state m); try contradiction; cbn; set_solver. }
  destruct (_is_stuck ctx m).1 eqn:Hst.
  { left. exists REFINING, "stuck_in_loop". split; [|reflexivity].
    rewrite is_stuck_value in Hst.
    destruct (decide (current_state m = REFINING)) as [|Hne]; [discriminate|].
    destruct (current_state m); try contradiction; cbn; set_solver. }
  destruct (_can_complete ctx m).1 eqn:Hcc.
  { left. exists COMPLETED, "objectives_met". split; [|reflexivity].
    destruct (decide (current_state m = SYNTHESIZING)) as [->|Hne].
    - cbn. set_solver.
    - rewrite can_complete_not_synthesizing in Hcc by exact Hne. discriminate. }
  destruct (current_state m) eqn:Hcur; cbn [next_state_map];
    [left .. | right; split; reflexivity | right; split; reflexivity];
    unfold _next_from_planning, _next_from_searching, _next_from_analyzing,
      _next_from_validating, _next_from_refining, _next_from_synthesizing;
    cbv zeta;
    repeat match goal with
           | |- context [if ?b then _ else _] => destruct b
           end;
    eexists _, _; (split; [|reflexivity]); cbn; set_solver.
Qed.

(** X1.  From a non-terminal state [next_state] always moves: it returns
    a successor of the current state in the transition graph, never the
    current state itself, makes it the current state, and appends exactly
    one transition, stamped [now], from the old state to the new one. *)
Theorem next_state_moves_along_graph now ctx m :
  is_terminal (current_state m) = false ->
  let r := next_state now ctx m in
  r.1 ∈ successors (current_state m)
  ∧ r.1 ≠ current_state m
  ∧ current_state r.2 = r.1
  ∧ context r.2 = ctx
  ∧ ∃ why,
      state_history r.2 = state_history m ++
        [{| from_state := current_state m; to_state := r.1; condition := why;
            timestamp := now; reason := why |}].
Proof.
  intros Hnt r. subst r.
  destruct (next_state_graph now ctx m) as [(s & why & Hin & ->)|[Ht _]];
    [|congruence].
  rewrite transition_to_spec. cbn [fst snd current_state context state_history set_context].
  split; [exact Hin|]. split.
  - intros ->. destruct (current_state m); cbn [successors] in Hin;
      repeat (apply elem_of_cons in Hin as [Hin|Hin]; [discriminate Hin|]);
      apply elem_of_nil in Hin; exact Hin.
  - split; [reflexivity|]. split; [reflexivity|]. exists why. reflexivity.
Qed.

Lemma next_state_moves_along_graph_witness :
  (next_state 0 confident_ctx (parked SYNTHESIZING)).1 = COMPLETED
  ∧ (next_state 0 confident_ctx (parked SYNTHESIZING)).1
      ∈ successors SYNTHESIZING.
Proof.
  split; [vm_compute; reflexivity|].
  apply (next_state_moves_along_graph 0 confident_ctx (parked SYNTHESIZING)).
  reflexivity.
Defined.

(** The state [next_state] returns depends on the machine only through its
    current state. *)
Lemma next_state_result_parked now ctx m :
  (next_state now ctx m).1 = (next_state now ctx (parked (current_state m))).1.
Proof.
  rewrite !next_state_unfold. cbv zeta.
  rewrite !should_validate_value, !is_stuck_value.
  change (current_state (parked (current_state m))) with (current_state m).
  change (_can_complete ctx (parked (current_state m))).1
    with (_can_complete ctx m).1.
  destruct (_ && _ && _); [reflexivity|].
  destruct (if decide _ then _ else _); [reflexivity|].
  destruct (_can_complete ctx m).1; [reflexivity|].
  destruct (current_state m); cbn [next_state_map]; try reflexivity;
    unfold _next_from_planning, _next_from_searching, _next_from_analyzing,
      _next_from_validating, _next_from_refining, _next_from_synthesizing;
    cbv zeta;
    repeat match goal with
           | |- context [if ?b then _ else _] => destruct b
           end; reflexivity.
Qed.

(** X2.  Every edge of the transition graph is live: for each state and
    each of its successors one of five contexts makes [next_state] take that
    edge.  With X1 this makes [successors] the exact one-step reachability
    relation of the machine, terminal states included. *)
Theorem every_edge_is_taken s s' :
  s' ∈ successors s ->
  ∃ ctx, ctx ∈ edge_contexts
         ∧ ∀ now m, current_state m = s -> (next_state now ctx m).1 = s'.
Proof.
  intros Hin.
  assert (∀ ctx, (∀ now, (next_state now ctx (parked s)).1 = s') ->
                 ∀ now m, current_state m = s -> (next_state now ctx m).1 = s')
    as Hpark.
  { intros ctx H now m <-. rewrite next_state_result_parked. apply H. }
  destruct s; cbn [successors] in Hin;
    repeat match type of Hin with
           | _ ∈ _ :: _ => apply elem_of_cons in Hin as [->|Hin]
           | _ ∈ [] => apply elem_of_nil in Hin; contradiction
           end;
    first
      [ exists ∅; split;
        [apply list_elem_of_lookup; exists 0%nat; reflexivity
        |apply Hpark; intros now; vm_compute; reflexivity]
      | exists contradicting_ctx; split;
        [apply list_elem_of_lookup; exists 1%nat; reflexivity
        |apply Hpark; intros now; vm_compute; reflexivity]
      | exists stagnant_ctx; split;
        [apply list_elem_of_lookup; exists 2%nat; reflexivity
        |apply Hpark; intros now; vm_compute; reflexivity]
      | exists confident_ctx; split;
        [apply list_elem_of_lookup; exists 3%nat; reflexivity
        |apply Hpark; intros now; vm_compute; reflexivity]
      | exists validated_ctx; split;
        [apply list_elem_of_lookup; exists 4%nat; reflexivity
        |apply Hpark; intros now; vm_compute; reflexivity] ].
Qed.

Lemma every_edge_is_taken_witness :
  ∃ ctx, ctx ∈ edge_contexts
         ∧ ∀ now m, current_state m = VALIDATING ->
                    (next_state now ctx m).1 = SYNTHESIZING.
Proof.
  apply (every_edge_is_taken VALIDATING SYNTHESIZING).
  cbn. set_solver.
Defined.

(** ** The history as a path in the graph *)

Lemma chained_snoc start h t :
  chained start (h ++ [t]) <->
  chained start h
  ∧ from_state t = from_option to_state start (last h)
  ∧ to_state t ∈ successors (from_state t)
  ∧ condition t = reason t.
Proof.
  revert start. induction h as [|t0 h IH]; intros start; cbn [app chained].
  - cbn. tauto.
  - rewrite IH.
    destruct h as [|t1 h]; [cbn; tauto|].
    change (last (t0 :: t1 :: h)) with (last (t1 :: h)).
    assert (∀ d, from_option to_state d (last (t1 :: h))
                 = from_option to_state start (last (t1 :: h))) as Hd.
    { intros d. destruct (last (t1 :: h)) eqn:E; [reflexivity|].
      apply last_None in E. discriminate. }
    rewrite (Hd (to_state t0)). tauto.
Qed.

Lemma chained_take start h n : chained start h -> chained start (take n h).
Proof.
  revert start n. induction h as [|t h IH]; intros start [|n]; cbn; try tauto.
  intros (H1 & H2 & H3 & H4). auto.
Qed.

Lemma iter_removelast_take {T} n (l : list T) :
  Nat.iter n (@removelast _) l = take (length l - n) l.
Proof.
  induction n as [|n IH].
  - cbn. rewrite Nat.sub_0_r, firstn_all. reflexivity.
  - cbn [Nat.iter nat_rect]. fold (Nat.iter n (@removelast T) l). rewrite IH.
    rewrite removelast_firstn_len, take_take, length_take.
    f_equal. lia.
Qed.

Lemma chained_edges start h t :
  chained start h -> t ∈ h -> to_state t ∈ successors (from_state t).
Proof.
  revert start. induction h as [|t0 h IH]; intros start Hc Hin.
  - apply elem_of_nil in Hin. contradiction.
  - destruct Hc as (_ & Hedge & _ & Hc).
    apply elem_of_cons in Hin as [->|Hin]; [exact Hedge|eauto].
Qed.

Lemma successors_never_initial_or_failed s s' :
  s' ∈ successors s -> s' ≠ PLANNING ∧ s' ≠ FAILED.
Proof.
  intros Hin. destruct s; cbn [successors] in Hin;
    repeat (apply elem_of_cons in Hin as [->|Hin]; [split; discriminate|]);
    apply elem_of_nil in Hin; contradiction.
Qed.

Lemma successors_completed s : COMPLETED ∈ successors s -> s = SYNTHESIZING.
Proof.
  intros Hin. destruct s; cbn [successors] in Hin; try reflexivity;
    repeat (apply elem_of_cons in Hin as [Hin|Hin]; [discriminate Hin|]);
    apply elem_of_nil in Hin; contradiction.
Qed.

Lemma chained_sources start h t :
  start ≠ FAILED -> chained start h -> t ∈ h -> from_state t ≠ FAILED.
Proof.
  revert start. induction h as [|t0 h IH]; intros start Hs Hc Hin.
  - apply elem_of_nil in Hin. contradiction.
  - destruct Hc as (Hfrom & Hedge & _ & Hc).
    apply elem_of_cons in Hin as [->|Hin]; [congruence|].
    apply (IH (to_state t0)); [|exact Hc|exact Hin].
    apply (successors_never_initial_or_failed _ _ Hedge).
Qed.

(** X3.  On every machine reachable by [next_state] and [backtrack] calls
    the history is a path: it starts in PLANNING, each transition leaves the
    state the previous one entered, each follows an edge of the transition
    graph, and [condition] and [reason] hold the same text. *)
Theorem history_is_a_path m : reachable m -> chained PLANNING (state_history m).
Proof.
  intros Hreach.
  assert (chained PLANNING (state_history m) ∧ history_invariant m) as [H _];
    [|exact H].
  induction Hreach as [|now ctx m _ [IHc IHi]|steps m _ [IHc IHi]].
  - split; [exact I|reflexivity].
  - split; [|apply history_invariant_next_state, IHi].
    destruct (next_state_graph now ctx m) as [(s & why & Hin & ->)|[_ ->]].
    + rewrite transition_to_spec.
      cbn [snd state_history set_context current_state].
      apply chained_snoc. cbn [from_state to_state condition reason].
      split; [exact IHc|]. split; [exact IHi|]. split; [exact Hin|reflexivity].
    + exact IHc.
  - split; [|apply history_invariant_backtrack, IHi].
    rewrite backtrack_spec. destruct (_ || _); [exact IHc|].
    cbv zeta. cbn [snd state_history].
    rewrite iter_removelast_take. apply chained_take, IHc.
Qed.

Lemma history_is_a_path_witness :
  chained PLANNING
    (state_history (drive init [∅; confident_ctx; stagnant_ctx; validated_ctx])).
Proof.
  apply history_is_a_path.
  unfold drive. cbn [foldl]. repeat apply reach_next. apply reach_init.
Defined.

(** X4.  FAILED is never entered and PLANNING is never re-entered by a
    transition: on every reachable machine the current state is not FAILED,
    and no recorded transition starts in FAILED, ends in FAILED or ends in
    PLANNING. *)
Theorem failed_is_never_entered m :
  reachable m ->
  current_state m ≠ FAILED
  ∧ ∀ t, t ∈ state_history m ->
         from_state t ≠ FAILED ∧ to_state t ≠ FAILED ∧ to_state t ≠ PLANNING.
Proof.
  intros Hreach.
  pose proof (history_is_a_path m Hreach) as Hc.
  pose proof (reachable_history_invariant m Hreach) as Hi.
  assert (∀ t, t ∈ state_history m ->
               from_state t ≠ FAILED ∧ to_state t ≠ FAILED ∧ to_state t ≠ PLANNING)
    as Hall.
  { intros t Hin. split.
    - apply (chained_sources PLANNING (state_history m) t);
        [discriminate|exact Hc|exact Hin].
    - pose proof (chained_edges _ _ _ Hc Hin) as He.
      apply successors_never_initial_or_failed in He. tauto. }
  split; [|exact Hall].
  unfold history_invariant in Hi. rewrite Hi.
  destruct (last (state_history m)) as [t|] eqn:E; cbn [from_option];
    [|discriminate].
  apply last_Some_elem_of in E. apply (Hall t E).
Qed.

Lemma failed_is_never_entered_witness :
  current_state (drive init [∅; stagnant_ctx; stagnant_ctx]) ≠ FAILED.
Proof.
  apply (failed_is_never_entered (drive init [∅; stagnant_ctx; stagnant_ctx])).
  unfold drive. cbn [foldl]. repeat apply reach_next. apply reach_init.
Defined.

(** X5.  COMPLETED is entered from SYNTHESIZING only: on every reachable
    machine each recorded transition into COMPLETED starts in
    SYNTHESIZING. *)
Theorem completed_only_after_synthesis m t :
  reachable m ->
  t ∈ state_history m ->
  to_state t = COMPLETED ->
  from_state t = SYNTHESIZING.
Proof.
  intros Hreach Hin Hto.
  pose proof (chained_edges _ _ _ (history_is_a_path m Hreach) Hin) as He.
  rewrite Hto in He. apply successors_completed, He.
Qed.

Lemma completed_only_after_synthesis_witness :
  ∃ t, last (state_history Samples.completed_machine) = Some t
       ∧ to_state t = COMPLETED ∧ from_state t = SYNTHESIZING.
Proof.
  eexists. split; [vm_compute; reflexivity|]. split; [reflexivity|].
  apply (completed_only_after_synthesis Samples.completed_machine).
  - unfold Samples.completed_machine, drive. cbn [foldl].
    repeat apply reach_next. apply reach_init.
  - apply list_elem_of_lookup. exists 3%nat. vm_compute. reflexivity.
  - reflexivity.
Defined.

(** ** Backtracking *)

(** X6.  [backtrack] refuses when the history is empty or shorter than
    [steps]: it returns the current state and changes nothing.  Otherwise it
    keeps the first [len - steps] transitions (all of them for
    [steps <= 0]), and makes the destination of the last one kept, or
    PLANNING if none is kept, the current state, which it returns. *)
Theorem backtrack_keeps_prefix steps m :
  let h := state_history m in
  (h = [] ∨ (Z.of_nat (length h) < steps)%Z ->
     backtrack steps m = (current_state m, m))
  ∧ (h ≠ [] -> (steps <= Z.of_nat (length h))%Z ->
     let kept := take (length h - Z.to_nat steps) h in
     let s := from_option to_state PLANNING (last kept) in
     backtrack steps m =
     (s, {| current_state := s; state_history := kept; context := context m |})).
Proof.
  cbv zeta. rewrite backtrack_spec. split.
  - intros [He|Hlt].
    + rewrite He. reflexivity.
    + apply Z.ltb_lt in Hlt. rewrite Hlt, orb_true_r. reflexivity.
  - intros Hne Hle.
    rewrite (bool_decide_eq_false_2 _ Hne).
    apply Z.ltb_ge in Hle. rewrite Hle. cbn [orb]. cbv zeta.
    rewrite iter_removelast_take. reflexivity.
Qed.

Lemma backtrack_keeps_prefix_witness :
  backtrack 9 Samples.completed_machine
    = (COMPLETED, Samples.completed_machine)
  ∧ (backtrack 3 Samples.completed_machine).1 = SEARCHING
  ∧ length (state_history (backtrack 3 Samples.completed_machine).2) = 1%nat.
Proof.
  destruct (backtrack_keeps_prefix 9 Samples.completed_machine) as [Hrefuse _].
  destruct (backtrack_keeps_prefix 3 Samples.completed_machine) as [_ Hpop].
  split.
  - rewrite Hrefuse; [reflexivity|]. right. vm_compute. reflexivity.
  - rewrite Hpop.
    + vm_compute. split; reflexivity.
    + vm_compute. discriminate.
    + vm_compute. discriminate.
Defined.

(** X7.  Undoing one step: on a reachable machine in a non-terminal state,
    [next_state] followed by [backtrack(1)] restores the current state and
    the history; the stored context is not restored. *)
Theorem backtrack_undoes_next_state now ctx m :
  reachable m ->
  is_terminal (current_state m) = false ->
  backtrack 1 (next_state now ctx m).2 =
  (current_state m,
   {| current_state := current_state m;
      state_history := state_history m;
      context := ctx |}).
Proof.
  intros Hreach Hnt.
  pose proof (reachable_history_invariant m Hreach) as Hinv.
  destruct (next_state_moves_along_graph now ctx m Hnt)
    as (_ & _ & _ & Hctx & why & Hh).
  rewrite backtrack_spec, Hh, Hctx.
  rewrite bool_decide_eq_false_2 by (intros E; apply app_eq_nil in E as [_ E]; discriminate E).
  rewrite length_app. cbn [length].
  assert ((Z.of_nat (length (state_history m) + 1) <? 1)%Z = false) as ->
    by (apply Z.ltb_ge; lia).
  cbn [orb]. cbv zeta.
  change (Nat.iter (Z.to_nat 1) (@removelast _) ?l) with (removelast l).
  rewrite removelast_last. rewrite <- Hinv. reflexivity.
Qed.

Lemma backtrack_undoes_next_state_witness :
  (backtrack 1 (next_state 5 confident_ctx Samples.searching_machine).2).1
    = SEARCHING
  ∧ state_history
      (backtrack 1 (next_state 5 confident_ctx Samples.searching_machine).2).2
    = state_history Samples.searching_machine.
Proof.
  rewrite (backtrack_undoes_next_state 5 confident_ctx Samples.searching_machine).
  - split; reflexivity.
  - apply (reach_next 0 ∅ init), reach_init.
  - reflexivity.
Defined.

(** X8.  Backtracking composes: going back [a] steps and then [b] steps is
    going back [a + b] steps, whenever the history has that many. *)
Theorem backtrack_composes a b m :
  (0 <= a)%Z -> (0 <= b)%Z ->
  (a + b <= Z.of_nat (length (state_history m)))%Z ->
  backtrack b (backtrack a m).2 = backtrack (a + b) m.
Proof.
  intros Ha Hb Hab.
  destruct (decide (state_history m = [])) as [He|Hne].
  { rewrite (proj1 (backtrack_keeps_prefix a m) (or_introl He)). cbn [snd].
    rewrite (proj1 (backtrack_keeps_prefix b m) (or_introl He)).
    rewrite (proj1 (backtrack_keeps_prefix (a + b) m) (or_introl He)).
    reflexivity. }
  destruct (backtrack_keeps_prefix a m) as [_ HA].
  destruct (backtrack_keeps_prefix (a + b) m) as [_ HAB].
  rewrite (HA Hne), (HAB Hne) by lia. cbv zeta. cbn [snd].
  set (h := state_history m) in *.
  destruct (decide (take (length h - Z.to_nat a) h = [])) as [He|Hne'].
  - rewrite backtrack_spec. cbn [state_history current_state]. rewrite He.
    cbn [bool_decide orb].
    assert (length (take (length h - Z.to_nat a) h) = 0%nat) as Hlen
      by (rewrite He; reflexivity).
    rewrite length_take in Hlen.
    replace (length h - Z.to_nat (a + b))%nat with 0%nat by lia.
    reflexivity.
  - match goal with
    | |- backtrack b ?mA = _ =>
        destruct (backtrack_keeps_prefix b mA) as [_ HB]
    end.
    cbn [state_history context] in HB.
    rewrite (HB Hne') by (rewrite length_take; lia).
    cbv zeta. rewrite take_take, length_take.
    replace (((length h - Z.to_nat a) `min` length h - Z.to_nat b)
               `min` (length h - Z.to_nat a))%nat
      with (length h - Z.to_nat (a + b))%nat by lia.
    reflexivity.
Qed.

Lemma backtrack_composes_witness :
  backtrack 2 (backtrack 1 Samples.completed_machine).2
    = backtrack 3 Samples.completed_machine.
Proof.
  apply (backtrack_composes 1 2 Samples.completed_machine).
  - lia.
  - lia.
  - vm_compute. discriminate.
Defined.

(** ** The priority rules and the table *)

(** Two reads of one key agree unless the key is absent, in which case each
    read sees its own default. *)
Lemma get_two_defaults (ctx : Context) key d d' :
  get ctx key d = get ctx key d'
  ∨ (get ctx key d = d ∧ get ctx key d' = d').
Proof. unfold get. destruct (ctx !! key); cbn; auto. Qed.

(** X9.  Stagnation escalation: in any state but REFINING, terminal states
    included, when the contradiction check does not fire and
    [iterations_without_progress > 2], [next_state] goes to REFINING with
    reason "stuck_in_loop"; in SYNTHESIZING this pre-empts completion even
    when the completion criteria hold. *)
Theorem stagnation_escalation now ctx m :
  current_state m ≠ REFINING ->
  (_should_validate ctx m).1 = false ->
  (2 < num (get ctx "iterations_without_progress" (VInt 0)))%Q ->
  next_state now ctx m =
  (REFINING,
   {| current_state := REFINING;
      state_history := state_history m ++
        [{| from_state := current_state m; to_state := REFINING;
            condition := "stuck_in_loop"; timestamp := now;
            reason := "stuck_in_loop" |}];
      context := ctx |}).
Proof.
  intros Hcur Hsv Hiwp.
  rewrite next_state_unfold. cbv zeta. rewrite Hsv, is_stuck_value.
  destruct (decide (current_state m = REFINING)) as [|_]; [contradiction|].
  assert (Py.gtb (get ctx "iterations_without_progress" (VInt 0)) (VInt 2) = true)
    as -> by (apply Qlt_bool_iff; exact Hiwp).
  apply transition_to_spec.
Qed.

Lemma stagnation_escalation_witness :
  (next_state 0 stalled_but_complete_ctx (parked SYNTHESIZING)).1 = REFINING.
Proof.
  rewrite (stagnation_escalation 0 stalled_but_complete_ctx (parked SYNTHESIZING)).
  - reflexivity.
  - discriminate.
  - vm_compute. reflexivity.
  - vm_compute. reflexivity.
Defined.

(** X10.  Early completion: in SYNTHESIZING, with [confidence > 0.8],
    [coverage > 0.75], [contradictions == 0] and
    [iterations_without_progress] not above 2, [next_state] goes to
    COMPLETED with reason "objectives_met", whatever [results_found],
    [synthesis_quality] and [validation_passed] are. *)
Theorem early_completion now ctx m :
  current_state m = SYNTHESIZING ->
  (8 # 10 < num (get ctx "confidence" (VInt 0)))%Q ->
  (75 # 100 < num (get ctx "coverage" (VInt 0)))%Q ->
  (num (get ctx "contradictions" (VInt 99)) == 0)%Q ->
  (num (get ctx "iterations_without_progress" (VInt 0)) <= 2)%Q ->
  next_state now ctx m =
  (COMPLETED,
   {| current_state := COMPLETED;
      state_history := state_history m ++
        [{| from_state := SYNTHESIZING; to_state := COMPLETED;
            condition := "objectives_met"; timestamp := now;
            reason := "objectives_met" |}];
      context := ctx |}).
Proof.
  intros Hcur Hconf Hcov Hcontra Hiwp.
  rewrite next_state_unfold. cbv zeta.
  assert ((_should_validate ctx m).1 = false) as ->.
  { rewrite should_validate_value.
    assert (Py.gtb (get ctx "contradictions" (VInt 0)) (VInt 2) = false) as ->.
    { apply Qlt_bool_false.
      destruct (get_two_defaults ctx "contradictions" (VInt 0) (VInt 99))
        as [->|[-> _]]; [rewrite Hcontra|]; discriminate. }
    assert (Py.ltb (get ctx "confidence" (VFloat 1)) (VFloat (1 # 2)) = false) as ->.
    { apply Qlt_bool_false.
      destruct (get_two_defaults ctx "confidence" (VFloat 1) (VInt 0))
        as [->|[-> _]]; [|discriminate].
      apply Qlt_le_weak. eapply Qlt_trans; [|exact Hconf]. reflexivity. }
    rewrite andb_false_r. reflexivity. }
  rewrite is_stuck_value, Hcur.
  destruct (decide (SYNTHESIZING = REFINING)) as [E|_]; [discriminate E|].
  assert (Py.gtb (get ctx "iterations_without_progress" (VInt 0)) (VInt 2) = false)
    as -> by (apply Qlt_bool_false; exact Hiwp).
  assert ((_can_complete ctx m).1 = true) as ->.
  { unfold _can_complete, Workflow.bind, get_current. cbn [fst Workflow.ret].
    rewrite Hcur, bool_decide_eq_true_2 by reflexivity.
    rewrite !andb_true_iff. repeat split.
    - apply Qlt_bool_iff. exact Hconf.
    - apply Qlt_bool_iff. exact Hcov.
    - apply Qeq_bool_iff. exact Hcontra. }
  rewrite transition_to_spec.
  cbn [set_context snd current_state state_history context]. rewrite Hcur.
  reflexivity.
Qed.

Lemma early_completion_witness :
  (next_state 0 confident_ctx (parked SYNTHESIZING)).1 = COMPLETED.
Proof.
  rewrite (early_completion 0 confident_ctx (parked SYNTHESIZING)).
  - reflexivity.
  - reflexivity.
  - vm_compute. reflexivity.
  - vm_compute. reflexivity.
  - vm_compute. reflexivity.
  - vm_compute. discriminate.
Defined.

(** X11.  A search without results always ends in REFINING: in SEARCHING,
    when [results_found == 0] (or the key is absent), [next_state] returns
    REFINING whatever the other context values are, with reason
    "stuck_in_loop" if [iterations_without_progress > 2] and "no_results"
    otherwise. *)
Theorem search_without_results_refines now ctx m :
  current_state m = SEARCHING ->
  (num (get ctx "results_found" (VInt 0)) == 0)%Q ->
  next_state now ctx m =
  let why := if Py.gtb (get ctx "iterations_without_progress" (VInt 0)) (VInt 2)
             then "stuck_in_loop" else "no_results" in
  (REFINING,
   {| current_state := REFINING;
      state_history := state_history m ++
        [{| from_state := SEARCHING; to_state := REFINING;
            condition := why; timestamp := now; reason := why |}];
      context := ctx |}).
Proof.
  intros Hcur Hres.
  assert (Py.eqb (get ctx "results_found" (VInt 0)) (VInt 0) = true) as Heq
    by (apply Qeq_bool_iff; exact Hres).
  rewrite next_state_unfold. cbv zeta.
  rewrite (should_validate_no_results ctx m Heq), is_stuck_value, Hcur.
  destruct (decide (SEARCHING = REFINING)) as [E|_]; [discriminate E|].
  destruct (Py.gtb _ _).
  - rewrite transition_to_spec.
    cbn [set_context snd current_state state_history context]. rewrite Hcur.
    reflexivity.
  - rewrite can_complete_not_synthesizing by (rewrite Hcur; discriminate).
    cbn [next_state_map]. unfold _next_from_searching. rewrite Heq.
    rewrite transition_to_spec.
    cbn [set_context snd current_state state_history context]. rewrite Hcur.
    reflexivity.
Qed.

Lemma search_without_results_refines_witness :
  (next_state 0 stagnant_ctx (parked SEARCHING)).1 = REFINING.
Proof.
  rewrite (search_without_results_refines 0 stagnant_ctx (parked SEARCHING)).
  - reflexivity.
  - reflexivity.
  - vm_compute. reflexivity.
Defined.

(** X12.  The ANALYZING row "contradictions_found" is shadowed whenever
    there are results: in ANALYZING with [results_found != 0], the
    transition [next_state] records never carries the reason
    "contradictions_found"; more than two contradictions are caught
    earlier by the priority rule, with reason "contradictions_detected". *)
Theorem analyzing_contradictions_row_shadowed now ctx m t :
  current_state m = ANALYZING ->
  ¬ (num (get ctx "results_found" (VInt 0)) == 0)%Q ->
  last (state_history (next_state now ctx m).2) = Some t ->
  reason t ≠ "contradictions_found"
  ∧ ((2 < num (get ctx "contradictions" (VInt 0)))%Q ->
     reason t = "contradictions_detected" ∧ to_state t = VALIDATING).
Proof.
  intros Hcur Hres.
  assert (Py.eqb (get ctx "results_found" (VInt 0)) (VInt 0) = false) as Hne.
  { destruct (Py.eqb _ _) eqn:E; [|reflexivity].
    apply Qeq_bool_iff in E. contradiction. }
  rewrite next_state_unfold. cbv zeta.
  rewrite should_validate_value, Hne, Hcur.
  rewrite bool_decide_eq_false_2 by discriminate. cbn [negb andb].
  destruct (Py.gtb (get ctx "contradictions" (VInt 0)) (VInt 2)) eqn:Hgt.
  { cbn [orb]. rewrite transition_to_spec. cbn [snd state_history].
    rewrite last_snoc. intros [= <-]. cbn. split; [discriminate|auto]. }
  cbn [orb].
  assert (¬ (2 < num (get ctx "contradictions" (VInt 0)))%Q) as Hno.
  { intros H. unfold Py.gtb in Hgt. apply Qlt_bool_false in Hgt.
    apply (Qlt_not_le _ _ H). exact Hgt. }
  destruct (Py.ltb _ _).
  { rewrite transition_to_spec. cbn [snd state_history].
    rewrite last_snoc. intros [= <-]. cbn. split; [discriminate|tauto]. }
  rewrite is_stuck_value, Hcur.
  destruct (decide (ANALYZING = REFINING)) as [E|_]; [discriminate E|].
  destruct (Py.gtb (get ctx "iterations_without_progress" (VInt 0)) (VInt 2)).
  { rewrite transition_to_spec. cbn [snd state_history].
    rewrite last_snoc. intros [= <-]. cbn. split; [discriminate|tauto]. }
  rewrite can_complete_not_synthesizing by (rewrite Hcur; discriminate).
  cbn [next_state_map]. unfold _next_from_analyzing. cbv zeta. rewrite Hgt.
  repeat match goal with
         | |- context [if ?b then _ else _] => destruct b
         end;
    rewrite transition_to_spec; cbn [snd state_history];
    rewrite last_snoc; intros [= <-]; cbn; (split; [discriminate|tauto]).
Qed.

Lemma analyzing_contradictions_row_shadowed_witness :
  ∃ t, last (state_history (next_state 0 contradicting_ctx (parked ANALYZING)).2)
       = Some t
       ∧ reason t = "contradictions_detected".
Proof.
  eexists. split; [vm_compute; reflexivity|].
  refine (proj1 (proj2 (analyzing_contradictions_row_shadowed
                   0 contradicting_ctx (parked ANALYZING) _ _ _ _) _)).
  - reflexivity.
  - vm_compute. discriminate.
  - vm_compute. reflexivity.
  - vm_compute. reflexivity.
Defined.

End TransitionsSpec.

(** * Further properties of the A/B test engine *)

Module ABViewsSpec.
Import Py ABTesting PyFacts ABSamples ABViews ABTestingSpec.

(** ** What a batch of records leaves in the two stores *)

Lemma initial_stats_lookup (ks : list string) (d : dict (list Q)) k :
  dict_get k (foldl (fun d v => dict_set v [] d) d ks) =
  if decide (k ∈ ks) then Some []
  else dict_get k d.
Proof.
  revert d. induction ks as [|k0 ks IH]; intros d; cbn [foldl].
  - destruct (decide (k ∈ [])) as [H|_]; [|reflexivity].
    apply elem_of_nil in H. contradiction.
  - rewrite IH.
    destruct (decide (k ∈ ks)) as [Hin|Hnin].
    + rewrite decide_True by (right; exact Hin). reflexivity.
    + destruct (decide (k = k0)) as [->|Hne].
      * rewrite decide_True by left. apply dict_get_set_eq.
      * rewrite decide_False
          by (intros H; apply elem_of_cons in H as [H|H]; contradiction).
        apply dict_get_set_ne. exact Hne.
Qed.

Lemma record_all_step t variant x batch :
  record_all t ((variant, x) :: batch)
  = record_all (record_result 0 variant x None t).2 batch.
Proof. reflexivity. Qed.

Lemma record_all_lookup t batch k :
  map metric_value (results (record_all t batch))
    = map metric_value (results t) ++ map snd batch
  ∧ dict_get k (variant_stats (record_all t batch))
    = (fun values => values ++ values_for k batch)
        <$> dict_get k (variant_stats t).
Proof.
  revert t. induction batch as [|[variant x] batch IH]; intros t.
  - cbn. rewrite app_nil_r. split; [reflexivity|].
    destruct (dict_get k (variant_stats t)); cbn; [|reflexivity].
    unfold values_for. cbn. rewrite app_nil_r. reflexivity.
  - rewrite record_all_step.
    destruct (IH (record_result 0 variant x None t).2) as [IHr IHs].
    rewrite IHr, IHs, record_result_spec. cbv zeta.
    unfold values_for. rewrite filter_cons. cbn [fst].
    destruct (dict_get variant (variant_stats t)) as [values|] eqn:Hget;
      cbn [snd results variant_stats].
    + split.
      * rewrite map_app, <- app_assoc. reflexivity.
      * destruct (decide (variant = k)) as [->|Hne].
        -- rewrite dict_get_set_eq, Hget. cbn. rewrite <- app_assoc. reflexivity.
        -- rewrite dict_get_set_ne by congruence. reflexivity.
    + split.
      * rewrite map_app, <- app_assoc. reflexivity.
      * destruct (decide (variant = k)) as [->|Hne]; [|reflexivity].
        rewrite Hget. reflexivity.
Qed.

(** X13.  Recording a batch on a fresh test, ignoring the key errors:
    [results] holds one entry per call, in call order, strays included;
    every registered variant holds exactly the values recorded under its own
    name, in call order; an unregistered name never gets a list. *)
Theorem record_all_collects name metric variants batch k :
  let t := record_all (new name metric variants) batch in
  map metric_value (results t) = map snd batch
  ∧ (k ∈ keys variants ->
     dict_get k (variant_stats t) = Some (values_for k batch))
  ∧ (k ∉ keys variants -> dict_get k (variant_stats t) = None).
Proof.
  cbv zeta.
  destruct (record_all_lookup (new name metric variants) batch k) as [Hr Hs].
  split; [exact Hr|].
  rewrite Hs. unfold new; cbn [variant_stats].
  rewrite initial_stats_lookup.
  split; intros Hk.
  - rewrite decide_True by exact Hk. reflexivity.
  - rewrite decide_False by exact Hk. reflexivity.
Qed.

Lemma record_all_collects_witness :
  dict_get "A" (variant_stats results_30)
    = Some (values_for "A" (batch_29 ++ [("B", (1 # 4)%Q)]))
  ∧ dict_get "C" (variant_stats stray_result) = None.
Proof.
  split.
  - apply (record_all_collects "planning_strategy" "plan_quality"
             [("A", "comprehensive"); ("B", "focused")]
             (batch_29 ++ [("B", (1 # 4)%Q)]) "A").
    cbn. left.
  - apply (record_all_collects "planning_strategy" "plan_quality"
             [("A", "comprehensive"); ("B", "focused")] [("C", 1%Q)] "C").
    cbn. rewrite !elem_of_cons, elem_of_nil.
    intros [H|[H|[]]]; discriminate H.
Defined.

(** ** The statistics table against the stores *)

Lemma dict_set_fresh {V} k (v : V) (d : dict V) :
  k ∉ keys d -> dict_set k v d = d ++ [(k, v)].
Proof.
  induction d as [|[k0 v0] d IH]; cbn; [reflexivity|].
  intros H. apply not_elem_of_cons in H as [Hne Hnin].
  destruct (decide (k0 = k)) as [->|_]; [contradiction|].
  f_equal. apply IH, Hnin.
Qed.

Section Table.
Variable pow_half : Q -> Q.

Lemma fold_stats_layout vs stats :
  NoDup (keys vs) ->
  (∀ k, k ∈ keys vs -> k ∉ keys stats) ->
  keys (foldl (stat_step pow_half) stats vs) = keys stats ++ with_data vs
  ∧ total_count (foldl (stat_step pow_half) stats vs)
    = (total_count stats + total_values vs)%nat.
Proof.
  unfold with_data, total_count, total_values, keys.
  revert stats. induction vs as [|[k values] vs IH]; intros stats Hnd Hfresh;
    cbn [foldl].
  - cbn. rewrite app_nil_r. split; [reflexivity|lia].
  - cbn [map fst] in Hnd. apply NoDup_cons in Hnd as [Hnin Hnd].
    assert (k ∉ map fst stats) as Hk by (apply Hfresh; left).
    rewrite filter_cons. cbn [snd].
    destruct values as [|x values]; cbn [stat_step].
    + destruct (decide ([] ≠ [])) as [H|_]; [contradiction|].
      destruct (IH stats Hnd) as [IHk IHc].
      { intros k' Hk'. apply Hfresh. right. exact Hk'. }
      rewrite IHk, IHc. cbn. split; [reflexivity|lia].
    + destruct (decide (x :: values ≠ [])) as [_|H]; [|exfalso; apply H; discriminate].
      rewrite (dict_set_fresh _ _ _ Hk).
      destruct (IH (stats ++ [(k, variant_stat pow_half (x :: values))]) Hnd)
        as [IHk IHc].
      { intros k' Hk'. rewrite map_app, elem_of_app. cbn.
        rewrite list_elem_of_singleton. intros [H| ->]; [|contradiction].
        revert H. apply Hfresh. right. exact Hk'. }
      rewrite IHk, IHc, !map_app, !sum_list_with_app. cbn.
      rewrite <- app_assoc. split; [reflexivity|lia].
Qed.

Lemma compute_stats_layout vs :
  NoDup (keys vs) ->
  keys (compute_stats pow_half vs) = with_data vs
  ∧ total_count (compute_stats pow_half vs) = total_values vs.
Proof.
  intros Hnd. rewrite compute_stats_fold.
  destruct (fold_stats_layout vs [] Hnd) as [Hk Hc].
  - intros k _. apply not_elem_of_nil.
  - split; assumption.
Qed.

End Table.

Lemma reachable_values_bounded t :
  reachable t -> (total_values (variant_stats t) <= length (results t))%nat.
Proof.
  induction 1 as [name metric variants|now variant x metadata t _ IH].
  - unfold new; cbn [results variant_stats length].
    rewrite initial_stats_empty by reflexivity. lia.
  - rewrite record_result_spec. cbv zeta.
    destruct (dict_get variant (variant_stats t)) as [values|] eqn:Hget;
      cbn [snd results variant_stats]; rewrite length_app; cbn [length].
    + pose proof (total_values_dict_set variant values (values ++ [x]) _ Hget) as H.
      rewrite length_app in H. cbn [length] in H. lia.
    + lia.
Qed.

(** X14.  The sample counts [get_winner] reports add up to the number of
    values held in the per-variant lists, which never exceeds the number of
    recorded results and equals it when every [record_result] call has
    returned. *)
Theorem reported_counts_add_up pow_half min_samples t w m c s :
  reachable t ->
  get_winner pow_half min_samples t = Ok (Declared w m c s) ->
  total_count s = total_values (variant_stats t)
  ∧ (total_count s <= length (results t))%nat
  ∧ (cleanly_recorded t -> total_count s = length (results t)).
Proof.
  intros Hreach Hget.
  destruct (get_winner_inv _ _ _ _ _ _ _ Hget) as (_ & -> & _).
  destruct (compute_stats_layout pow_half _ (reachable_stats_NoDup t Hreach))
    as [_ Hc].
  rewrite Hc. split; [reflexivity|]. split.
  - apply reachable_values_bounded, Hreach.
  - intros Hclean. symmetry. apply cleanly_recorded_stats_match, Hclean.
Qed.

Lemma reported_counts_add_up_witness :
  ∃ w m c s,
    get_winner newton_sqrt 30 results_30 = Ok (Declared w m c s)
    ∧ total_count s = 30%nat.
Proof.
  eexists _, _, _, _.
  assert (get_winner newton_sqrt 30 results_30 = Ok (Declared _ _ _ _)) as H
    by (vm_compute; reflexivity).
  split; [exact H|].
  assert (cleanly_recorded results_30) as Hclean.
  { unfold results_30, record_all, batch_29.
    cbn [replicate concat app foldl]. record_cleanly. }
  destruct (reported_counts_add_up newton_sqrt 30 results_30 _ _ _ _
              (cleanly_recorded_reachable _ Hclean) H) as (_ & _ & Heq).
  rewrite (Heq Hclean). vm_compute. reflexivity.
Defined.

Lemma reachable_stats_keys t :
  reachable t ->
  keys (variant_stats t)
  = keys (foldl (fun d v => dict_set v ([] : list Q) d) [] (keys (variants t))).
Proof.
  induction 1 as [name metric variants|now variant x metadata t _ IH].
  - reflexivity.
  - rewrite record_result_spec. cbv zeta.
    destruct (dict_get variant (variant_stats t)) as [values|] eqn:Hget;
      cbn [snd variant_stats variants]; [|exact IH].
    rewrite keys_dict_set_in; [exact IH|].
    destruct (decide (variant ∈ keys (variant_stats t))) as [Hin|Hnin]; [exact Hin|].
    apply dict_get_None in Hnin. congruence.
Qed.

Lemma initial_stats_keys (ks : list string) (d : dict (list Q)) :
  NoDup (keys d ++ ks) ->
  keys (foldl (fun d v => dict_set v [] d) d ks) = keys d ++ ks.
Proof.
  revert d. induction ks as [|k ks IH]; intros d Hnd; cbn [foldl].
  - rewrite app_nil_r. reflexivity.
  - assert (k ∉ keys d) as Hk.
    { apply NoDup_app in Hnd as (_ & Hdis & _). intros Hin.
      apply (Hdis k Hin). left. }
    rewrite IH; rewrite keys_dict_set_notin by exact Hk.
    + rewrite <- app_assoc. reflexivity.
    + rewrite <- app_assoc. exact Hnd.
Qed.

(** X15.  The per-variant lists and the statistics table keep the order in
    which the variants were registered: on a test built by the constructor
    from distinct names, the keys of [variant_stats] are those names in
    order, and [all_stats] lists, in that order, the variants that hold at
    least one value. *)
Theorem stats_in_registration_order pow_half min_samples t w m c s :
  reachable t ->
  NoDup (keys (variants t)) ->
  keys (variant_stats t) = keys (variants t)
  ∧ (get_winner pow_half min_samples t = Ok (Declared w m c s) ->
     keys s = with_data (variant_stats t)).
Proof.
  intros Hreach Hnd. split.
  - rewrite (reachable_stats_keys t Hreach).
    apply (initial_stats_keys (keys (variants t)) []). exact Hnd.
  - intros Hget.
    destruct (get_winner_inv _ _ _ _ _ _ _ Hget) as (_ & -> & _).
    apply compute_stats_layout, reachable_stats_NoDup, Hreach.
Qed.

Lemma stats_in_registration_order_witness :
  keys (variant_stats (record_all planning_test tie_batch)) = ["A"; "B"].
Proof.
  refine (proj1 (stats_in_registration_order newton_sqrt 2
                   (record_all planning_test tie_batch) "A" 0 0 [] _ _)).
  - unfold record_all, tie_batch. cbn [foldl].
    repeat apply reach_record. apply reach_new.
  - vm_compute. repeat constructor; rewrite ?elem_of_cons, ?elem_of_nil;
      intros H; repeat destruct H as [H|H]; discriminate || contradiction.
Defined.

(** ** Ties *)

Lemma fold_max_first {T} (key : T -> Q) (rest before after : list T) (x : T) :
  Forall (fun y => key y < key x)%Q before ->
  Forall (fun y => key y <= key x)%Q after ->
  let b := foldl (fun best y => if Qlt_bool (key best) (key y) then y else best)
                 x rest in
  ∃ before' after',
    before ++ x :: after ++ rest = before' ++ b :: after'
    ∧ Forall (fun y => key y < key b)%Q before'
    ∧ Forall (fun y => key y <= key b)%Q after'.
Proof.
  revert before after x.
  induction rest as [|y rest IH]; intros before after x Hb Ha; cbn [foldl].
  - exists before, after. rewrite app_nil_r. auto.
  - destruct (Qlt_bool (key x) (key y)) eqn:Hlt.
    + apply Qlt_bool_iff in Hlt.
      destruct (IH (before ++ x :: after) [] y) as (b' & a' & Heq & Hb' & Ha').
      * apply Forall_app. split.
        -- eapply Forall_impl; [exact Hb|]. intros z Hz. cbn in Hz.
           eapply Qlt_trans; eassumption.
        -- constructor; [exact Hlt|].
           eapply Forall_impl; [exact Ha|]. intros z Hz. cbn in Hz.
           eapply Qle_lt_trans; eassumption.
      * constructor.
      * exists b', a'. split; [|auto].
        rewrite <- Heq. cbn [app]. rewrite <- !app_assoc. reflexivity.
    + apply Qlt_bool_false in Hlt.
      destruct (IH before (after ++ [y]) x Hb) as (b' & a' & Heq & Hb' & Ha').
      * apply Forall_app. split; [exact Ha|]. constructor; [exact Hlt|constructor].
      * exists b', a'. split; [|auto].
        rewrite <- Heq, <- !app_assoc. reflexivity.
Qed.

Lemma max_by_first {T} (key : T -> Q) (seq : list T) (b : T) :
  max_by key seq = Some b ->
  ∃ before after,
    seq = before ++ b :: after
    ∧ Forall (fun y => key y < key b)%Q before
    ∧ Forall (fun y => key y <= key b)%Q after.
Proof.
  destruct seq as [|x rest]; [discriminate|]. cbn [max_by]. intros [= <-].
  apply (fold_max_first key rest [] [] x); constructor.
Qed.

(** X16.  Ties go to the variant listed first: when [get_winner] declares
    a winner, no entry listed before the winner in [all_stats] has a mean
    greater than or equal to the winner's, and no entry listed after it has
    a mean strictly greater; the reported mean is the mean of the winner's
    entry.  The comparisons are worded as the source's [max] makes them:
    it replaces its pick only by an entry that compares strictly greater.
    In this wording the property stays true of float means that do not
    compare at all (NaN), which the rationals of the model do not
    contain. *)
Theorem winner_is_first_maximum pow_half min_samples t w m c s :
  get_winner pow_half min_samples t = Ok (Declared w m c s) ->
  ∃ before ws after,
    s = before ++ (w, ws) :: after
    ∧ mean ws = m
    ∧ Forall (fun e => ¬ (m <= mean e.2)%Q) before
    ∧ Forall (fun e => ¬ (m < mean e.2)%Q) after.
Proof.
  intros Hget.
  destruct (get_winner_inv _ _ _ _ _ _ _ Hget)
    as (_ & _ & ws & Hmax & _ & -> & _).
  destruct (max_by_first _ _ _ Hmax) as (before & after & Hs & Hb & Ha).
  exists before, ws, after. cbn [snd] in Hb, Ha.
  split; [exact Hs|]. split; [reflexivity|]. split.
  - eapply Forall_impl; [exact Hb|]. intros e He. apply Qlt_not_le, He.
  - eapply Forall_impl; [exact Ha|]. intros e He. apply Qle_not_lt, He.
Qed.

Lemma winner_is_first_maximum_witness :
  ∃ m c s,
    get_winner newton_sqrt 2 (record_all planning_test tie_batch)
      = Ok (Declared "A" m c s)
    ∧ ∃ ws after, s = [] ++ ("A", ws) :: after
                  ∧ Forall (fun e => ¬ (m < mean e.2)%Q) after.
Proof.
  eexists _, _, _.
  assert (get_winner newton_sqrt 2 (record_all planning_test tie_batch)
          = Ok (Declared "A" _ _ _)) as H by (vm_compute; reflexivity).
  split; [exact H|].
  destruct (winner_is_first_maximum _ _ _ _ _ _ _ H)
    as (before & ws & after & Hs & _ & _ & Ha).
  destruct before as [|e before].
  - exists ws, after. auto.
  - exfalso. cbn in Hs. injection Hs as He Hrest.
    destruct before; cbn in Hrest; [|destruct before; discriminate Hrest].
    injection Hrest as Hw _. discriminate Hw.
Defined.

(** ** The range of the confidence *)

Lemma py_sum_zero (l : list Q) (acc : Q) :
  (acc == 0)%Q -> Forall (fun x => x == 0)%Q l -> (foldl Qplus acc l == 0)%Q.
Proof.
  revert acc. induction l as [|x l IH]; intros acc Hacc Hl; cbn [foldl]; [exact Hacc|].
  apply Forall_cons in Hl as [Hx Hl]. apply IH; [|exact Hl].
  rewrite Hacc, Hx. reflexivity.
Qed.

Lemma relative_margin_zero (wm o : Q) : (o == wm)%Q -> (relative_margin wm o == 0)%Q.
Proof.
  intros H. unfold relative_margin, Qdiv. rewrite H.
  unfold Qminus. rewrite Qplus_opp_r. apply Qmult_0_l.
Qed.

(** Among means that do not exceed the winner's, either all tie with it or
    one is strictly smaller. *)
Lemma tie_or_behind (m : Q) (l : list Q) :
  Forall (fun o => o <= m)%Q l ->
  Forall (fun o => o == m)%Q l ∨ Exists (fun o => o < m)%Q l.
Proof.
  induction 1 as [|o l Ho _ [IH|IH]].
  - left. constructor.
  - destruct (Qlt_le_dec o m) as [Hlt|Hge].
    + right. apply Exists_cons_hd, Hlt.
    + left. constructor; [apply Qle_antisym; assumption|exact IH].
  - right. apply Exists_cons_tl, IH.
Qed.

(** X17.  A dead heat gives the lowest confidence: on a test whose values
    all have magnitude at most 10^150, when [get_winner] declares a winner
    the confidence is exactly 0.5 if every other variant with data has the
    winner's mean; a confidence above 0.5 therefore shows that some other
    variant has a strictly smaller mean.  (The converse is left out on
    purpose: a float sum [0.5 + avg] absorbs a margin below 2^-54, so a
    strictly smaller mean need not lift the confidence above 0.5.  The
    bound on the values keeps the float means and margins of the source
    finite.) *)
Theorem confidence_separates_ties pow_half min_samples t w m c s :
  moderate_values t = true ->
  get_winner pow_half min_samples t = Ok (Declared w m c s) ->
  (Forall (fun o => o == m)%Q (other_means w s) -> (c == 1 # 2)%Q)
  ∧ ((1 # 2 < c)%Q -> Exists (fun o => o < m)%Q (other_means w s)).
Proof.
  intros _ Hget.
  destruct (get_winner_inv _ _ _ _ _ _ _ Hget)
    as (_ & _ & ws & Hmax & _ & Hm & Hc).
  destruct (max_by_spec _ _ _ Hmax) as [_ Hall]. cbn [snd] in Hall.
  assert (Forall (fun o => o <= m)%Q (other_means w s)) as Hle.
  { apply Forall_forall. intros o Ho. unfold other_means in Ho.
    apply list_elem_of_fmap in Ho as ([k ks] & -> & Hk).
    apply list_elem_of_filter in Hk as [_ Hk]. cbn [snd].
    rewrite Hm. apply (Hall (k, ks)), Hk. }
  assert (Forall (fun o => o == m)%Q (other_means w s) -> (c == 1 # 2)%Q) as Htie.
  { rewrite Hc. unfold capped_margin_over_half.
    destruct (other_means w s) as [|o others] eqn:Hothers; [reflexivity|].
    set (margins := map (relative_margin m) (o :: others)).
    intros Htie.
    assert (average margins == 0)%Q as Havg.
    { unfold average, py_sum, Qdiv. rewrite py_sum_zero.
      - apply Qmult_0_l.
      - reflexivity.
      - subst margins. apply Forall_fmap. eapply Forall_impl; [exact Htie|].
        intros y Hy. cbn. apply relative_margin_zero, Hy. }
    unfold py_min2.
    assert (Qlt_bool ((1 # 2) + average margins) (95 # 100) = true) as ->.
    { apply Qlt_bool_iff. rewrite Havg. reflexivity. }
    rewrite Havg. reflexivity. }
  split; [exact Htie|].
  intros Hhigh.
  destruct (tie_or_behind m (other_means w s) Hle) as [Hall_tie|Hbehind];
    [|exact Hbehind].
  exfalso. apply Htie in Hall_tie. rewrite Hall_tie in Hhigh.
  apply (Qlt_irrefl _ Hhigh).
Qed.

Lemma confidence_separates_ties_witness :
  ∃ m c s,
    get_winner newton_sqrt 2 (record_all planning_test tie_batch)
      = Ok (Declared "A" m c s)
    ∧ (c == 1 # 2)%Q.
Proof.
  eexists _, _, _.
  assert (get_winner newton_sqrt 2 (record_all planning_test tie_batch)
          = Ok (Declared "A" _ _ _)) as H by (vm_compute; reflexivity).
  split; [exact H|].
  refine (proj1 (confidence_separates_ties _ _ _ _ _ _ _ _ H) _).
  - vm_compute. reflexivity.
  - vm_compute. repeat constructor.
Defined.

(** ** The standard deviation *)




End ABViewsSpec.

(** * Properties of the registry of tests *)

Module ManagerSpec.
Import ABTesting ABTestingSpec Manager.

Lemma dict_get_is_Some_inv {V} k (d : dict V) :
  is_Some (dict_get k d) -> k ∈ keys d.
Proof.
  intros [v Hv]. destruct (decide (k ∈ keys d)) as [H|H]; [exact H|].
  apply dict_get_None in H. congruence.
Qed.

Lemma record_result_name now variant x metadata t :
  name (record_result now variant x metadata t).2 = name t.
Proof.
  rewrite record_result_spec. cbv zeta.
  destruct (dict_get variant (variant_stats t)); reflexivity.
Qed.

(** X19.  Registering and looking up: after [create_test(name, ...)],
    [get_test(name)] returns the reference [create_test] returned, which
    leads to a fresh test without results; every other name resolves as
    before, and no existing test object is touched. *)
Theorem create_then_get name metric variants mg :
  let r := create_test name metric variants mg in
  get_test name r.2 = Some r.1
  ∧ deref r.1 r.2 = Some (new name metric variants)
  ∧ (∀ n, n ≠ name -> get_test n r.2 = get_test n mg)
  ∧ (∀ a, (a < length (objects mg))%nat -> deref a r.2 = deref a mg).
Proof.
  cbv zeta. unfold create_test, get_test, deref.
  cbn [fst snd objects active_tests]. split; [apply dict_get_set_eq|]. split.
  - rewrite lookup_app_r by lia. rewrite Nat.sub_diag. reflexivity.
  - split.
    + intros n Hn. apply dict_get_set_ne. exact Hn.
    + intros a Ha. apply lookup_app_l. exact Ha.
Qed.

Lemma create_then_get_witness :
  get_test "analysis_depth" pipeline_tests = Some 1%nat
  ∧ get_test "planning_strategy" pipeline_tests = Some 0%nat.
Proof.
  unfold pipeline_tests.
  match goal with
  | |- context [create_test ?n ?me ?v ?mg] =>
      destruct (create_then_get n me v mg) as (Hget & _ & Hother & _)
  end.
  split; [exact Hget|].
  rewrite Hother by discriminate. reflexivity.
Defined.

Lemma record_on_deref now test variant x metadata mg a :
  deref a (record_on now test variant x metadata mg).2 =
  if decide (a = test)
  then (fun t => (record_result now variant x metadata t).2) <$> deref a mg
  else deref a mg.
Proof.
  unfold record_on, deref.
  destruct (decide (a = test)) as [->|Hne].
  - destruct (objects mg !! test) as [t|] eqn:Ht; [|cbn; rewrite Ht; reflexivity].
    destruct (record_result now variant x metadata t) as [r t'] eqn:Hr.
    cbn [snd objects]. rewrite list_lookup_insert_eq.
    + cbn. rewrite Hr. reflexivity.
    + apply lookup_lt_Some in Ht. exact Ht.
  - destruct (objects mg !! test) as [t|] eqn:Ht; [|reflexivity].
    destruct (record_result now variant x metadata t) as [r t'].
    cbn [snd objects]. apply list_lookup_insert_ne. congruence.
Qed.

Lemma reachable_registry_sound mg : reachable mg -> registry_sound mg.
Proof.
  induction 1 as [|n0 metric variants mg _ (IHnd & IHlive & IHinj)
                  |now test variant x metadata mg _ (IHnd & IHlive & IHinj)].
  - split; [constructor|]. split; intros; discriminate.
  - destruct (create_then_get n0 metric variants mg)
      as (Hget & Hnew & Hother & Hold).
    assert (∀ n a, get_test n mg = Some a -> (a < length (objects mg))%nat)
      as Hvalid.
    { intros n a Hn. destruct (IHlive n a Hn) as (t & Ht & _).
      apply lookup_lt_Some in Ht. exact Ht. }
    split; [apply NoDup_keys_dict_set, IHnd|]. split.
    + intros n a Hn. destruct (decide (n = n0)) as [->|Hne].
      * rewrite Hget in Hn. injection Hn as <-.
        exists (new n0 metric variants). split; [exact Hnew|reflexivity].
      * rewrite (Hother n Hne) in Hn.
        destruct (IHlive n a Hn) as (t & Ht & Hname).
        exists t. split; [|exact Hname].
        rewrite (Hold a (Hvalid n a Hn)). exact Ht.
    + intros n n' a Hn Hn'.
      destruct (decide (n = n0)) as [->|Hne], (decide (n' = n0)) as [->|Hne'].
      * reflexivity.
      * rewrite Hget in Hn. injection Hn as <-.
        rewrite (Hother n' Hne') in Hn'. apply Hvalid in Hn'.
        cbn in Hn'. lia.
      * rewrite Hget in Hn'. injection Hn' as <-.
        rewrite (Hother n Hne) in Hn. apply Hvalid in Hn.
        cbn in Hn. lia.
      * rewrite (Hother n Hne) in Hn. rewrite (Hother n' Hne') in Hn'.
        eapply IHinj; eassumption.
  - assert (active_tests (record_on now test variant x metadata mg).2
            = active_tests mg) as Hsame.
    { unfold record_on. destruct (objects mg !! test) as [t|]; [|reflexivity].
      destruct (record_result now variant x metadata t). reflexivity. }
    unfold registry_sound, list_tests, get_test. rewrite Hsame.
    split; [exact IHnd|]. split; [|exact IHinj].
    intros n a Hn. destruct (IHlive n a Hn) as (t & Ht & Hname).
    rewrite record_on_deref, Ht.
    destruct (decide (a = test)); cbn; eexists; split; try reflexivity.
    + rewrite record_result_name. exact Hname.
    + exact Hname.
Qed.

(** X20.  On every manager built by [create_test] and [record_result]
    calls: [list_tests] has no duplicates and lists exactly the names
    [get_test] resolves; a resolved reference leads to a live test whose own
    [name] is the name it is registered under; two names never share a
    test. *)
Theorem registry_is_sound mg :
  reachable mg ->
  registry_sound mg
  ∧ ∀ n, n ∈ list_tests mg <-> is_Some (get_test n mg).
Proof.
  intros Hreach. split; [apply reachable_registry_sound, Hreach|].
  intros n. unfold list_tests, get_test. split.
  - apply dict_get_is_Some.
  - intros [a Ha]. destruct (decide (n ∈ keys (active_tests mg))) as [H|H];
      [exact H|].
    apply dict_get_None in H. congruence.
Qed.

Lemma registry_is_sound_witness :
  list_tests pipeline_tests = ["planning_strategy"; "analysis_depth"]
  ∧ NoDup (list_tests pipeline_tests).
Proof.
  split; [reflexivity|].
  apply (registry_is_sound pipeline_tests).
  unfold pipeline_tests. repeat apply reach_create. apply reach_empty.
Defined.

(** X21.  Re-registering a name silently replaces its test: [list_tests]
    is unchanged, [get_test] now returns the new reference, the old test
    object is intact but no name reaches it any more, and results recorded
    through the old reference do not show in the test the name resolves
    to. *)
Theorem create_test_overwrites name metric variants mg old :
  reachable mg ->
  get_test name mg = Some old ->
  let r := create_test name metric variants mg in
  list_tests r.2 = list_tests mg
  ∧ get_test name r.2 = Some r.1
  ∧ r.1 ≠ old
  ∧ deref old r.2 = deref old mg
  ∧ (∀ n, get_test n r.2 ≠ Some old)
  ∧ (∀ now variant x metadata,
       deref r.1 (record_on now old variant x metadata r.2).2
       = Some (new name metric variants)).
Proof.
  intros Hreach Hold. cbv zeta.
  destruct (reachable_registry_sound mg Hreach) as (_ & Hlive & Hinj).
  destruct (create_then_get name metric variants mg)
    as (Hget & Hnew & Hother & Hkeep).
  assert (old < length (objects mg))%nat as Hlt.
  { destruct (Hlive name old Hold) as (t & Ht & _).
    apply lookup_lt_Some in Ht. exact Ht. }
  assert ((create_test name metric variants mg).1 ≠ old) as Hne
    by (cbn; lia).
  split.
  { unfold list_tests, create_test. cbn [snd active_tests].
    apply keys_dict_set_in. apply dict_get_is_Some_inv. exists old. exact Hold. }
  split; [exact Hget|]. split; [exact Hne|]. split; [apply Hkeep, Hlt|]. split.
  - intros n Hn. destruct (decide (n = name)) as [->|Hnn].
    + rewrite Hget in Hn. injection Hn as Hn. contradiction.
    + rewrite (Hother n Hnn) in Hn. apply Hnn. eapply Hinj; eassumption.
  - intros now variant x metadata. rewrite record_on_deref.
    rewrite decide_False by exact Hne. exact Hnew.
Qed.

Lemma create_test_overwrites_witness :
  let r := create_test "planning_strategy" "plan_quality" [("A", "terse")]
             pipeline_tests in
  list_tests r.2 = ["planning_strategy"; "analysis_depth"]
  ∧ get_test "planning_strategy" r.2 = Some 2%nat.
Proof.
  cbv zeta.
  destruct (create_test_overwrites "planning_strategy" "plan_quality"
              [("A", "terse")] pipeline_tests 0%nat)
    as (Hlist & Hget & _).
  - unfold pipeline_tests. repeat apply reach_create. apply reach_empty.
  - reflexivity.
  - split; [rewrite Hlist; reflexivity|exact Hget].
Defined.

End ManagerSpec.

(** * Properties of the adaptive pipeline *)

Module PipelineSpec.
Import Py Workflow PyFacts WorkflowSpec Transitions TransitionsSpec.
Import ABTesting ABTestingSpec ABViewsSpec Pipeline.

(** ** The context handed to the state machine *)

Lemma context_of_lookup c cov k i r v q key :
  context_of c cov k i r v q !! key =
  if decide (key = "confidence") then Some (VFloat c)
  else if decide (key = "coverage") then Some (VFloat cov)
  else if decide (key = "contradictions") then Some (VInt k)
  else if decide (key = "iterations_without_progress") then Some (VInt i)
  else if decide (key = "results_found") then Some (VInt r)
  else if decide (key = "validation_passed") then Some (VBool v)
  else if decide (key = "synthesis_quality") then Some (VFloat q)
  else None.
Proof.
  unfold context_of.
  repeat (rewrite lookup_insert; destruct (decide (_ = key)) as [<-|?];
          [reflexivity | rewrite decide_False by congruence]).
  apply lookup_empty.
Qed.

(** What [_build_context] returns is always the seven-key literal. *)
Lemma build_context_literal p :
  ∃ c cov k v q,
    (_build_context p).1 =
    context_of c cov k (iterations_without_progress (_build_context p).2)
      (Z.of_nat (length (research_history p))) v q.
Proof.
  unfold _build_context.
  destruct (research_history p) as [|st h] eqn:Hh;
    [destruct (research_plan p) as [|pl plan] eqn:Hp|];
    cbn [fst snd set_tracking iterations_without_progress research_history];
    rewrite ?Hh; eauto 10.
Qed.

(** X22.  [_build_context] always supplies exactly the seven keys the state
    machine reads, so in the adaptive loop no decision is ever taken on a
    default value; the stagnation counter and the result count it reports
    are the pipeline's counter after the call and the length of the research
    history. *)
Theorem build_context_has_every_key p key :
  (is_Some ((_build_context p).1 !! key) <-> key ∈ required_keys)
  ∧ get (_build_context p).1 "iterations_without_progress" (VInt 0)
    = VInt (iterations_without_progress (_build_context p).2)
  ∧ get (_build_context p).1 "results_found" (VInt 0)
    = VInt (Z.of_nat (length (research_history p))).
Proof.
  destruct (build_context_literal p) as (c & cov & k & v & q & ->).
  split; [|split; unfold get; rewrite context_of_lookup; reflexivity].
  rewrite context_of_lookup. unfold required_keys.
  rewrite !elem_of_cons, elem_of_nil.
  repeat (destruct (decide (key = _)) as [->|?];
          [split; [intros _; tauto | intros _; eauto]|]).
  split; [intros [x Hx]; discriminate Hx | tauto].
Qed.

Lemma build_context_has_every_key_witness :
  is_Some ((_build_context fresh).1 !! "coverage").
Proof.
  apply (proj1 (build_context_has_every_key fresh "coverage")).
  unfold required_keys. rewrite !elem_of_cons. tauto.
Defined.

(** ** Ranges of the metrics *)

Lemma py_sum_bounds (l : list Q) (acc : Q) :
  Forall (fun x => 0 <= x ∧ x <= 1)%Q l ->
  (acc <= foldl Qplus acc l)%Q ∧ (foldl Qplus acc l <= acc + len l)%Q.
Proof.
  revert acc. induction l as [|x l IH]; intros acc Hl; cbn [foldl].
  - change (len (@nil Q)) with 0%Q. split; lra.
  - apply Forall_cons in Hl as [[Hx0 Hx1] Hl].
    destruct (IH (acc + x)%Q Hl) as [Hlo Hhi].
    assert (len (x :: l) == 1 + len l)%Q as Hlen.
    { unfold len. cbn [length]. rewrite Nat2Z.inj_succ, <- Z.add_1_l.
      rewrite inject_Z_plus. reflexivity. }
    rewrite Hlen. split; lra.
Qed.

Lemma calculate_confidence_range p :
  Forall (fun st => 0 <= confidence st ∧ confidence st <= 1)%Q (research_history p) ->
  (0 <= _calculate_confidence p)%Q ∧ (_calculate_confidence p <= 1)%Q.
Proof.
  intros Hall. unfold _calculate_confidence.
  destruct (research_history p) as [|st h]; [split; discriminate|].
  cbv zeta. unfold py_sum.
  destruct (py_sum_bounds (map confidence (st :: h)) 0) as [Hlo Hhi].
  { apply Forall_fmap. exact Hall. }
  assert (len (map confidence (st :: h)) = len (st :: h)) as Hlen
    by (unfold len; rewrite length_map; reflexivity).
  rewrite Hlen in Hhi.
  pose proof (len_pos st h) as Hpos.
  split.
  - apply Qdiv_nonneg; assumption.
  - apply Qle_shift_div_r; [exact Hpos|]. lra.
Qed.

Lemma py_min2_one_range (x : Q) :
  (0 <= x)%Q -> (0 <= py_min2 1 x)%Q ∧ (py_min2 1 x <= 1)%Q.
Proof.
  intros Hx. unfold py_min2. destruct (Qlt_bool x 1) eqn:E.
  - apply Qlt_bool_iff in E. split; lra.
  - split; lra.
Qed.

Lemma ratio_nonneg (a b : Z) :
  (0 <= a)%Z -> (0 < b)%Z -> (0 <= inject_Z a / inject_Z b)%Q.
Proof.
  intros Ha Hb. apply Qdiv_nonneg.
  - change 0%Q with (inject_Z 0). rewrite <- Zle_Qle. exact Ha.
  - change 0%Q with (inject_Z 0). rewrite <- Zlt_Qlt. exact Hb.
Qed.

Lemma calculate_coverage_range p :
  (0 <= _calculate_coverage p)%Q ∧ (_calculate_coverage p <= 1)%Q.
Proof.
  unfold _calculate_coverage.
  destruct (research_plan p); [split; discriminate|].
  cbv zeta. apply py_min2_one_range, ratio_nonneg; lia.
Qed.

Lemma calculate_synthesis_quality_range p :
  (0 <= _calculate_confidence p)%Q -> (_calculate_confidence p <= 1)%Q ->
  (0 <= _calculate_synthesis_quality p)%Q
  ∧ (_calculate_synthesis_quality p <= 1)%Q
  ∧ (_calculate_synthesis_quality p <= (1 + _calculate_confidence p) / 2)%Q.
Proof.
  intros H0 H1. unfold _calculate_synthesis_quality.
  destruct (decide (final_report p = "")).
  - split; [discriminate|]. split; [discriminate|].
    unfold Qdiv. change (/ 2)%Q with (1 # 2)%Q. lra.
  - cbv zeta.
    match goal with
    | |- context [py_min2 1 ?x] =>
        destruct (py_min2_one_range x) as [Hl0 Hl1];
        [apply (ratio_nonneg _ 1000); lia|];
        set (length_score := py_min2 1 x) in *
    end.
    unfold Qdiv. change (/ 2)%Q with (1 # 2)%Q.
    split; [|split]; lra.
Qed.

(** X23.  When every research step's confidence lies in [0, 1], the
    confidence, coverage and synthesis quality that [_build_context] reports
    lie in [0, 1]; the coverage does so unconditionally. *)
Theorem reported_metrics_in_unit_interval p :
  Forall (fun st => 0 <= confidence st ∧ confidence st <= 1)%Q (research_history p) ->
  let ctx := (_build_context p).1 in
  (0 <= num (get ctx "confidence" (VInt 0)) <= 1)%Q
  ∧ (0 <= num (get ctx "coverage" (VInt 0)) <= 1)%Q
  ∧ (0 <= num (get ctx "synthesis_quality" (VInt 0)) <= 1)%Q.
Proof.
  intros Hall. cbv zeta. unfold get, _build_context.
  pose proof (calculate_confidence_range p Hall) as [Hc0 Hc1].
  pose proof (calculate_coverage_range p) as [Hv0 Hv1].
  assert (∀ i c,
    _calculate_synthesis_quality (set_tracking i c p)
    = _calculate_synthesis_quality p) as Hq by reflexivity.
  pose proof (calculate_synthesis_quality_range p Hc0 Hc1) as (Hq0 & Hq1 & _).
  destruct (research_history p) as [|st h] eqn:Hh;
    [destruct (research_plan p) as [|pl plan] eqn:Hp|];
    cbn [fst]; rewrite !context_of_lookup; cbn [decide_rel default num];
    rewrite ?Hq; repeat split; (assumption || discriminate).
Qed.

Lemma reported_metrics_in_unit_interval_witness :
  (0 <= num (get (_build_context researched).1 "confidence" (VInt 0)) <= 1)%Q.
Proof.
  apply (reported_metrics_in_unit_interval researched).
  repeat constructor; discriminate.
Defined.

(** ** The two validation metrics *)

Lemma drop_filter_length {T} (P : T -> Prop) `{∀ x, Decision (P x)} n (l : list T) :
  (length (filter P (drop n l)) <= length (filter P l))%nat.
Proof.
  revert n. induction l as [|x l IH]; intros [|n]; cbn [drop]; try lia.
  rewrite filter_cons. specialize (IH n).
  destruct (decide (P x)); cbn [length]; lia.
Qed.

(** X24.  The contradiction count is never negative nor larger than the
    number of validations, and the two validation metrics agree: when
    [_validation_passed] is false, one of the last three validations failed,
    so [_count_contradictions] is at least 1; with no contradiction counted,
    the validation has passed. *)
Theorem validation_metrics_agree p :
  (0 <= _count_contradictions p <= Z.of_nat (length (validation_results p)))%Z
  ∧ (_validation_passed p = false -> (1 <= _count_contradictions p)%Z)
  ∧ (_count_contradictions p = 0%Z -> _validation_passed p = true).
Proof.
  unfold _count_contradictions, _validation_passed.
  destruct (validation_results p) as [|v0 vs] eqn:Hv.
  { split; [cbn; lia|]. split; [discriminate|reflexivity]. }
  cbv zeta.
  set (l := v0 :: vs).
  assert (forallb (fun v => negb (is_failed v)) (last_three l) = false ->
          (1 <= length (filter (fun v => is_failed v = true) l))%nat) as Hkey.
  { intros Hf. unfold last_three in Hf.
    pose proof (drop_filter_length (fun v => is_failed v = true) (length l - 3) l)
      as Hle.
    enough (1 <= length (filter (fun v => is_failed v = true)
                           (drop (length l - 3) l)))%nat by lia.
    clear Hle. induction (drop (length l - 3) l) as [|v r IH]; [discriminate|].
    rewrite filter_cons. cbn [forallb] in Hf.
    destruct (is_failed v) eqn:Ev; cbn in Hf.
    - rewrite decide_True by reflexivity. cbn [length]. lia.
    - rewrite decide_False by discriminate. apply IH, Hf. }
  split; [|split].
  - split; [lia|]. apply inj_le, length_filter.
  - intros Hf. specialize (Hkey Hf). lia.
  - intros Hz. destruct (forallb _ _) eqn:Hf; [reflexivity|].
    specialize (Hkey eq_refl). lia.
Qed.

Lemma validation_metrics_agree_witness : (1 <= _count_contradictions disputed)%Z.
Proof.
  apply (proj1 (proj2 (validation_metrics_agree disputed))). reflexivity.
Defined.

(** ** The stagnation counter *)

Lemma Qabs_self_difference (c : Q) : (Qabs (c - c) <= 5 # 100)%Q.
Proof.
  assert (c - c == 0)%Q as -> by (unfold Qminus; apply Qplus_opp_r).
  discriminate.
Qed.

Lemma rebuilt_keeps_research p :
  research_history (rebuilt p) = research_history p
  ∧ research_plan (rebuilt p) = research_plan p
  ∧ validation_results (rebuilt p) = validation_results p
  ∧ final_report (rebuilt p) = final_report p
  ∧ state_machine (rebuilt p) = state_machine p.
Proof.
  unfold rebuilt, _build_context.
  destruct (research_history p) as [|st h] eqn:Hh;
    [destruct (research_plan p) as [|pl plan] eqn:Hp|];
    cbn; rewrite ?Hh, ?Hp; repeat split; reflexivity.
Qed.

Lemma rebuilt_twice p :
  iterations_without_progress (rebuilt (rebuilt p))
    = (iterations_without_progress (rebuilt p) + 1)%Z
  ∧ previous_confidence (rebuilt (rebuilt p)) = previous_confidence (rebuilt p).
Proof.
  destruct (rebuilt_keeps_research p) as (Hh & Hp & _).
  assert (_calculate_confidence (rebuilt p) = _calculate_confidence p) as Hc
    by (unfold _calculate_confidence; rewrite Hh; reflexivity).
  assert (research_history p ≠ [] ∨ research_plan p ≠ [] ->
          previous_confidence (rebuilt p) = _calculate_confidence p) as Hprev.
  { unfold rebuilt, _build_context.
    destruct (research_history p) as [|st h] eqn:Eh;
      [destruct (research_plan p) as [|pl plan] eqn:Ep|]; cbn; try reflexivity.
    intros [H|H]; contradiction. }
  assert (Qlt_bool (5 # 100)
            (Qabs (_calculate_confidence p - _calculate_confidence p)) = false)
    as Hidle by (apply Qlt_bool_false, Qabs_self_difference).
  set (q := rebuilt p) in *.
  unfold rebuilt at 1 2. unfold _build_context. rewrite Hh, Hp, Hc.
  destruct (research_history p) as [|st h] eqn:Eh;
    [destruct (research_plan p) as [|pl plan] eqn:Ep|];
    cbn [snd set_tracking iterations_without_progress previous_confidence].
  - split; reflexivity.
  - rewrite Hprev by (right; discriminate). rewrite Hidle. split; reflexivity.
  - rewrite Hprev by (left; discriminate). rewrite Hidle. split; reflexivity.
Qed.

(** X25.  An iteration that adds no research counts as stagnation: when
    [_build_context] is called again on unchanged research data, every
    further call raises [iterations_without_progress] by exactly one and
    never resets it, so three idle calls in a row always put it above the
    stagnation threshold of 2 when it started non-negative. *)
Theorem idle_iterations_accumulate p n :
  iterations_without_progress (Nat.iter n rebuilt (rebuilt p))
  = (iterations_without_progress (rebuilt p) + Z.of_nat n)%Z.
Proof.
  induction n as [|n IH].
  - cbn. lia.
  - cbn [Nat.iter nat_rect]. fold (Nat.iter n rebuilt (rebuilt p)).
    rewrite Nat2Z.inj_succ, <- Z.add_1_r, Z.add_assoc, <- IH. clear IH.
    destruct n as [|n].
    + cbn. apply rebuilt_twice.
    + cbn [Nat.iter nat_rect]. fold (Nat.iter n rebuilt (rebuilt p)).
      apply rebuilt_twice.
Qed.

(** ** Completion *)

Lemma confidence_positive_has_history p :
  (0 < _calculate_confidence p)%Q -> research_history p ≠ [].
Proof.
  unfold _calculate_confidence. destruct (research_history p); [|discriminate].
  intros H. discriminate H.
Qed.

Lemma built_confidence p d :
  get (_build_context p).1 "confidence" d = VFloat (_calculate_confidence p).
Proof.
  unfold get, _build_context, _calculate_confidence.
  destruct (research_history p) as [|st h] eqn:Hh;
    [destruct (research_plan p) as [|pl plan] eqn:Hp|];
    cbn [fst]; rewrite context_of_lookup; reflexivity.
Qed.

Lemma quality_needs_confidence p :
  (8 # 10 < _calculate_synthesis_quality p)%Q -> (6 # 10 < _calculate_confidence p)%Q.
Proof.
  unfold _calculate_synthesis_quality.
  destruct (decide (final_report p = "")); [discriminate|].
  cbv zeta.
  match goal with
  | |- context [py_min2 1 ?x] =>
      destruct (py_min2_one_range x) as [_ Hl1];
      [apply (ratio_nonneg _ 1000); lia|];
      set (length_score := py_min2 1 x) in *
  end.
  unfold Qdiv. change (/ 2)%Q with (1 # 2)%Q. intros Hq. lra.
Qed.

Lemma built_quality p d :
  ∃ q, get (_build_context p).1 "synthesis_quality" d = VFloat q
       ∧ ((8 # 10 < q)%Q -> (6 # 10 < _calculate_confidence p)%Q).
Proof.
  unfold get, _build_context.
  destruct (research_history p) as [|st h] eqn:Hh;
    [destruct (research_plan p) as [|pl plan] eqn:Hp|];
    cbn [fst]; rewrite context_of_lookup; cbn; eexists; (split; [reflexivity|]).
  - discriminate.
  - apply (quality_needs_confidence p).
  - apply (quality_needs_confidence p).
Qed.

(** X26.  Completion needs confident research and recent progress: if
    [next_state], given a context built by [_build_context], moves a machine
    that is not yet COMPLETED to COMPLETED, then the machine was in
    SYNTHESIZING, the research history is not empty, the mean step
    confidence exceeds 0.6, and the stagnation counter just reported is at
    most 2. *)
Theorem completion_needs_confident_research now p m :
  current_state m ≠ COMPLETED ->
  (next_state now (_build_context p).1 m).1 = COMPLETED ->
  current_state m = SYNTHESIZING
  ∧ research_history p ≠ []
  ∧ (6 # 10 < _calculate_confidence p)%Q
  ∧ (iterations_without_progress (_build_context p).2 <= 2)%Z.
Proof.
  intros Hnc Hdone.
  assert (current_state m = SYNTHESIZING) as Hsyn.
  { destruct (next_state_graph now (_build_context p).1 m)
      as [(s & why & Hin & Heq)|[_ Heq]]; rewrite Heq in Hdone.
    - rewrite transition_to_spec in Hdone. cbn [fst] in Hdone. subst s.
      apply successors_completed, Hin.
    - cbn [fst] in Hdone. contradiction. }
  split; [exact Hsyn|].
  revert Hdone. rewrite next_state_unfold. cbv zeta.
  destruct (_should_validate _ m).1; [rewrite transition_to_spec; discriminate|].
  rewrite is_stuck_value, Hsyn.
  destruct (decide (SYNTHESIZING = REFINING)) as [E|_]; [discriminate E|].
  destruct (build_context_has_every_key p "") as (_ & Hiwp & _).
  rewrite Hiwp.
  destruct (Py.gtb _ (VInt 2)) eqn:Hgt; [rewrite transition_to_spec; discriminate|].
  assert (iterations_without_progress (_build_context p).2 <= 2)%Z as Hle.
  { unfold Py.gtb in Hgt. apply Qlt_bool_false in Hgt. cbn [num] in Hgt.
    rewrite <- Zle_Qle in Hgt. exact Hgt. }
  assert ((6 # 10 < _calculate_confidence p)%Q ->
          research_history p ≠ [] ∧ (6 # 10 < _calculate_confidence p)%Q
          ∧ (iterations_without_progress (_build_context p).2 <= 2)%Z) as Hfin.
  { intros H. split; [|split; assumption].
    apply confidence_positive_has_history. lra. }
  destruct (_can_complete _ m).1 eqn:Hcc.
  - intros _. apply Hfin.
    unfold _can_complete, Workflow.bind, get_current in Hcc.
    cbn [fst Workflow.ret] in Hcc. rewrite built_confidence in Hcc.
    apply andb_true_iff in Hcc as [Hcc _].
    apply andb_true_iff in Hcc as [Hcc _].
    apply andb_true_iff in Hcc as [Hcc _].
    unfold Py.gtb in Hcc. apply Qlt_bool_iff in Hcc. cbn [num] in Hcc. lra.
  - cbn [next_state_map]. unfold _next_from_synthesizing. cbv zeta.
    destruct (built_quality p (VFloat (1 # 2))) as (q & -> & Hq).
    destruct (Py.gtb (VFloat q) (VFloat (8 # 10))) eqn:Hgq;
      [|rewrite transition_to_spec; discriminate].
    intros _. apply Hfin, Hq.
    unfold Py.gtb in Hgq. apply Qlt_bool_iff in Hgq. exact Hgq.
Qed.

Lemma completion_needs_confident_research_witness :
  (6 # 10 < _calculate_confidence researched)%Q.
Proof.
  apply (completion_needs_confident_research 0 researched (parked SYNTHESIZING)).
  - discriminate.
  - vm_compute. reflexivity.
Defined.

(** ** The adaptive loop *)

Section Loop.
Variable activity : WorkflowState -> AdvancedResearchPipeline -> AdvancedResearchPipeline.
Variable clock : Z -> Z.

Abbreviation iterate := (Pipeline.iterate activity clock).
Abbreviation adaptive_loop := (Pipeline.adaptive_loop activity clock).
Abbreviation execute_loop := (Pipeline.execute_loop activity clock).
Abbreviation observed := (Pipeline.observed activity).

Lemma keeps_going_inv max_iterations iteration p :
  keeps_going max_iterations iteration p = true ->
  is_terminal (current_state (state_machine p)) = false
  ∧ (iteration < max_iterations)%Z.
Proof.
  unfold keeps_going. rewrite !andb_true_iff.
  intros [[H1 H2] H3].
  apply bool_decide_eq_true in H1. apply bool_decide_eq_true in H2.
  apply Z.ltb_lt in H3. split; [|exact H3].
  destruct (current_state (state_machine p)); try reflexivity; contradiction.
Qed.

Lemma iterate_spec iteration p :
  iterate iteration p =
  ((iteration + 1)%Z,
   set_machine
     (next_state (clock (iteration + 1)) (_build_context (observed p)).1
        (state_machine p)).2
     (rebuilt (observed p))).
Proof.
  unfold Pipeline.iterate, Pipeline.observed, rebuilt. cbv zeta.
  destruct (_build_context _) as [ctx p2] eqn:Hb. cbn [fst snd].
  assert (state_machine p2 = state_machine p) as ->.
  { change p2 with (ctx, p2).2. rewrite <- Hb.
    apply (rebuilt_keeps_research
             (run_activity activity (current_state (state_machine p)) p)). }
  destruct (next_state _ _ _) as [r m]. reflexivity.
Qed.

Lemma iterate_step max_iterations iteration p :
  keeps_going max_iterations iteration p = true ->
  (iterate iteration p).1 = (iteration + 1)%Z
  ∧ length (state_history (state_machine (iterate iteration p).2))
    = S (length (state_history (state_machine p)))
  ∧ (Workflow.reachable (state_machine p) ->
     Workflow.reachable (state_machine (iterate iteration p).2))
  ∧ completed_soundly (iterate iteration p).2.
Proof.
  intros Hgo. apply keeps_going_inv in Hgo as [Hnt _].
  rewrite iterate_spec. cbn [fst snd set_machine state_machine].
  split; [reflexivity|]. split.
  - destruct (next_state_moves_along_graph (clock (iteration + 1))
                (_build_context (observed p)).1 (state_machine p) Hnt)
      as (_ & _ & _ & _ & why & ->).
    rewrite length_app. cbn [length]. lia.
  - split; [apply Workflow.reach_next|].
    unfold completed_soundly.
    cbn [set_machine state_machine research_history iterations_without_progress].
    intros Hdone.
    destruct (next_state_moves_along_graph (clock (iteration + 1))
                (_build_context (observed p)).1 (state_machine p) Hnt)
      as (_ & _ & Hcur & _).
    rewrite Hcur in Hdone.
    destruct (completion_needs_confident_research (clock (iteration + 1))
                (observed p) (state_machine p))
      as (_ & Hh & Hc & Hi); [|exact Hdone|].
    { intros E. rewrite E in Hnt. discriminate. }
    destruct (rebuilt_keeps_research (observed p)) as (Hrh & _).
    assert (∀ m q, _calculate_confidence (set_machine m q) = _calculate_confidence q)
      as -> by reflexivity.
    assert (_calculate_confidence (rebuilt (observed p))
            = _calculate_confidence (observed p)) as ->
      by (unfold _calculate_confidence; rewrite Hrh; reflexivity).
    rewrite Hrh. auto.
Qed.

Lemma adaptive_loop_spec fuel max_iterations iteration p :
  (max_iterations - iteration <= Z.of_nat fuel)%Z ->
  let r := adaptive_loop fuel max_iterations iteration p in
  keeps_going max_iterations r.1 r.2 = false
  ∧ (iteration <= r.1)%Z
  ∧ (r.1 <= Z.max iteration max_iterations)%Z
  ∧ length (state_history (state_machine r.2))
    = (length (state_history (state_machine p)) + Z.to_nat (r.1 - iteration))%nat
  ∧ (Workflow.reachable (state_machine p) -> Workflow.reachable (state_machine r.2))
  ∧ (completed_soundly p -> completed_soundly r.2).
Proof.
  revert iteration p. induction fuel as [|fuel IH]; intros iteration p Hfuel;
    cbn [Pipeline.adaptive_loop]; cbv zeta.
  - cbn [fst snd]. split.
    + unfold keeps_going.
      assert ((iteration <? max_iterations)%Z = false) as ->
        by (apply Z.ltb_ge; lia).
      apply andb_false_r.
    + rewrite Z.sub_diag. change (Z.to_nat 0) with 0%nat. rewrite Nat.add_0_r.
      split; [lia|]. split; [lia|]. split; [reflexivity|]. split; auto.
  - destruct (keeps_going max_iterations iteration p) eqn:Hgo.
    + destruct (iterate_step max_iterations iteration p Hgo)
        as (Hit & Hlen & Hreach & Hsound).
      destruct (iterate iteration p) as [iteration' p'] eqn:Hiter.
      cbn [fst snd] in *. subst iteration'.
      destruct (IH (iteration + 1)%Z p') as (H1 & H2 & H3 & H4 & H5 & H6); [lia|].
      cbv zeta in *.
      apply keeps_going_inv in Hgo as [_ Hlt].
      split; [exact H1|]. split; [lia|]. split; [lia|]. split.
      * rewrite H4, Hlen. lia.
      * split; [auto|]. intros _. apply H6, Hsound.
    + cbn [fst snd]. rewrite Z.sub_diag. change (Z.to_nat 0) with 0%nat.
      rewrite Nat.add_0_r.
      split; [exact Hgo|]. split; [lia|]. split; [lia|].
      split; [reflexivity|]. split; auto.
Qed.

(** X27.  The adaptive loop of [execute] stops because its condition is
    false (the machine is in a terminal state or the budget is used up),
    never for lack of fuel; the number of rounds run is between 0 and the
    budget, where a [max_iterations] of [None] or 0 means the configured
    default of 10; and the machine has recorded exactly one transition per
    round. *)
Theorem adaptive_loop_accounting max_iterations p :
  let budget := iteration_budget max_iterations in
  let r := execute_loop max_iterations p in
  keeps_going budget r.1 r.2 = false
  ∧ (0 <= r.1 <= Z.max 0 budget)%Z
  ∧ length (state_history (state_machine r.2))
    = (length (state_history (state_machine p)) + Z.to_nat r.1)%nat
  ∧ (Workflow.reachable (state_machine p) ->
     Workflow.reachable (state_machine r.2)
     ∧ current_state (state_machine r.2) ≠ FAILED).
Proof.
  cbv zeta. unfold Pipeline.execute_loop. cbv zeta.
  destruct (adaptive_loop_spec (Z.to_nat (iteration_budget max_iterations))
              (iteration_budget max_iterations) 0 p)
    as (H1 & H2 & H3 & H4 & H5 & _); [lia|].
  cbv zeta in *. rewrite Z.sub_0_r in H4.
  split; [exact H1|]. split; [lia|]. split; [exact H4|].
  intros Hreach. split; [apply H5, Hreach|].
  apply failed_is_never_entered, H5, Hreach.
Qed.

(** X28.  The adaptive loop ends in COMPLETED only on confident research:
    started with a machine that is not COMPLETED, if the loop leaves the
    machine in COMPLETED then the research history is not empty, the mean
    step confidence exceeds 0.6 and the stagnation counter is at most 2. *)
Theorem loop_completes_only_on_confident_research max_iterations p :
  current_state (state_machine p) ≠ COMPLETED ->
  let r := execute_loop max_iterations p in
  current_state (state_machine r.2) = COMPLETED ->
  research_history r.2 ≠ []
  ∧ (6 # 10 < _calculate_confidence r.2)%Q
  ∧ (iterations_without_progress r.2 <= 2)%Z.
Proof.
  intros Hstart. cbv zeta. unfold Pipeline.execute_loop. cbv zeta.
  destruct (adaptive_loop_spec (Z.to_nat (iteration_budget max_iterations))
              (iteration_budget max_iterations) 0 p)
    as (_ & _ & _ & _ & _ & H6); [lia|].
  apply H6. intros E. contradiction.
Qed.

End Loop.

Lemma adaptive_loop_accounting_witness :
  (Pipeline.execute_loop lucky_activity (fun i => i) None fresh).1 = 10%Z
  ∧ current_state
      (state_machine (Pipeline.execute_loop lucky_activity (fun i => i) None fresh).2)
    ≠ FAILED.
Proof.
  split; [vm_compute; reflexivity|].
  apply (adaptive_loop_accounting lucky_activity (fun i => i) None fresh).
  apply Workflow.reach_init.
Defined.

Lemma loop_completes_only_on_confident_research_witness :
  (Pipeline.execute_loop improving_activity (fun i => i) None fresh).1 = 4%Z
  ∧ (6 # 10 < _calculate_confidence
                 (Pipeline.execute_loop improving_activity (fun i => i) None fresh).2)%Q.
Proof.
  split; [vm_compute; reflexivity|].
  apply (loop_completes_only_on_confident_research
           improving_activity (fun i => i) None fresh).
  - discriminate.
  - vm_compute. reflexivity.
Defined.

End PipelineSpec.
